(** * yaps.chat client: a shallow embedding of the chat client and its checks

    The development follows the TypeScript sources of the client:

    - [lib/crypto]                      (AES-256-GCM envelope),
    - [components/layout/chat-options]  (group-code input and validation),
    - [hooks/use-chat-web-sockets]      (the [useChat] hook),
    - [components/video-chat/webrtc-events] (signalling frames and listener),
    - [components/layout/playground]    (wiring of the two above, screens),
    - [components/chat/chat]            ([handleSend] and the partner),
    - [components/video-chat/video-chat-provider] and
      [components/chat-input/chat-input] (starting a video chat),
    - [components/essentials/share-group-code] (the share link).

    JavaScript strings are sequences of UTF-16 code units, buffers are
    sequences of octets; both are lists of [Z].  Exceptions are results of
    type [Completion]; React state is a record that is passed explicitly. *)

From Stdlib Require Import ZArith List Lia Bool String Ascii.
From Stdlib Require Import DecimalString.
Import ListNotations.

Local Open Scope Z_scope.

(* ===================================================================== *)
(** * JavaScript values                                                   *)
(* ===================================================================== *)

(** A JS string: its UTF-16 code units, each in [0, 65536). *)
Definition jsstring := list Z.

(** A [Buffer], [Uint8Array] or [ArrayBuffer]: its octets, each in [0, 256). *)
Definition bytes := list Z.

Definition is_code_unit (c : Z) : bool := (0 <=? c) && (c <? 65536).
Definition is_octet (b : Z) : bool := (0 <=? b) && (b <? 256).

(** An ASCII literal of the source as a JS string. *)
Definition lit (s : string) : jsstring :=
  map (fun a => Z.of_N (N_of_ascii a)) (list_ascii_of_string s).

(** The result of running a block that may throw. *)
Inductive Completion (A : Type) : Type :=
| Normal (a : A)
| Throw (error : string).
Arguments Normal {A} a.
Arguments Throw {A} error.

Definition bind {A B} (c : Completion A) (k : A -> Completion B) : Completion B :=
  match c with
  | Normal a => k a
  | Throw e => Throw e
  end.

(** [try { body } catch (error) { handler }] *)
Definition try_catch {A} (body : Completion A) (handler : string -> A) : A :=
  match body with
  | Normal a => a
  | Throw e => handler e
  end.

Declare Scope completion_scope.
Delimit Scope completion_scope with completion.
Notation "'let*' x ':=' c 'in' k" := (bind c (fun x => k))
  (at level 10, x pattern, c at level 100, k at level 200) : completion_scope.

Module JSString.

Definition eqb (s t : jsstring) : bool :=
  if list_eq_dec Z.eq_dec s t then true else false.

(** [s.length] *)
Definition length (s : jsstring) : Z := Z.of_nat (List.length s).

(** Truthiness of a string: only the empty string is falsy. *)
Definition truthy (s : jsstring) : bool :=
  match s with [] => false | _ :: _ => true end.

(** [s.substring(a, b)] for constant indices [0 <= a <= b]; indices past
    the end are clamped to the length. *)
Definition substring (a b : nat) (s : jsstring) : jsstring :=
  firstn (b - a) (skipn a s).

(** [s.startsWith(p)] *)
Fixpoint startsWith (p s : jsstring) : bool :=
  match p, s with
  | [], _ => true
  | _ :: _, [] => false
  | c :: p', d :: s' => (c =? d) && startsWith p' s'
  end.

(** [s.includes(p)] *)
Fixpoint includes (p s : jsstring) : bool :=
  startsWith p s ||
  match s with
  | [] => false
  | _ :: s' => includes p s'
  end.

(** The character class [[a-zA-Z0-9]]. *)
Definition isAlnum (c : Z) : bool :=
  ((97 <=? c) && (c <=? 122)) || ((65 <=? c) && (c <=? 90)) ||
  ((48 <=? c) && (c <=? 57)).

(** [s.replace(/[^a-zA-Z0-9]/g, '')] *)
Definition stripNonAlnum (s : jsstring) : jsstring := filter isAlnum s.

(** Matching [[a-zA-Z0-9]{n}] at the head of [s]: the rest after the match. *)
Fixpoint matchAlnumTimes (n : nat) (s : jsstring) : option jsstring :=
  match n with
  | O => Some s
  | S n' =>
      match s with
      | c :: s' => if isAlnum c then matchAlnumTimes n' s' else None
      | [] => None
      end
  end.

(** [/^[a-zA-Z0-9]{6}$/.test(s)]: no [m] flag, so [$] is the end of input. *)
Definition testCode6 (s : jsstring) : bool :=
  match matchAlnumTimes 6 s with
  | Some [] => true
  | _ => false
  end.

(** [s.split(sep)] for a separator of one code unit; never empty. *)
Fixpoint split (sep : Z) (s : jsstring) : list jsstring :=
  match s with
  | [] => [[]]
  | c :: s' =>
      if c =? sep then [] :: split sep s'
      else match split sep s' with
           | seg :: segs => (c :: seg) :: segs
           | [] => [[c]]
           end
  end.

(** The decimal digits of an integer, as in a template literal. *)
Definition ofZ (z : Z) : jsstring := lit (NilZero.string_of_int (Z.to_int z)).

(** The code units that [trim] removes: WhiteSpace and LineTerminator of
    ECMAScript. *)
Definition isWhiteSpace (c : Z) : bool :=
  ((9 <=? c) && (c <=? 13)) || (c =? 32) || (c =? 160) || (c =? 5760)
  || ((8192 <=? c) && (c <=? 8202)) || (c =? 8232) || (c =? 8233)
  || (c =? 8239) || (c =? 8287) || (c =? 12288) || (c =? 65279).

(** [s.trimStart()] *)
Fixpoint trimStart (s : jsstring) : jsstring :=
  match s with
  | [] => []
  | c :: s' => if isWhiteSpace c then trimStart s' else s
  end.

(** [s.trimEnd()] *)
Definition trimEnd (s : jsstring) : jsstring := rev (trimStart (rev s)).

(** [s.trim()] *)
Definition trim (s : jsstring) : jsstring := trimEnd (trimStart s).

End JSString.

(* ===================================================================== *)
(** * Text and binary encodings of the runtime                            *)
(* ===================================================================== *)

(** [Buffer.from(s, 'utf8')], [buf.toString('utf8')], [TextDecoder],
    [buf.toString('base64')], [Buffer.from(s, 'base64')] and
    [Buffer.from(s, 'hex')] belong to the runtime, not to the repository;
    they are written out here so that the client code can be evaluated. *)
Module Encoding.

Definition isHighSurrogate (c : Z) : bool := (55296 <=? c) && (c <=? 56319).
Definition isLowSurrogate (c : Z) : bool := (56320 <=? c) && (c <=? 57343).

(** [s.isWellFormed()]: no unpaired surrogate. *)
Fixpoint isWellFormed (s : jsstring) : bool :=
  match s with
  | [] => true
  | c :: s' =>
      if isHighSurrogate c then
        match s' with
        | d :: s'' => isLowSurrogate d && isWellFormed s''
        | [] => false
        end
      else negb (isLowSurrogate c) && isWellFormed s'
  end.

(** The code points of a string as the UTF-8 encoder reads them: a
    surrogate pair is one code point, an unpaired surrogate is replaced
    by U+FFFD. *)
Fixpoint codePoints (s : jsstring) : list Z :=
  match s with
  | [] => []
  | c :: s' =>
      if isHighSurrogate c then
        match s' with
        | d :: s'' =>
            if isLowSurrogate d
            then (65536 + (c - 55296) * 1024 + (d - 56320)) :: codePoints s''
            else 65533 :: codePoints s'
        | [] => [65533]
        end
      else if isLowSurrogate c then 65533 :: codePoints s'
      else c :: codePoints s'
  end.

Definition encodeCodePoint (cp : Z) : bytes :=
  if cp <? 128 then [cp]
  else if cp <? 2048 then [192 + cp / 64; 128 + cp mod 64]
  else if cp <? 65536 then
    [224 + cp / 4096; 128 + (cp / 64) mod 64; 128 + cp mod 64]
  else
    [240 + cp / 262144; 128 + (cp / 4096) mod 64;
     128 + (cp / 64) mod 64; 128 + cp mod 64].

(** [Buffer.from(s, 'utf8')] *)
Definition utf8_encode (s : jsstring) : bytes :=
  flat_map encodeCodePoint (codePoints s).

(** What the decoder does with a byte read in its initial state. *)
Inductive Lead : Type :=
| Emit (cp : Z)
| Need (cp : Z) (more : nat) (lower upper : Z)
| Invalid.

Definition decodeLead (b : Z) : Lead :=
  if b <=? 127 then Emit b
  else if (194 <=? b) && (b <=? 223) then Need (b mod 32) 1 128 191
  else if (224 <=? b) && (b <=? 239) then
    Need (b mod 16) 2 (if b =? 224 then 160 else 128)
                      (if b =? 237 then 159 else 191)
  else if (240 <=? b) && (b <=? 244) then
    Need (b mod 8) 3 (if b =? 240 then 144 else 128)
                     (if b =? 244 then 143 else 191)
  else Invalid.

(** The UTF-8 decoder of the Encoding standard, replacement mode: [more]
    continuation bytes are still expected for the code point [cp], the
    next one within [lower..upper].  A byte out of that range ends the
    sequence with U+FFFD and is read again as a lead byte. *)
Fixpoint decodeFrom (cp : Z) (more : nat) (lower upper : Z) (bs : bytes)
  : list Z :=
  match bs with
  | [] => match more with O => [] | S _ => [65533] end
  | b :: bs' =>
      let lead :=
        match decodeLead b with
        | Emit c => c :: decodeFrom 0 0 128 191 bs'
        | Need c n lo hi => decodeFrom c n lo hi bs'
        | Invalid => 65533 :: decodeFrom 0 0 128 191 bs'
        end in
      match more with
      | O => lead
      | S more' =>
          if (b <? lower) || (upper <? b) then 65533 :: lead
          else
            let c := cp * 64 + b mod 64 in
            match more' with
            | O => c :: decodeFrom 0 0 128 191 bs'
            | S _ => decodeFrom c more' 128 191 bs'
            end
      end
  end.

Definition toCodeUnits (cp : Z) : jsstring :=
  if cp <? 65536 then [cp]
  else [55296 + (cp - 65536) / 1024; 56320 + (cp - 65536) mod 1024].

(** [buf.toString('utf8')] *)
Definition utf8_decode (bs : bytes) : jsstring :=
  flat_map toCodeUnits (decodeFrom 0 0 128 191 bs).

(** [new TextDecoder('utf-8').decode(buf)]: not fatal, and a leading
    byte order mark is dropped. *)
Definition TextDecoder_decode (bs : bytes) : jsstring :=
  match bs with
  | 239 :: 187 :: 191 :: bs' => utf8_decode bs'
  | _ => utf8_decode bs
  end.

(** The base64 alphabet. *)
Definition b64char (i : Z) : Z :=
  if i <? 26 then 65 + i
  else if i <? 52 then 97 + (i - 26)
  else if i <? 62 then 48 + (i - 52)
  else if i =? 62 then 43
  else 47.

(** [buf.toString('base64')] *)
Fixpoint base64_encode (bs : bytes) : jsstring :=
  match bs with
  | [] => []
  | [a] => [b64char (a / 4); b64char ((a mod 4) * 16); 61; 61]
  | [a; b] =>
      [b64char (a / 4); b64char ((a mod 4) * 16 + b / 16);
       b64char ((b mod 16) * 4); 61]
  | a :: b :: c :: rest =>
      b64char (a / 4) :: b64char ((a mod 4) * 16 + b / 16)
      :: b64char ((b mod 16) * 4 + c / 64) :: b64char (c mod 64)
      :: base64_encode rest
  end.

(** The decoders of [Buffer.from(s, 'base64')] and [Buffer.from(s, 'hex')]
    read a code unit as one byte, its low byte: U+0130 counts as [0]. *)
Definition lowByte (c : Z) : Z := c mod 256.

(** The value of a base64 character; the URL-safe alphabet is accepted. *)
Definition b64value (c : Z) : option Z :=
  if (65 <=? c) && (c <=? 90) then Some (c - 65)
  else if (97 <=? c) && (c <=? 122) then Some (c - 97 + 26)
  else if (48 <=? c) && (c <=? 57) then Some (c - 48 + 52)
  else if (c =? 43) || (c =? 45) then Some 62
  else if (c =? 47) || (c =? 95) then Some 63
  else None.

(** The sextets of a base64 text, each code unit read by its low byte:
    characters outside the alphabet are skipped and the first [=] ends the
    input. *)
Fixpoint sextets (s : jsstring) : list Z :=
  match s with
  | [] => []
  | c :: s' =>
      if lowByte c =? 61 then []
      else match b64value (lowByte c) with
           | Some v => v :: sextets s'
           | None => sextets s'
           end
  end.

Fixpoint fromSextets (l : list Z) : bytes :=
  match l with
  | a :: b :: c :: d :: rest =>
      (a * 4 + b / 16) :: ((b mod 16) * 16 + c / 4) :: ((c mod 4) * 64 + d)
      :: fromSextets rest
  | [a; b; c] => [a * 4 + b / 16; (b mod 16) * 16 + c / 4]
  | [a; b] => [a * 4 + b / 16]
  | _ => []
  end.

(** [Buffer.from(s, 'base64')] *)
Definition base64_decode (s : jsstring) : bytes := fromSextets (sextets s).

Definition hexValue (c : Z) : option Z :=
  if (48 <=? c) && (c <=? 57) then Some (c - 48)
  else if (97 <=? c) && (c <=? 102) then Some (c - 97 + 10)
  else if (65 <=? c) && (c <=? 70) then Some (c - 65 + 10)
  else None.

Definition isHexDigit (c : Z) : bool :=
  match hexValue c with Some _ => true | None => false end.

(** [Buffer.from(s, 'hex')], each code unit read by its low byte:
    decoding stops at the first pair that is not two hexadecimal digits. *)
Fixpoint hex_decode (s : jsstring) : bytes :=
  match s with
  | a :: b :: rest =>
      match hexValue (lowByte a), hexValue (lowByte b) with
      | Some x, Some y => (x * 16 + y) :: hex_decode rest
      | _, _ => []
      end
  | _ => []
  end.

(** [buf.slice(start, end)]: a negative index counts from the end, and
    both are clamped to the buffer. *)
Definition slice (start stop : Z) (b : bytes) : bytes :=
  let len := Z.of_nat (List.length b) in
  let norm i := if i <? 0 then Z.max (len + i) 0 else Z.min i len in
  let s := norm start in
  let e := norm stop in
  if s <? e then firstn (Z.to_nat (e - s)) (skipn (Z.to_nat s) b) else [].

End Encoding.

(* ===================================================================== *)
(** * lib/crypto.ts                                                       *)
(* ===================================================================== *)

(** [string | ArrayBuffer] *)
Inductive MessageContent : Type :=
| TextContent (s : jsstring)
| BinaryContent (b : bytes).

(** [{ encrypted: string, nonce: string }] *)
Record EncryptedData : Type := {
  encrypted : jsstring;
  nonce : jsstring
}.

(** The ['aes-256-gcm'] cipher of the runtime.  [gcm_encrypt key iv plain]
    is [createCipheriv], [update], [final] and [getAuthTag]: the ciphertext
    and the tag.  [gcm_decrypt key iv cipher tag] is [createDecipheriv],
    [setAuthTag], [update] and [final].  Either throws on a bad key, and
    decryption throws when the tag does not authenticate the ciphertext. *)
Record AesGcm : Type := {
  gcm_encrypt : bytes -> bytes -> bytes -> Completion (bytes * bytes);
  gcm_decrypt : bytes -> bytes -> bytes -> bytes -> Completion bytes
}.

Definition octets (b : bytes) : Prop := Forall (fun x => is_octet x = true) b.

(** What the client relies on: under a 32-byte key and a 12-byte nonce,
    encryption succeeds with a 16-byte tag, and decryption under the same
    key and nonce gives the plaintext back. *)
Definition AesGcm_correct (aes : AesGcm) : Prop :=
  forall key iv plain,
    List.length key = 32%nat -> List.length iv = 12%nat -> octets plain ->
    exists cipher tag,
      gcm_encrypt aes key iv plain = Normal (cipher, tag) /\
      List.length tag = 16%nat /\ octets cipher /\ octets tag /\
      gcm_decrypt aes key iv cipher tag = Normal plain.

Module Crypto.

Section WithRuntime.

Variable aes : AesGcm.

(** [process.env.CRYPTO_KEY] *)
Variable CRYPTO_KEY : option jsstring.

Definition getEncryptionKey : Completion bytes :=
  match CRYPTO_KEY with
  | None => Throw "Encryption key not found in environment variables"
  | Some key =>
      if negb (JSString.truthy key) then
        Throw "Encryption key not found in environment variables"
      else if JSString.length key =? 64 then
        Normal (Encoding.hex_decode key)
      else if JSString.length key =? 32 then
        Normal (Encoding.utf8_encode key)
      else
        Throw "Invalid encryption key format or length. Key must be 32 bytes (64 hex chars)"
  end.

(** [encryptMessage]; [nonce] is the result of [randomBytes(12)]. *)
Definition encryptMessage (nonce : bytes) (message : MessageContent)
  : Completion EncryptedData :=
  match
    (let* key := getEncryptionKey in
     let inputBuffer :=
       match message with
       | TextContent s => Encoding.utf8_encode s
       | BinaryContent b => b
       end in
     let* (encryptedBuffer, authTag) := gcm_encrypt aes key nonce inputBuffer in
     Normal {| encrypted := Encoding.base64_encode (encryptedBuffer ++ authTag);
               nonce := Encoding.base64_encode nonce |})%completion
  with
  | Normal r => Normal r
  | Throw e => Throw ("Encryption failed: " ++ e)
  end.

Definition decryptMessage (encryptedData : EncryptedData) : Completion bytes :=
  match
    (let encryptedBuffer := Encoding.base64_decode (encrypted encryptedData) in
     let nonce := Encoding.base64_decode (nonce encryptedData) in
     let len := Z.of_nat (List.length encryptedBuffer) in
     let authTag := Encoding.slice (len - 16) len encryptedBuffer in
     let encryptedMessage := Encoding.slice 0 (len - 16) encryptedBuffer in
     let* key := getEncryptionKey in
     gcm_decrypt aes key nonce encryptedMessage authTag)%completion
  with
  | Normal r => Normal r
  | Throw e => Throw ("Decryption failed: " ++ e)
  end.

End WithRuntime.

End Crypto.

(* ===================================================================== *)
(** * components/layout/chat-options.tsx                                  *)
(* ===================================================================== *)

Inductive GroupJoinMethod : Type := create | join.

Module ChatOptions.

(** What a click on the join button did. *)
Inductive JoinOutcome (A : Type) : Type :=
| ToastInvalidGroupCode
| StartGroupChat (call : A).
Arguments ToastInvalidGroupCode {A}.
Arguments StartGroupChat {A} call.

(** [handleJoinByCode], with [groupCode] the component state and
    [onStartGroupChat] the prop. *)
Definition handleJoinByCode {A : Type}
    (onStartGroupChat : GroupJoinMethod -> option jsstring -> A)
    (groupCode : jsstring) : JoinOutcome A :=
  if negb (JSString.truthy groupCode)
     || negb (JSString.length groupCode =? 6)
     || negb (JSString.testCode6 groupCode)
  then ToastInvalidGroupCode
  else StartGroupChat (onStartGroupChat join (Some groupCode)).

(** [handleKeyPress], with [key] the [key] of the keyboard event: what
    [handleJoinByCode] did, if it was called. *)
Definition handleKeyPress {A : Type}
    (onStartGroupChat : GroupJoinMethod -> option jsstring -> A)
    (groupCode : jsstring) (key : jsstring) : option (JoinOutcome A) :=
  if JSString.eqb key (lit "Enter") && JSString.truthy (JSString.trim groupCode)
  then Some (handleJoinByCode onStartGroupChat groupCode)
  else None.

Section Input.

(** [new URL(input).pathname]; [Throw] when the constructor raises a
    [TypeError]. *)
Variable URL_pathname : jsstring -> Completion jsstring.

Definition extractCodeFromInput (input : jsstring) : Completion jsstring :=
  if JSString.includes (lit "://") input then
    (let* pathname := URL_pathname input in
     let pathSegments := JSString.split 47 pathname in
     let lastSegment := last pathSegments [] in
     Normal (JSString.substring 0 6 lastSegment))%completion
  else if JSString.startsWith (lit "/") input then
    Normal (JSString.substring 1 7 input)
  else
    Normal (JSString.substring 0 6 input).

(** The [onChange] handler of the input: the value given to
    [setGroupCode]. *)
Definition onChange (value : jsstring) : jsstring :=
  try_catch
    (let* code := extractCodeFromInput value in
     Normal (JSString.substring 0 6 (JSString.stripNonAlnum code)))%completion
    (fun _ => JSString.substring 0 6 (JSString.stripNonAlnum value)).

End Input.

End ChatOptions.

(* ===================================================================== *)
(** * Frames and the WebSocket                                            *)
(* ===================================================================== *)

(** Values given to [JSON.stringify].  [JNumberOf s] is the number
    [Number(s)]; the conversion itself is left to the runtime. *)
#[local] Unset Elimination Schemes.
Inductive JSON : Type :=
| JNull
| JBool (b : bool)
| JNumberOf (s : jsstring)
| JString (s : jsstring)
| JObject (fields : list (string * JSON)).
#[local] Set Elimination Schemes.

(** An object literal as [JSON.stringify] writes it: a property whose
    value is [undefined] is left out. *)
Definition object (fields : list (string * option JSON)) : JSON :=
  JObject
    (flat_map (fun kv => match snd kv with
                         | Some v => [(fst kv, v)]
                         | None => []
                         end) fields).

(** [string | null] as a JSON value. *)
Definition nullable (s : option jsstring) : JSON :=
  match s with
  | Some v => JString v
  | None => JNull
  end.

(** The value of property [k], when the object has it. *)
Definition property (k : string) (v : JSON) : option JSON :=
  match v with
  | JObject fs =>
      match find (fun kv => String.eqb (fst kv) k) fs with
      | Some kv => Some (snd kv)
      | None => None
      end
  | _ => None
  end.

(** The property names of an object, in order. *)
Definition keys (v : JSON) : list string :=
  match v with
  | JObject fs => map fst fs
  | _ => []
  end.

(** The text [JSON.stringify({ event, data })] handed to [send]. *)
Record Frame : Type := {
  event : string;
  data : JSON
}.

Inductive ReadyState : Type := CONNECTING | OPEN | CLOSING | CLOSED.

Definition isOPEN (r : ReadyState) : bool :=
  match r with OPEN => true | _ => false end.

(** A WebSocket: its state, the frames it has transmitted, and the user
    profile held by the [onopen] handler that [connect] installs. *)
Record WebSocket : Type := {
  readyState : ReadyState;
  sent : list Frame;
  onopenProfile : option JSON
}.

Definition transmit (ws : WebSocket) (f : Frame) : WebSocket :=
  {| readyState := readyState ws;
     sent := sent ws ++ [f];
     onopenProfile := onopenProfile ws |}.

(** [ws.send(text)]: throws while connecting, transmits when open, and
    discards the data once the socket is closing or closed. *)
Definition WebSocket_send (ws : WebSocket) (f : Frame) : Completion WebSocket :=
  match readyState ws with
  | CONNECTING => Throw "InvalidStateError"
  | OPEN => Normal (transmit ws f)
  | CLOSING | CLOSED => Normal ws
  end.

(** [ws.close()] *)
Definition WebSocket_close (ws : WebSocket) : WebSocket :=
  {| readyState := match readyState ws with CLOSED => CLOSED | _ => CLOSING end;
     sent := sent ws;
     onopenProfile := onopenProfile ws |}.

(** The frames with a given event name. *)
Definition framesOf (name : string) (l : list Frame) : list Frame :=
  filter (fun f => String.eqb (event f) name) l.

(* ===================================================================== *)
(** * lib/types and hooks/use-chat-web-sockets.tsx                        *)
(* ===================================================================== *)

Inductive MessageRole : Type := user | assistant.

(** The variants of [Message] that the hook builds. *)
Inductive MessageBody : Type :=
| text (content : jsstring)
| file (fileName : jsstring) (fileSize : Z) (fileType : jsstring) (fileData : bytes)
| notification (content : jsstring).

Record Message : Type := {
  id : jsstring;
  sender : jsstring;
  isOwnMessage : bool;
  replyToId : option jsstring;
  messageIndex : Z;
  role : MessageRole;
  timestamp : Z;
  body : MessageBody
}.

(** [UserProfile]; an optional property that is [undefined] is [None]. *)
Record UserProfile : Type := {
  user_id : jsstring;
  username : jsstring;
  preference : jsstring;
  gender : jsstring;
  room_type : jsstring;
  group_code : option jsstring;
  group_join_method : option GroupJoinMethod
}.

Definition GroupJoinMethod_json (m : GroupJoinMethod) : JSON :=
  match m with
  | create => JString (lit "create")
  | join => JString (lit "join")
  end.

(** The profile as [JSON.stringify] writes it, properties in the order in
    which the object got them. *)
Definition UserProfile_json (p : UserProfile) : JSON :=
  object
    [ ("user_id", Some (JString (user_id p)));
      ("username", Some (JString (username p)));
      ("preference", Some (JString (preference p)));
      ("gender", Some (JString (gender p)));
      ("room_type", Some (JString (room_type p)));
      ("group_join_method", option_map GroupJoinMethod_json (group_join_method p));
      ("group_code", option_map JString (group_code p)) ]%string.

Definition EncryptedData_json (e : EncryptedData) : JSON :=
  object [ ("encrypted", Some (JString (encrypted e)));
           ("nonce", Some (JString (nonce e))) ]%string.

(** The [useState] cells of [useChat]. *)
Record ChatState : Type := {
  messages : list Message;
  messageCounter : Z;
  connected : bool;
  isGroupChat : bool;
  groupCode : option jsstring;
  groupMembers : list jsstring;
  partnerTyping : bool;
  partnerDisconnected : bool;
  connecting : bool;
  currentReplyTo : option jsstring
}.

(** The refs of [useChat] and the browser state it touches: the two
    [localStorage] items, and the sockets that [disconnect] has closed and
    let go of. *)
Record Refs : Type := {
  socketRef : option WebSocket;
  userIdRef : option jsstring;
  errorToastRef : bool;
  storedUserId : option jsstring;
  storedUsername : option jsstring;
  released : list WebSocket
}.

Record Hook : Type := {
  state : ChatState;
  refs : Refs
}.

(** What one call draws from outside: [uuidv4()] for a message and for a
    user id, [Date.now()] for a timestamp and for a file id,
    [randomBytes(12)], and whether [new WebSocket(serverUrl)] returns. *)
Record Fresh : Type := {
  messageUuid : jsstring;
  userUuid : jsstring;
  now : Z;
  fileNow : Z;
  randomBytes12 : bytes;
  socketCreated : bool
}.

(** Events of the server, with the fields of [data] that the handlers read.
    A [message], [groupCode] or [messageId] that is absent or [null] is
    [None].  A [reply_to] is [None] only when it is absent or [undefined],
    which is what the handler tests; otherwise it is [Some] of
    [String(reply_to)], the text [null] for a [reply_to] that is [null]. *)
Record ReceivedEnvelope : Type := {
  env_encrypted : jsstring;
  env_nonce : jsstring;
  env_reply_to : option jsstring
}.

Record ReceiveMessageData : Type := {
  rm_sender : jsstring;
  rm_message : option ReceivedEnvelope;
  rm_reply_to : option jsstring
}.

(** A [chat_started] frame is [chat_started groupCode] when it has a [data]
    that is neither [undefined] nor [null], and [chat_started_without_data]
    when its [data] is missing or [null]. *)
Inductive ServerEvent : Type :=
| chat_started (groupCode : option jsstring)
| chat_started_without_data
| receive_message (data : ReceiveMessageData)
| group_members_update (members : list jsstring)
| user_joined_group (username : jsstring)
| user_left_group (username : jsstring)
| typing_started
| typing_stopped
| message_deleted (messageId : option jsstring)
| file_sending_started
| file_sending_ended
| partner_disconnected
| waiting_for_match
| no_match_found
| group_not_found
| unknown_event.

(** How the promise returned by [sendMessage] stands when the synchronous
    part of the call is over. *)
Inductive SendResult : Type :=
| Rejected (reason : string)
| Resolved
| AwaitingDelay (fileId : jsstring).

Module UseChat.

(** ** State setters *)

Definition setMessages (f : list Message -> list Message) (s : ChatState) : ChatState :=
  {| messages := f (messages s); messageCounter := messageCounter s;
     connected := connected s; isGroupChat := isGroupChat s;
     groupCode := groupCode s; groupMembers := groupMembers s;
     partnerTyping := partnerTyping s;
     partnerDisconnected := partnerDisconnected s;
     connecting := connecting s; currentReplyTo := currentReplyTo s |}.

Definition setMessageCounter (f : Z -> Z) (s : ChatState) : ChatState :=
  {| messages := messages s; messageCounter := f (messageCounter s);
     connected := connected s; isGroupChat := isGroupChat s;
     groupCode := groupCode s; groupMembers := groupMembers s;
     partnerTyping := partnerTyping s;
     partnerDisconnected := partnerDisconnected s;
     connecting := connecting s; currentReplyTo := currentReplyTo s |}.

Definition setConnected (b : bool) (s : ChatState) : ChatState :=
  {| messages := messages s; messageCounter := messageCounter s;
     connected := b; isGroupChat := isGroupChat s;
     groupCode := groupCode s; groupMembers := groupMembers s;
     partnerTyping := partnerTyping s;
     partnerDisconnected := partnerDisconnected s;
     connecting := connecting s; currentReplyTo := currentReplyTo s |}.

Definition setIsGroupChat (b : bool) (s : ChatState) : ChatState :=
  {| messages := messages s; messageCounter := messageCounter s;
     connected := connected s; isGroupChat := b;
     groupCode := groupCode s; groupMembers := groupMembers s;
     partnerTyping := partnerTyping s;
     partnerDisconnected := partnerDisconnected s;
     connecting := connecting s; currentReplyTo := currentReplyTo s |}.

Definition setGroupCode (c : option jsstring) (s : ChatState) : ChatState :=
  {| messages := messages s; messageCounter := messageCounter s;
     connected := connected s; isGroupChat := isGroupChat s;
     groupCode := c; groupMembers := groupMembers s;
     partnerTyping := partnerTyping s;
     partnerDisconnected := partnerDisconnected s;
     connecting := connecting s; currentReplyTo := currentReplyTo s |}.

Definition setGroupMembers (m : list jsstring) (s : ChatState) : ChatState :=
  {| messages := messages s; messageCounter := messageCounter s;
     connected := connected s; isGroupChat := isGroupChat s;
     groupCode := groupCode s; groupMembers := m;
     partnerTyping := partnerTyping s;
     partnerDisconnected := partnerDisconnected s;
     connecting := connecting s; currentReplyTo := currentReplyTo s |}.

Definition setPartnerTyping (b : bool) (s : ChatState) : ChatState :=
  {| messages := messages s; messageCounter := messageCounter s;
     connected := connected s; isGroupChat := isGroupChat s;
     groupCode := groupCode s; groupMembers := groupMembers s;
     partnerTyping := b;
     partnerDisconnected := partnerDisconnected s;
     connecting := connecting s; currentReplyTo := currentReplyTo s |}.

Definition setPartnerDisconnected (b : bool) (s : ChatState) : ChatState :=
  {| messages := messages s; messageCounter := messageCounter s;
     connected := connected s; isGroupChat := isGroupChat s;
     groupCode := groupCode s; groupMembers := groupMembers s;
     partnerTyping := partnerTyping s;
     partnerDisconnected := b;
     connecting := connecting s; currentReplyTo := currentReplyTo s |}.

Definition setConnecting (b : bool) (s : ChatState) : ChatState :=
  {| messages := messages s; messageCounter := messageCounter s;
     connected := connected s; isGroupChat := isGroupChat s;
     groupCode := groupCode s; groupMembers := groupMembers s;
     partnerTyping := partnerTyping s;
     partnerDisconnected := partnerDisconnected s;
     connecting := b; currentReplyTo := currentReplyTo s |}.

Definition setCurrentReplyTo (r : option jsstring) (s : ChatState) : ChatState :=
  {| messages := messages s; messageCounter := messageCounter s;
     connected := connected s; isGroupChat := isGroupChat s;
     groupCode := groupCode s; groupMembers := groupMembers s;
     partnerTyping := partnerTyping s;
     partnerDisconnected := partnerDisconnected s;
     connecting := connecting s; currentReplyTo := r |}.

Definition withState (f : ChatState -> ChatState) (h : Hook) : Hook :=
  {| state := f (state h); refs := refs h |}.

Definition withRefs (f : Refs -> Refs) (h : Hook) : Hook :=
  {| state := state h; refs := f (refs h) |}.

Definition setSocketRef (ws : option WebSocket) (r : Refs) : Refs :=
  {| socketRef := ws; userIdRef := userIdRef r;
     errorToastRef := errorToastRef r; storedUserId := storedUserId r;
     storedUsername := storedUsername r; released := released r |}.

Definition setErrorToastRef (b : bool) (r : Refs) : Refs :=
  {| socketRef := socketRef r; userIdRef := userIdRef r;
     errorToastRef := b; storedUserId := storedUserId r;
     storedUsername := storedUsername r; released := released r |}.

Definition release (ws : WebSocket) (r : Refs) : Refs :=
  {| socketRef := socketRef r; userIdRef := userIdRef r;
     errorToastRef := errorToastRef r; storedUserId := storedUserId r;
     storedUsername := storedUsername r; released := released r ++ [ws] |}.

(** The frames that the current socket has transmitted. *)
Definition wire (h : Hook) : list Frame :=
  match socketRef (refs h) with
  | Some ws => sent ws
  | None => []
  end.

(** A string or [null] that is truthy. *)
Definition present (s : option jsstring) : bool :=
  match s with
  | Some v => JSString.truthy v
  | None => false
  end.

(** ** The functions of the hook *)

Definition valueOr (d : jsstring) (s : option jsstring) : jsstring :=
  match s with
  | Some v => v
  | None => d
  end.

(** [getUserId]: the id and the refs after the call. *)
Definition getUserId (fresh : Fresh) (r : Refs) : jsstring * Refs :=
  if present (userIdRef r) then (valueOr [] (userIdRef r), r)
  else
    let userId := if present (storedUserId r)
                  then valueOr [] (storedUserId r)
                  else userUuid fresh in
    (userId,
     {| socketRef := socketRef r; userIdRef := Some userId;
        errorToastRef := errorToastRef r; storedUserId := Some userId;
        storedUsername := storedUsername r; released := released r |}).

Definition getUserGender : jsstring := lit "default".

Definition resetState (s : ChatState) : ChatState :=
  setPartnerDisconnected false
    (setPartnerTyping false
       (setGroupMembers []
          (setGroupCode None
             (setIsGroupChat false
                (setConnected false (setMessages (fun _ => []) s)))))).

Definition sendJsonMessage (eventName : string) (data : JSON) (r : Refs) : Refs :=
  match socketRef r with
  | None => r
  | Some ws =>
      if negb (isOPEN (readyState ws)) then r
      else setSocketRef (Some (transmit ws {| event := eventName; data := data |})) r
  end.

Definition disconnect (h : Hook) : Hook :=
  let h1 :=
    match socketRef (refs h) with
    | Some _ =>
        let r1 := sendJsonMessage "disconnect_chat" (object []) (refs h) in
        let r2 := match socketRef r1 with
                  | Some ws => release (WebSocket_close ws) (setSocketRef None r1)
                  | None => r1
                  end in
        {| state := state h; refs := r2 |}
    | None => h
    end in
  withState resetState h1.

(** [connect].  The handlers it installs on the socket are [onopen]
    below and [handleServerEvent]. *)
Definition connect (fresh : Fresh) (preference : jsstring)
    (groupJoinMethod : option GroupJoinMethod)
    (customGroupCode : option jsstring) (h : Hook) : Hook :=
  let h1 := match socketRef (refs h) with
            | Some _ => disconnect h
            | None => h
            end in
  let h2 := withState (fun s => setConnecting true (resetState s)) h1 in
  let h3 := withRefs (setErrorToastRef false) h2 in
  let (userId, r4) := getUserId fresh (refs h3) in
  let isGroup := JSString.eqb preference (lit "group") in
  let userProfile :=
    {| user_id := userId;
       username :=
         if present (storedUsername r4) then valueOr [] (storedUsername r4)
         else lit "User_" ++ JSString.substring 0 5 userId;
       preference := preference;
       gender := getUserGender;
       room_type := if isGroup then lit "group" else lit "couple";
       group_join_method := if isGroup then groupJoinMethod else None;
       group_code :=
         if isGroup then
           match groupJoinMethod with
           | Some join => if present customGroupCode then customGroupCode else None
           | _ => None
           end
         else None |} in
  if socketCreated fresh then
    {| state := state h3;
       refs := setSocketRef
                 (Some {| readyState := CONNECTING; sent := [];
                          onopenProfile := Some (UserProfile_json userProfile) |})
                 r4 |}
  else
    (* the constructor threw: the catch block *)
    {| state := setConnecting false (state h3);
       refs := match socketRef r4 with
               | Some ws => release (WebSocket_close ws) (setSocketRef None r4)
               | None => r4
               end |}.

(** The current socket opens: it becomes [OPEN] and its [onopen]
    handler sends the profile. *)
Definition onopen (h : Hook) : Hook :=
  match socketRef (refs h) with
  | Some ws =>
      match readyState ws, onopenProfile ws with
      | CONNECTING, Some userProfile =>
          let opened := {| readyState := OPEN; sent := sent ws;
                           onopenProfile := onopenProfile ws |} in
          withRefs (fun r => sendJsonMessage "join_chat" userProfile
                               (setSocketRef (Some opened) r)) h
      | _, _ => h
      end
  | None => h
  end.

(** The current socket closes: the [onclose] handler, with its timer run.
    The handler is the one that [connect] installed, so [view] is the
    state that [connect] closed over. *)
Definition onclose (view : ChatState) (h : Hook) : Hook :=
  match socketRef (refs h) with
  | Some ws =>
      let closed := {| readyState := CLOSED; sent := sent ws;
                       onopenProfile := onopenProfile ws |} in
      let s1 := setConnecting false (state h) in
      {| state := if connected view then resetState s1 else s1;
         refs := setSocketRef (Some closed) (refs h) |}
  | None => h
  end.

(** ** Handlers of server events

    [view] is the state as the closure of the handler sees it; setters
    act on the current state. *)

Definition systemNotification (view : ChatState) (fresh : Fresh)
    (content : jsstring) : Message :=
  {| id := messageUuid fresh;
     sender := lit "system";
     isOwnMessage := false;
     replyToId := None;
     messageIndex := messageCounter view;
     role := assistant;
     timestamp := now fresh;
     body := notification content |}.

(** [handleChatStarted] called with a [data] that is neither [undefined]
    nor [null]; [dataGroupCode] is its [groupCode] property. *)
Definition handleChatStarted (view : ChatState) (fresh : Fresh)
    (dataGroupCode : option jsstring) (s : ChatState) : ChatState :=
  let s1 := setPartnerDisconnected false (setConnecting false (setConnected true s)) in
  if present dataGroupCode then
    let code := valueOr [] dataGroupCode in
    let s2 := setGroupCode dataGroupCode (setIsGroupChat true s1) in
    let s3 := setMessages
                (fun _ => [systemNotification view fresh
                             (lit "You've joined a group chat. Group code: " ++ code)])
                s2 in
    setMessageCounter (fun prevCounter => prevCounter + 1) s3
  else
    let s2 := setIsGroupChat false s1 in
    let s3 := setMessages
                (fun _ => [systemNotification view fresh
                             (lit "You're now chatting with a random stranger. Say Yaps!")])
                s2 in
    setMessageCounter (fun prevCounter => prevCounter + 1) s3.

Definition appendNotification (view : ChatState) (fresh : Fresh)
    (content : jsstring) (s : ChatState) : ChatState :=
  setMessageCounter (fun prevCounter => prevCounter + 1)
    (setMessages (fun prev => prev ++ [systemNotification view fresh content]) s).

Definition replaceWithNotification (view : ChatState) (fresh : Fresh)
    (content : jsstring) (s : ChatState) : ChatState :=
  setMessageCounter (fun prevCounter => prevCounter + 1)
    (setMessages (fun _ => [systemNotification view fresh content]) s).

Definition handleGroupMembersUpdate (members : list jsstring) (s : ChatState) :=
  setGroupMembers members s.

Definition handleUserJoinedGroup (view : ChatState) (fresh : Fresh)
    (username : jsstring) (s : ChatState) : ChatState :=
  appendNotification view fresh (username ++ lit " has joined the group chat") s.

Definition handleUserLeftGroup (view : ChatState) (fresh : Fresh)
    (username : jsstring) (s : ChatState) : ChatState :=
  appendNotification view fresh (username ++ lit " has left the group chat") s.

Definition handleTypingStarted (view : ChatState) (s : ChatState) : ChatState :=
  if isGroupChat view then s else setPartnerTyping true s.

Definition handleTypingStopped (s : ChatState) : ChatState :=
  setPartnerTyping false s.

Definition handlePartnerDisconnected (s : ChatState) : ChatState :=
  setConnected false (setPartnerDisconnected true (setPartnerTyping false s)).

Definition handleWaitingForMatch (view : ChatState) (fresh : Fresh)
    (s : ChatState) : ChatState :=
  replaceWithNotification view fresh
    (lit "Waiting for someone to chat with you...") s.

Definition handleNoMatchFound (view : ChatState) (fresh : Fresh)
    (s : ChatState) : ChatState :=
  setConnecting false
    (replaceWithNotification view fresh
       (lit "No matching users found at the moment. Please try again later.")
       (setConnected false s)).

Definition handleGroupNotFound (view : ChatState) (fresh : Fresh)
    (s : ChatState) : ChatState :=
  setConnecting false
    (replaceWithNotification view fresh
       (lit "Group not found. Please check the code and try again.")
       (setConnected false s)).

(** [msg.id !== messageId] *)
Definition differsFrom (messageId : option jsstring) (msg : Message) : bool :=
  match messageId with
  | Some m => negb (JSString.eqb (id msg) m)
  | None => true
  end.

Definition handleMessageDeleted (dataMessageId : option jsstring)
    (s : ChatState) : ChatState :=
  setMessages (fun prev => filter (differsFrom dataMessageId) prev) s.

(** [handleChatStarted] called with a [data] that is [undefined] or
    [null]: the three setters run, then [data.groupCode] throws.  The
    value is the state that the setters leave and the error thrown. *)
Definition handleChatStarted_withoutData (s : ChatState)
  : ChatState * Completion unit :=
  (setPartnerDisconnected false (setConnecting false (setConnected true s)),
   Throw "TypeError: Cannot read properties of undefined (reading 'groupCode')").

(** [handleServerEvent] for the events other than [receive_message], as
    the [onmessage] handler calls it: an error thrown by a handler is
    caught there and logged. *)
Definition handlePlainEvent (view : ChatState) (fresh : Fresh)
    (ev : ServerEvent) (s : ChatState) : ChatState :=
  match ev with
  | chat_started dataGroupCode => handleChatStarted view fresh dataGroupCode s
  | chat_started_without_data => fst (handleChatStarted_withoutData s)
  | group_members_update members => handleGroupMembersUpdate members s
  | user_joined_group username => handleUserJoinedGroup view fresh username s
  | user_left_group username => handleUserLeftGroup view fresh username s
  | typing_started => handleTypingStarted view s
  | typing_stopped => handleTypingStopped s
  | message_deleted dataMessageId => handleMessageDeleted dataMessageId s
  | partner_disconnected => handlePartnerDisconnected s
  | waiting_for_match => handleWaitingForMatch view fresh s
  | no_match_found => handleNoMatchFound view fresh s
  | group_not_found => handleGroupNotFound view fresh s
  | receive_message _ | file_sending_started | file_sending_ended
  | unknown_event => s
  end.

(** [/[\x00-\x08\x0B\x0C\x0E-\x1F]/.test(s)] *)
Definition hasControlChars (s : jsstring) : bool :=
  existsb (fun c => ((0 <=? c) && (c <=? 8)) || (c =? 11) || (c =? 12)
                    || ((14 <=? c) && (c <=? 31))) s.

(** [new Uint8Array(buffer, byteOffset, length)] *)
Definition Uint8Array_view (buffer : bytes) (byteOffset len : nat)
  : Completion bytes :=
  if (byteOffset + len <=? List.length buffer)%nat
  then Normal (firstn len (skipn byteOffset buffer))
  else Throw "RangeError: Invalid typed array length".

(** The magic numbers of JPEG, PNG and GIF. *)
Definition isProbablyImage (header : bytes) : bool :=
  let at_ i := nth i header (-1) in
  ((at_ 0%nat =? 255) && (at_ 1%nat =? 216))
  || ((at_ 0%nat =? 137) && (at_ 1%nat =? 80) && (at_ 2%nat =? 78) && (at_ 3%nat =? 71))
  || ((at_ 0%nat =? 71) && (at_ 1%nat =? 73) && (at_ 2%nat =? 70) && (at_ 3%nat =? 56)).

Section WithRuntime.

Variable aes : AesGcm.
Variable CRYPTO_KEY : option jsstring.

(** [/^[\p{L}\p{M}\p{Z}\p{S}\p{N}\p{P}]+$/u.test(s)]: the Unicode
    property tables belong to the runtime. *)
Variable unicodeTextRegex : jsstring -> bool.

(** The [try] block of [handleReceiveMessage] up to the message it
    builds. *)
Definition receivedMessage (view : ChatState) (fresh : Fresh)
    (data : ReceiveMessageData) : Completion Message :=
  (let* envelope :=
     match rm_message data with
     | Some e => Normal e
     | None => Throw "TypeError: Cannot read properties of undefined"
     end in
   let* decryptedBuffer :=
     Crypto.decryptMessage aes CRYPTO_KEY
       {| encrypted := env_encrypted envelope; nonce := env_nonce envelope |} in
   let decodedText := Encoding.utf8_decode decryptedBuffer in
   let isText :=
     if JSString.startsWith (lit "data:image") decodedText then true
     else negb (hasControlChars decodedText)
          || (JSString.length decodedText <? 1000)
          || unicodeTextRegex decodedText in
   let fileSize := Z.of_nat (List.length decryptedBuffer) in
   let replyToId :=
     match env_reply_to envelope with
     | Some r => Some r
     | None => rm_reply_to data
     end in
   Normal
     {| id := messageUuid fresh;
        sender := rm_sender data;
        isOwnMessage := false;
        replyToId := replyToId;
        messageIndex := messageCounter view;
        role := assistant;
        timestamp := now fresh;
        body :=
          if isText then text decodedText
          else if negb (fileSize =? 0)
               then file (lit "image.png") fileSize (lit "image/png") decryptedBuffer
               else text (lit "Image file") |})%completion.

Definition handleReceiveMessage (view : ChatState) (fresh : Fresh)
    (data : ReceiveMessageData) (s : ChatState) : ChatState :=
  try_catch
    (let* newMsg := receivedMessage view fresh data in
     Normal (setMessageCounter (fun prevCounter => prevCounter + 1)
               (setMessages (fun prev => prev ++ [newMsg]) s)))%completion
    (fun _ =>
       appendNotification view fresh
         (lit "Could not decrypt message. Encryption key may be invalid.") s).

Definition handleServerEvent (view : ChatState) (fresh : Fresh)
    (ev : ServerEvent) (s : ChatState) : ChatState :=
  match ev with
  | receive_message data => handleReceiveMessage view fresh data s
  | _ => handlePlainEvent view fresh ev s
  end.

(** What [sendMessage] makes of its argument before encrypting: the
    content to encrypt and, for an image, the file id.  The frames are
    those of the refs returned. *)
Definition prepare (view : ChatState) (fresh : Fresh)
    (content : MessageContent) (r : Refs)
  : Completion (MessageContent * option jsstring * Refs) :=
  match content with
  | TextContent s => Normal (TextContent s, None, r)
  | BinaryContent b =>
      (let* header := Uint8Array_view b 0 8 in
       if negb (isProbablyImage header) then
         Normal (TextContent (Encoding.TextDecoder_decode b), None, r)
       else
         let fileId := lit "file-" ++ JSString.ofZ (fileNow fresh) in
         Normal (BinaryContent b, Some fileId,
                 sendJsonMessage "file_sending_start"
                   (object [ ("file_id", Some (JString fileId));
                             ("is_group_chat", Some (JBool (isGroupChat view)));
                             ("group_code", Some (nullable (groupCode view))) ]%string)
                   r))%completion
  end.

(** [sendMessage] up to the point where its promise settles or waits
    for the 500 ms timer. *)
Definition sendMessage (view : ChatState) (fresh : Fresh)
    (content : MessageContent) (replyToId : option jsstring) (h : Hook)
  : Hook * SendResult :=
  match socketRef (refs h) with
  | None => (h, Rejected "Not connected to chat")
  | Some _ =>
      if negb (connected view) then (h, Rejected "Not connected to chat")
      else
        match prepare view fresh content (refs h) with
        | Throw e => (h, Rejected e)
        | Normal (messageToSend, fileId, r1) =>
            match Crypto.encryptMessage aes CRYPTO_KEY (randomBytes12 fresh)
                    messageToSend with
            | Throw e => ({| state := state h; refs := r1 |}, Rejected e)
            | Normal encryptedData =>
                let (senderId, r2) := getUserId fresh r1 in
                let newMessage :=
                  {| id := messageUuid fresh;
                     sender := senderId;
                     isOwnMessage := true;
                     replyToId := replyToId;
                     messageIndex := messageCounter view;
                     role := user;
                     timestamp := now fresh;
                     body :=
                       match messageToSend with
                       | TextContent s => text s
                       | BinaryContent b =>
                           let fileSize := Z.of_nat (List.length b) in
                           if negb (fileSize =? 0)
                           then file (lit "image.png") fileSize (lit "image/png") b
                           else text (lit "Error: Could not determine message format")
                       end |} in
                let s1 := setMessageCounter (fun prevCounter => prevCounter + 1)
                            (setMessages (fun prev => prev ++ [newMessage]) (state h)) in
                let serverReplyToId :=
                  if present replyToId
                  then option_map JNumberOf replyToId
                  else None in
                let r3 :=
                  sendJsonMessage "send_message"
                    (object [ ("message", Some (EncryptedData_json encryptedData));
                              ("is_group_chat", Some (JBool (isGroupChat view)));
                              ("group_code", Some (nullable (groupCode view)));
                              ("reply_to_id", serverReplyToId) ]%string)
                    r2 in
                let s2 := match replyToId with
                          | Some _ => setCurrentReplyTo None s1
                          | None => s1
                          end in
                ({| state := s2; refs := r3 |},
                 match fileId with
                 | Some f => AwaitingDelay f
                 | None => Resolved
                 end)
            end
        end
  end.

(** The rest of [sendMessage] for an image, run when the 500 ms timer
    fires; the promise resolves after it. *)
Definition sendMessage_afterDelay (view : ChatState) (fileId : jsstring)
    (h : Hook) : Hook :=
  withRefs
    (sendJsonMessage "file_sending_end"
       (object [ ("file_id", Some (JString fileId));
                 ("is_group_chat", Some (JBool (isGroupChat view)));
                 ("group_code", Some (nullable (groupCode view))) ]%string))
    h.

End WithRuntime.

Definition sendTypingIndicator (view : ChatState) (isTyping : bool)
    (h : Hook) : Hook :=
  match socketRef (refs h) with
  | None => h
  | Some _ =>
      if negb (connected view) then h
      else
        withRefs
          (sendJsonMessage (if isTyping then "typing_start" else "typing_stop")
             (object [ ("is_group_chat", Some (JBool (isGroupChat view)));
                       ("group_code", Some (nullable (groupCode view))) ]%string))
          h
  end.

Definition setReplyTo (messageId : option jsstring) (h : Hook) : Hook :=
  withState (setCurrentReplyTo messageId) h.

Definition deleteMessageFrame (view : ChatState) (messageId : jsstring) : Frame :=
  {| event := "delete_message";
     data := object [ ("messageId", Some (JString messageId));
                      ("chatId", Some (nullable (groupCode view)));
                      ("isGroupChat", Some (JBool (present (groupCode view)))) ]%string |}.

Definition deleteMessage (view : ChatState) (messageId : jsstring)
    (h : Hook) : Hook :=
  match socketRef (refs h) with
  | None => h
  | Some ws =>
      if negb (connected view) then h
      else
        try_catch
          (let* ws' := WebSocket_send ws (deleteMessageFrame view messageId) in
           Normal
             {| state := setMessages
                           (fun prev => filter (differsFrom (Some messageId)) prev)
                           (state h);
                refs := setSocketRef (Some ws') (refs h) |})%completion
          (fun _ => h)
  end.

End UseChat.

(* ===================================================================== *)
(** * components/video-chat/webrtc-events.ts                              *)
(* ===================================================================== *)

Module WebRTCEvents.

Definition OFFER : string := "webrtc_offer".
Definition ANSWER : string := "webrtc_answer".
Definition ICE_CANDIDATE : string := "webrtc_ice_candidate".
Definition END_CALL : string := "webrtc_end_call".

(** The [callbacks] argument of [initializeWebRTCEvents]; a callback that
    is not given is [None], and [A] is what a callback leaves behind. *)
Record Callbacks (A : Type) : Type := {
  onOffer : option (option JSON -> A);
  onAnswer : option (option JSON -> A);
  onIceCandidate : option (option JSON -> A);
  onEndCall : option (option JSON -> A)
}.
Arguments onOffer {A} c.
Arguments onAnswer {A} c.
Arguments onIceCandidate {A} c.
Arguments onEndCall {A} c.

(** [if (callback) callback(serverEvent.data)] *)
Definition call {A : Type} (callback : option (option JSON -> A))
    (data : option JSON) : option A :=
  match callback with
  | Some f => Some (f data)
  | None => None
  end.

(** [handleSocketMessage]: [parsed] is the result of
    [JSON.parse(event.data)], and the value is what the callback that was
    called left behind, if one was called. *)
Definition handleSocketMessage {A : Type} (callbacks : Callbacks A)
    (parsed : Completion JSON) : option A :=
  try_catch
    (let* serverEvent := parsed in
     Normal
       match property "event" serverEvent with
       | Some (JString name) =>
           if JSString.eqb name (lit OFFER)
           then call (onOffer callbacks) (property "data" serverEvent)
           else if JSString.eqb name (lit ANSWER)
           then call (onAnswer callbacks) (property "data" serverEvent)
           else if JSString.eqb name (lit ICE_CANDIDATE)
           then call (onIceCandidate callbacks) (property "data" serverEvent)
           else if JSString.eqb name (lit END_CALL)
           then call (onEndCall callbacks) (property "data" serverEvent)
           else None
       | _ => None
       end)%completion
    (fun _ => None).

(** [initializeWebRTCEvents]: the listener that it adds to the socket, if
    it adds one. *)
Definition initializeWebRTCEvents {A : Type} (socket : option WebSocket)
    (callbacks : Callbacks A) : option (Completion JSON -> option A) :=
  match socket with
  | None => None
  | Some ws =>
      if negb (isOPEN (readyState ws)) then None
      else Some (handleSocketMessage callbacks)
  end.

(** What a send function leaves behind: the value it returns, the socket,
    and the [userId] item of [localStorage]. *)
Record Sent : Type := {
  returned : bool;
  socketAfter : option WebSocket;
  userIdAfter : option jsstring
}.

(** [getCurrentUserId]; [randomSuffix] is
    [Math.random().toString(36).substring(2, 9)]. *)
Definition getCurrentUserId (randomSuffix : jsstring)
    (storedUserId : option jsstring) : jsstring * option jsstring :=
  if UseChat.present storedUserId
  then (UseChat.valueOr [] storedUserId, storedUserId)
  else
    let randomId := lit "user-" ++ randomSuffix in
    (randomId, Some randomId).

(** A parameter with the default value [false]. *)
Definition orFalse (b : option bool) : bool :=
  match b with
  | Some v => v
  | None => false
  end.

Definition sendOffer (randomSuffix : jsstring) (storedUserId : option jsstring)
    (socket : option WebSocket) (offer : JSON) (targetId : jsstring)
    (isGroupChat : option bool) (groupCode : option jsstring) : Sent :=
  match socket with
  | None => {| returned := false; socketAfter := socket; userIdAfter := storedUserId |}
  | Some ws =>
      if negb (isOPEN (readyState ws)) then
        {| returned := false; socketAfter := socket; userIdAfter := storedUserId |}
      else
        let (senderId, stored') := getCurrentUserId randomSuffix storedUserId in
        let payload :=
          object [ ("sender_id", Some (JString senderId));
                   ("offer", Some offer);
                   ("target_id", Some (JString targetId));
                   ("is_group_chat", Some (JBool (orFalse isGroupChat)));
                   ("group_code", option_map JString groupCode) ]%string in
        {| returned := true;
           socketAfter := Some (transmit ws {| event := OFFER; data := payload |});
           userIdAfter := stored' |}
  end.

Definition sendAnswer (randomSuffix : jsstring) (storedUserId : option jsstring)
    (socket : option WebSocket) (answer : JSON) (targetId : jsstring)
    (isGroupChat : option bool) (groupCode : option jsstring) : Sent :=
  match socket with
  | None => {| returned := false; socketAfter := socket; userIdAfter := storedUserId |}
  | Some ws =>
      if negb (isOPEN (readyState ws)) then
        {| returned := false; socketAfter := socket; userIdAfter := storedUserId |}
      else
        let (senderId, stored') := getCurrentUserId randomSuffix storedUserId in
        let payload :=
          object [ ("sender_id", Some (JString senderId));
                   ("answer", Some answer);
                   ("target_id", Some (JString targetId));
                   ("is_group_chat", Some (JBool (orFalse isGroupChat)));
                   ("group_code", option_map JString groupCode) ]%string in
        {| returned := true;
           socketAfter := Some (transmit ws {| event := ANSWER; data := payload |});
           userIdAfter := stored' |}
  end.

Definition sendIceCandidate (randomSuffix : jsstring) (storedUserId : option jsstring)
    (socket : option WebSocket) (candidate : JSON) (targetId : jsstring)
    (isGroupChat : option bool) (groupCode : option jsstring) : Sent :=
  match socket with
  | None => {| returned := false; socketAfter := socket; userIdAfter := storedUserId |}
  | Some ws =>
      if negb (isOPEN (readyState ws)) then
        {| returned := false; socketAfter := socket; userIdAfter := storedUserId |}
      else
        let (senderId, stored') := getCurrentUserId randomSuffix storedUserId in
        let payload :=
          object [ ("sender_id", Some (JString senderId));
                   ("candidate", Some candidate);
                   ("target_id", Some (JString targetId));
                   ("is_group_chat", Some (JBool (orFalse isGroupChat)));
                   ("group_code", option_map JString groupCode) ]%string in
        {| returned := true;
           socketAfter := Some (transmit ws {| event := ICE_CANDIDATE; data := payload |});
           userIdAfter := stored' |}
  end.

Definition sendEndCall (randomSuffix : jsstring) (storedUserId : option jsstring)
    (socket : option WebSocket) (targetId : jsstring)
    (isGroupChat : option bool) (groupCode : option jsstring) : Sent :=
  match socket with
  | None => {| returned := false; socketAfter := socket; userIdAfter := storedUserId |}
  | Some ws =>
      if negb (isOPEN (readyState ws)) then
        {| returned := false; socketAfter := socket; userIdAfter := storedUserId |}
      else
        let (senderId, stored') := getCurrentUserId randomSuffix storedUserId in
        let payload :=
          object [ ("sender_id", Some (JString senderId));
                   ("target_id", Some (JString targetId));
                   ("is_group_chat", Some (JBool (orFalse isGroupChat)));
                   ("group_code", option_map JString groupCode) ]%string in
        {| returned := true;
           socketAfter := Some (transmit ws {| event := END_CALL; data := payload |});
           userIdAfter := stored' |}
  end.

End WebRTCEvents.

(* ===================================================================== *)
(** * components/layout/playground.tsx                                    *)
(* ===================================================================== *)

Module Playground.

(** [handleStartGroupChat]: the toast aside, the call of [connect]. *)
Definition handleStartGroupChat (fresh : Fresh) (h : Hook)
    (method : GroupJoinMethod) (code : option jsstring) : Hook :=
  UseChat.connect fresh (lit "group") (Some method) code h.

(** A click on the join button of [GroupChatOptions] as the playground
    renders it, with [groupCode] the text held by the input. *)
Definition clickJoin (fresh : Fresh) (groupCode : jsstring) (h : Hook)
  : ChatOptions.JoinOutcome Hook :=
  ChatOptions.handleJoinByCode (handleStartGroupChat fresh h) groupCode.

(** The hook after the click and after the socket it may have created
    has opened. *)
Definition afterClickJoin (fresh : Fresh) (groupCode : jsstring) (h : Hook) : Hook :=
  match clickJoin fresh groupCode h with
  | ChatOptions.ToastInvalidGroupCode => h
  | ChatOptions.StartGroupChat h' => UseChat.onopen h'
  end.

(** What [ChatInterface] renders. *)
Inductive Screen : Type := ConnectingShimmer | WelcomeScreen | ChatScreen.

Definition ChatInterface (s : ChatState) : Screen :=
  if connecting s then ConnectingShimmer
  else if negb (connected s) then WelcomeScreen
  else ChatScreen.

End Playground.

(* ===================================================================== *)
(** * components/chat/chat.tsx                                            *)
(* ===================================================================== *)

Module Chat.

Inductive Status : Type := submitted | streaming | ready | error.

(** A [File] of the input: its name and type, and what
    [readFileAsArrayBuffer] settles with. *)
Record File : Type := {
  name : jsstring;
  type : jsstring;
  readFileAsArrayBuffer : Completion bytes
}.

(** The [useState] cells of [Chat]. *)
Record ChatUI : Type := {
  input : jsstring;
  isLoading : bool;
  files : list File;
  status : Status;
  fileSending : bool;
  fileId : option jsstring
}.

(** Where [handleSend] stands when it returns or suspends: done, awaiting
    the file reader, or awaiting the promise of [sendMessage], which
    settles when the timer of the hook has fired. *)
Inductive Pending : Type :=
| Done
| ReadingFile (selected : File)
| AwaitingSendMessage (fromFile : bool) (hookFileId : jsstring).

(** A run of [handleSend] so far: the state of [Chat], the hook, the
    titles of the toasts that [handleSend] itself has shown, and where it
    stands. *)
Record Run : Type := {
  ui : ChatUI;
  hook : Hook;
  toasts : list string;
  pending : Pending
}.

Section WithHook.

Variable aes : AesGcm.
Variable CRYPTO_KEY : option jsstring.

(** The state of the render whose [handleSend] runs: the hook values
    that the handler closes over. *)
Variable view : ChatState.

(** The [finally] block. *)
Definition finally (r : Run) : Run :=
  {| ui := {| input := input (ui r); isLoading := false; files := [];
              status := ready; fileSending := false; fileId := None |};
     hook := UseChat.sendTypingIndicator view false (hook r);
     toasts := toasts r;
     pending := Done |}.

(** The [catch] block. *)
Definition catch (r : Run) : Run :=
  {| ui := ui r; hook := hook r;
     toasts := toasts r ++ ["Error sending message"%string];
     pending := pending r |}.

(** The end of the [try] block: input and files are cleared and the
    reply is reset. *)
Definition clearAfterSending (r : Run) : Run :=
  {| ui := {| input := []; isLoading := isLoading (ui r); files := [];
              status := status (ui r); fileSending := fileSending (ui r);
              fileId := fileId (ui r) |};
     hook := match currentReplyTo view with
             | Some _ => UseChat.setReplyTo None (hook r)
             | None => hook r
             end;
     toasts := toasts r;
     pending := pending r |}.

(** After [await sendMessage(arrayBuffer, currentReplyTo)] in the file
    branch. *)
Definition fileSent (r : Run) : Run :=
  {| ui := {| input := input (ui r); isLoading := isLoading (ui r);
              files := files (ui r); status := status (ui r);
              fileSending := false; fileId := None |};
     hook := hook r; toasts := toasts r; pending := pending r |}.

(** The promise of [sendMessage] has settled with [result]. *)
Definition sendMessageSettled (fromFile : bool) (result : Completion unit)
    (r : Run) : Run :=
  match result with
  | Normal _ => finally (clearAfterSending (if fromFile then fileSent r else r))
  | Throw _ => finally (catch r)
  end.

(** [await sendMessage(content, currentReplyTo)] with the rest of
    [handleSend] behind it. *)
Definition awaitSendMessage (fresh : Fresh) (fromFile : bool)
    (content : MessageContent) (r : Run) : Run :=
  let (h, result) := UseChat.sendMessage aes CRYPTO_KEY view fresh content
                       (currentReplyTo view) (hook r) in
  let r1 := {| ui := ui r; hook := h; toasts := toasts r; pending := pending r |} in
  match result with
  | Resolved => sendMessageSettled fromFile (Normal tt) r1
  | Rejected e => sendMessageSettled fromFile (Throw e) r1
  | AwaitingDelay hookFileId =>
      {| ui := ui r1; hook := h; toasts := toasts r1;
         pending := AwaitingSendMessage fromFile hookFileId |}
  end.

(** [handleSend] up to the point where it returns or suspends; [clock] is
    the [Date.now()] of the file id. *)
Definition handleSend (fresh : Fresh) (clock : Z) (u : ChatUI) (h : Hook) : Run :=
  if negb (connected view) then
    {| ui := u; hook := h; toasts := ["Not connected"%string]; pending := Done |}
  else if JSString.truthy (JSString.trim (input u))
          || (0 <? Z.of_nat (List.length (files u))) then
    let u1 := {| input := input u; isLoading := true; files := files u;
                 status := submitted; fileSending := fileSending u;
                 fileId := fileId u |} in
    let h1 := UseChat.sendTypingIndicator view false h in
    match files u with
    | selected :: _ =>
        let newFileId := lit "file-" ++ JSString.ofZ clock in
        {| ui := {| input := []; isLoading := true; files := files u;
                    status := submitted; fileSending := true;
                    fileId := Some newFileId |};
           hook := h1; toasts := []; pending := ReadingFile selected |}
    | [] =>
        let r1 := {| ui := u1; hook := h1; toasts := []; pending := Done |} in
        if JSString.truthy (JSString.trim (input u))
        then awaitSendMessage fresh false (TextContent (JSString.trim (input u))) r1
        else finally (clearAfterSending r1)
    end
  else
    {| ui := u; hook := h; toasts := []; pending := Done |}.



(** [getPartnerId]; [socketPartnerId] is the [partnerId] property of
    [window.socket], which is [undefined] unless someone has set it. *)
Definition getPartnerId (socketPartnerId : option jsstring) : option jsstring :=
  if UseChat.present (groupCode view) then groupCode view
  else if UseChat.present socketPartnerId then socketPartnerId
  else
    match find (fun m => negb (JSString.eqb (sender m) (lit "user"))) (messages view) with
    | Some partnerMessage =>
        if JSString.truthy (sender partnerMessage)
        then Some (sender partnerMessage)
        else None
    | None => None
    end.

(** [getPartnerUsername]; [storedPartnerName] is the [partnerUsername]
    item of [localStorage]. *)
Definition getPartnerUsername (socketPartnerUsername storedPartnerName : option jsstring)
  : jsstring :=
  if UseChat.present (groupCode view)
  then lit "Group " ++ UseChat.valueOr [] (groupCode view)
  else
    match find (fun m => negb (JSString.eqb (sender m) (lit "user"))) (messages view) with
    | Some partnerMessage =>
        if JSString.truthy (sender partnerMessage)
        then sender partnerMessage
        else if UseChat.present socketPartnerUsername
        then UseChat.valueOr [] socketPartnerUsername
        else if UseChat.present storedPartnerName
        then UseChat.valueOr [] storedPartnerName
        else lit "Chat Partner"
    | None =>
        if UseChat.present socketPartnerUsername
        then UseChat.valueOr [] socketPartnerUsername
        else if UseChat.present storedPartnerName
        then UseChat.valueOr [] storedPartnerName
        else lit "Chat Partner"
    end.

End WithHook.

End Chat.

(* ===================================================================== *)
(** * components/video-chat/video-chat-provider.tsx, chat-input.tsx       *)
(* ===================================================================== *)

Module VideoChatProvider.

Record PartnerInfo : Type := {
  partnerId : jsstring;
  username : jsstring;
  isGroupChat : bool;
  groupCode : option jsstring
}.

(** The [useState] cells of [VideoChatProvider]. *)
Record VideoChat : Type := {
  isActive : bool;
  isWebRTCSupported : bool;
  partnerInfo : option PartnerInfo
}.

(** [startVideoChat]: the state after the call and the title of the
    toast; [socket] is [window.socket]. *)
Definition startVideoChat (socket : option WebSocket) (v : VideoChat)
    (partnerId username : jsstring) (isGroupChat : option bool)
    (groupCode : option jsstring) : VideoChat * string :=
  if negb (isWebRTCSupported v) then (v, "Video chat not supported"%string)
  else
    match socket with
    | None => (v, "Cannot start video chat"%string)
    | Some ws =>
        if negb (isOPEN (readyState ws)) then (v, "Cannot start video chat"%string)
        else
          ({| isActive := true;
              isWebRTCSupported := isWebRTCSupported v;
              partnerInfo :=
                Some {| partnerId := partnerId; username := username;
                        isGroupChat := match isGroupChat with
                                       | Some b => b
                                       | None => false
                                       end;
                        groupCode := groupCode |} |},
           "Starting video chat"%string)
    end.

Definition endVideoChat (v : VideoChat) : VideoChat :=
  {| isActive := false; isWebRTCSupported := isWebRTCSupported v;
     partnerInfo := None |}.

(** Whether [DraggableVideoChat] is rendered. *)
Definition rendersVideoChat (v : VideoChat) : bool :=
  isActive v && match partnerInfo v with Some _ => true | None => false end.

End VideoChatProvider.

Module ChatInput.

(** [handleStartVideoChat], with the props that [Chat] passes: the state
    of the provider after the click and the titles of the toasts. *)
Definition handleStartVideoChat (view : ChatState) (socket : option WebSocket)
    (socketPartnerId socketPartnerUsername storedPartnerName : option jsstring)
    (v : VideoChatProvider.VideoChat) : VideoChatProvider.VideoChat * list string :=
  if negb (connected view) || partnerDisconnected view
  then (v, ["Cannot start video chat"%string])
  else
    match Chat.getPartnerId view socketPartnerId with
    | Some (c :: partnerId) =>
        let partnerUsername :=
          Chat.getPartnerUsername view socketPartnerUsername storedPartnerName in
        let (v', toast) :=
          VideoChatProvider.startVideoChat socket v (c :: partnerId)
            (if JSString.truthy partnerUsername then partnerUsername else lit "Partner")
            (Some (UseChat.present (groupCode view)))
            (if UseChat.present (groupCode view) then groupCode view else None) in
        (v', [toast; "Starting video chat"%string])
    | _ => (v, ["Cannot start video chat"%string])
    end.

End ChatInput.

(* ===================================================================== *)
(** * components/essentials/share-group-code.tsx                        *)
(* ===================================================================== *)

Module ShareGroupCode.

(** [handleCopyShareLink]: the link written to the clipboard. *)
Definition handleCopyShareLink (groupCode : jsstring) : jsstring :=
  lit "https://yaps.chat/" ++ groupCode.

End ShareGroupCode.

(* ===================================================================== *)
(** * Sample values                                                       *)
(* ===================================================================== *)

Module Sample.

(** The hook as [useChat] creates it, in a browser that remembers the
    user [Ann] under the id [u-ann]. *)
Definition initialState : ChatState :=
  {| messages := []; messageCounter := 0; connected := false;
     isGroupChat := false; groupCode := None; groupMembers := [];
     partnerTyping := false; partnerDisconnected := false;
     connecting := false; currentReplyTo := None |}.

Definition initialHook : Hook :=
  {| state := initialState;
     refs := {| socketRef := None; userIdRef := None; errorToastRef := false;
                storedUserId := Some (lit "u-ann");
                storedUsername := Some (lit "Ann");
                released := [] |} |}.

Definition fresh : Fresh :=
  {| messageUuid := lit "m-1"; userUuid := lit "u-new";
     now := 1700000000000; fileNow := 1700000000001;
     randomBytes12 := [1; 2; 3; 4; 5; 6; 7; 8; 9; 10; 11; 12];
     socketCreated := true |}.

(** A chat in the group [Ab12Cd] over a socket in the given state. *)
Definition groupState (msgs : list Message) : ChatState :=
  {| messages := msgs; messageCounter := Z.of_nat (List.length msgs);
     connected := true; isGroupChat := true;
     groupCode := Some (lit "Ab12Cd"); groupMembers := [lit "Ann"; lit "Bob"];
     partnerTyping := false; partnerDisconnected := false;
     connecting := false; currentReplyTo := None |}.

Definition groupHook (rs : ReadyState) (msgs : list Message) : Hook :=
  {| state := groupState msgs;
     refs := {| socketRef := Some {| readyState := rs; sent := [];
                                     onopenProfile := None |};
                userIdRef := Some (lit "u-ann"); errorToastRef := false;
                storedUserId := Some (lit "u-ann");
                storedUsername := Some (lit "Ann");
                released := [] |} |}.

Definition hello : Message :=
  {| id := lit "m-0"; sender := lit "u-bob"; isOwnMessage := false;
     replyToId := None; messageIndex := 0; role := assistant;
     timestamp := 1699999999000; body := text (lit "hello") |}.

(** A toy cipher that meets [AesGcm_correct]: it complements each octet
    and uses sixteen zero octets as the tag. *)
Definition complement (b : bytes) : bytes := map (fun x => 255 - x) b.

Definition zeroTag : bytes := repeat 0 16.

Definition toyAes : AesGcm :=
  {| gcm_encrypt := fun key iv plain =>
       if (List.length key =? 32)%nat
       then Normal (complement plain, zeroTag)
       else Throw "Invalid key length";
     gcm_decrypt := fun key iv cipher tag =>
       if (List.length key =? 32)%nat then
         if JSString.eqb tag zeroTag
         then Normal (complement cipher)
         else Throw "Unsupported state or unable to authenticate data"
       else Throw "Invalid key length" |}.

(** A key of 32 ASCII characters. *)
Definition key32 : jsstring := lit "0123456789abcdef0123456789abcdef".

(** A key of 64 hexadecimal digits. *)
Definition key64 : jsstring :=
  lit "000102030405060708090a0b0c0d0e0f101112131415161718191a1b1c1d1e1f".

(** No Unicode tables: every text passes the property test. *)
Definition anyText (s : jsstring) : bool := true.

(** A run of the hook: the user creates a group, the socket opens, the
    server starts the chat [Ab12Cd], and then the connection drops.  The
    handlers were installed by [connect] in the first render, whose state
    is [initialState]. *)
Definition startedHook : Hook :=
  UseChat.withState
    (UseChat.handleServerEvent toyAes (Some key32) anyText initialState fresh
       (chat_started (Some (lit "Ab12Cd"))))
    (UseChat.onopen
       (UseChat.connect fresh (lit "group") (Some create) None initialHook)).

Definition droppedHook : Hook := UseChat.onclose initialState startedHook.

End Sample.

(* ===================================================================== *)
(** * Vocabulary of the properties                                        *)
(* ===================================================================== *)

(** The profile that [connect] builds in a browser with refs [r]. *)
Definition joinProfile (fresh : Fresh) (preference : jsstring)
    (groupJoinMethod : option GroupJoinMethod)
    (customGroupCode : option jsstring) (r : Refs) : UserProfile :=
  let userId := fst (UseChat.getUserId fresh r) in
  let isGroup := JSString.eqb preference (lit "group") in
  {| user_id := userId;
     username :=
       if UseChat.present (storedUsername r)
       then UseChat.valueOr [] (storedUsername r)
       else lit "User_" ++ JSString.substring 0 5 userId;
     preference := preference;
     gender := lit "default";
     room_type := if isGroup then lit "group" else lit "couple";
     group_join_method := if isGroup then groupJoinMethod else None;
     group_code :=
       if isGroup then
         match groupJoinMethod with
         | Some join => if UseChat.present customGroupCode then customGroupCode else None
         | _ => None
         end
       else None |}.

(** The contract of a send function called with [socket], [targetId],
    [isGroupChat] and [groupCode] in a browser that stores [storedUserId]:
    [r] is what the call leaves behind, [eventName] the event and [field]
    the offer, answer or candidate property, if any. *)
Definition sendsOneSignal (eventName : string) (field : option (string * JSON))
    (storedUserId : option jsstring) (socket : option WebSocket)
    (targetId : jsstring) (isGroupChat : option bool)
    (groupCode : option jsstring) (r : WebRTCEvents.Sent) : Prop :=
  (socket = None \/ (exists ws, socket = Some ws /\ readyState ws <> OPEN) ->
   WebRTCEvents.returned r = false /\
   WebRTCEvents.socketAfter r = socket /\
   WebRTCEvents.userIdAfter r = storedUserId) /\
  (forall ws,
      socket = Some ws -> readyState ws = OPEN ->
      WebRTCEvents.returned r = true /\
      exists senderId d,
        WebRTCEvents.socketAfter r
        = Some {| readyState := OPEN;
                  sent := sent ws ++ [ {| event := eventName; data := d |} ];
                  onopenProfile := onopenProfile ws |} /\
        WebRTCEvents.userIdAfter r = Some senderId /\
        (forall u, storedUserId = Some u -> u <> [] -> senderId = u) /\
        property "sender_id" d = Some (JString senderId) /\
        property "target_id" d = Some (JString targetId) /\
        property "is_group_chat" d
        = Some (JBool (match isGroupChat with Some b => b | None => false end)) /\
        property "group_code" d = option_map JString groupCode /\
        match field with
        | Some (k, v) =>
            property k d = Some v /\
            keys d = ["sender_id"; k; "target_id"; "is_group_chat"]%string
                     ++ match groupCode with Some _ => ["group_code"%string] | None => [] end
        | None =>
            keys d = ["sender_id"; "target_id"; "is_group_chat"]%string
                     ++ match groupCode with Some _ => ["group_code"%string] | None => [] end
        end).

(** A buffer that begins with the magic number of JPEG, PNG or GIF. *)
Definition hasImageMagic (b : bytes) : bool :=
  JSString.startsWith [255; 216] b
  || JSString.startsWith [137; 80; 78; 71] b
  || JSString.startsWith [71; 73; 70; 56] b.

(** What [sendMessage] encrypts. *)
Definition contentToEncrypt (content : MessageContent) : MessageContent :=
  match content with
  | TextContent s => TextContent s
  | BinaryContent b =>
      if hasImageMagic b then BinaryContent b
      else TextContent (Encoding.TextDecoder_decode b)
  end.

(** A string, or a buffer long enough for the eight-byte header view. *)
Definition sendable (content : MessageContent) : Prop :=
  match content with
  | TextContent _ => True
  | BinaryContent b => (8 <= List.length b)%nat
  end.

Definition fileFrame (eventName : string) (view : ChatState) (fileId : jsstring) : Frame :=
  {| event := eventName;
     data := object [ ("file_id", Some (JString fileId));
                      ("is_group_chat", Some (JBool (isGroupChat view)));
                      ("group_code", Some (nullable (groupCode view))) ]%string |}.

Definition sendMessageFrame (view : ChatState) (e : EncryptedData)
    (replyToId : option jsstring) : Frame :=
  {| event := "send_message";
     data := object [ ("message", Some (object [ ("encrypted", Some (JString (encrypted e)));
                                                 ("nonce", Some (JString (nonce e))) ]%string));
                      ("is_group_chat", Some (JBool (isGroupChat view)));
                      ("group_code", Some (nullable (groupCode view)));
                      ("reply_to_id",
                        match replyToId with
                        | Some (c :: r) => Some (JNumberOf (c :: r))
                        | _ => None
                        end) ]%string |}.

Definition fileIdOf (fresh : Fresh) : jsstring :=
  lit "file-" ++ JSString.ofZ (fileNow fresh).

(** The first bytes of a JPEG file. *)
Definition jpegHeader : bytes := [255; 216; 255; 224; 0; 16; 74; 70].

Definition isAscii (c : Z) : bool := (0 <=? c) && (c <? 128).

(** A key that [getEncryptionKey] turns into 32 bytes: 64 hexadecimal
    digits, or 32 characters that are one byte each. *)
Definition validKey (key : jsstring) : Prop :=
  (List.length key = 64%nat /\ forallb Encoding.isHexDigit key = true) \/
  (List.length key = 32%nat /\ forallb isAscii key = true).

(** A code unit that the hex decoder reads as a hexadecimal digit. *)
Definition isHexLowByte (c : Z) : bool := Encoding.isHexDigit (Encoding.lowByte c).

(** The keys that [getEncryptionKey] turns into 32 bytes: 64 code units
    whose low bytes are hexadecimal digits, or 32 ASCII characters. *)
Definition keyOf32Bytes (key : jsstring) : Prop :=
  (List.length key = 64%nat /\ forallb isHexLowByte key = true) \/
  (List.length key = 32%nat /\ forallb isAscii key = true).

(** A key of 64 code units that is not made of hexadecimal digits, yet is
    read as 64 zeros: U+0130 and 63 times the digit 0. *)
Definition dottedKey : jsstring := 304 :: repeat 48 63.

(** A Unicode scalar value: a code point that is not a surrogate. *)
Definition isScalar (cp : Z) : Prop :=
  0 <= cp < 1114112 /\ ~ (55296 <= cp <= 57343).

(** A string whose code units are all in range. *)
Definition codeUnits (s : jsstring) : Prop :=
  Forall (fun c => 0 <= c < 65536) s.

(** A key that [getEncryptionKey] refuses: none, or one whose length is
    neither 32 nor 64. *)
Definition unusableKey (CRYPTO_KEY : option jsstring) : Prop :=
  forall key, CRYPTO_KEY = Some key ->
              List.length key <> 32%nat /\ List.length key <> 64%nat.

(** A socket after [disconnect] has tried to say goodbye on it and has
    closed it. *)
Definition hungUp (ws : WebSocket) : WebSocket :=
  {| readyState := match readyState ws with CLOSED => CLOSED | _ => CLOSING end;
     sent := sent ws ++ (if isOPEN (readyState ws)
                         then [ {| event := "disconnect_chat"; data := JObject [] |} ]
                         else []);
     onopenProfile := onopenProfile ws |}.

(** The pathname of [https://yaps.chat/<rest>], for a parser that knows
    only this origin. *)
Definition yapsPathname (input : jsstring) : Completion jsstring :=
  if JSString.startsWith (lit "https://yaps.chat") input
  then Normal (skipn 17 input)
  else Throw "TypeError: Invalid URL".

(** The frame of [sendTypingIndicator]. *)
Definition typingFrame (view : ChatState) (isTyping : bool) : Frame :=
  {| event := if isTyping then "typing_start" else "typing_stop";
     data := object [ ("is_group_chat", Some (JBool (isGroupChat view)));
                      ("group_code", Some (nullable (groupCode view))) ]%string |}.

(** The state of [Chat] when [handleSend] is over. *)
Definition settled (input : jsstring) : Chat.ChatUI :=
  {| Chat.input := input; Chat.isLoading := false; Chat.files := [];
     Chat.status := Chat.ready; Chat.fileSending := false; Chat.fileId := None |}.

(** An incoming message [{event: name, data: d}] as [JSON.parse] returns it. *)
Definition serverMessage (name : jsstring) (d : JSON) : JSON :=
  JObject [ ("event"%string, JString name); ("data"%string, d) ].

(** A chat whose stored messages begin with a notification. *)
Definition opensWithNotification (s : ChatState) : Prop :=
  exists n rest, messages s = n :: rest /\ sender n = lit "system".

(** Whether a click on the video button gets as far as the video chat. *)
Definition canStartVideoChat (view : ChatState) (socket : option WebSocket)
    (socketPartnerId : option jsstring) (v : VideoChatProvider.VideoChat) : bool :=
  connected view && negb (partnerDisconnected view)
  && UseChat.present (Chat.getPartnerId view socketPartnerId)
  && VideoChatProvider.isWebRTCSupported v
  && match socket with
     | Some ws => isOPEN (readyState ws)
     | None => false
     end.

(* ===================================================================== *)
(** * Properties: the group-code input (chat-options.tsx)                 *)
(* ===================================================================== *)

Section ChatOptionsFacts.

Variable URL_pathname : jsstring -> Completion jsstring.

(** For a direct input the stored code is the first six code units of
    the input with the non-alphanumerics removed from them. *)
Lemma onChange_direct_input (s : jsstring) :
  JSString.includes (lit "://") s = false ->
  JSString.startsWith (lit "/") s = false ->
  ChatOptions.onChange URL_pathname s = JSString.stripNonAlnum (firstn 6 s).
Proof.
  intros Hurl Hpath.
  unfold ChatOptions.onChange, ChatOptions.extractCodeFromInput.
  rewrite Hurl, Hpath. cbn [bind try_catch].
  unfold JSString.substring. cbn [skipn Nat.sub].
  apply firstn_all2.
  unfold JSString.stripNonAlnum.
  etransitivity; [apply filter_length_le|].
  rewrite length_firstn. apply Nat.le_min_l.
Qed.

(** The fallback of the handler, taken when the URL cannot be parsed,
    strips the whole input and only then truncates. *)
Lemma onChange_fallback (s : jsstring) (e : string) :
  ChatOptions.extractCodeFromInput URL_pathname s = Throw e ->
  ChatOptions.onChange URL_pathname s
  = JSString.substring 0 6 (JSString.stripNonAlnum s).
Proof.
  intros H. unfold ChatOptions.onChange. rewrite H. reflexivity.
Qed.

(** The two orders agree when the input has at most six code units or its
    first six are alphanumeric. *)
Lemma onChange_direct_input_agrees (s : jsstring) :
  JSString.includes (lit "://") s = false ->
  JSString.startsWith (lit "/") s = false ->
  (List.length s <= 6)%nat \/ forallb JSString.isAlnum (firstn 6 s) = true ->
  ChatOptions.onChange URL_pathname s
  = JSString.substring 0 6 (JSString.stripNonAlnum s).
Proof.
  intros Hurl Hpath Hs. rewrite onChange_direct_input by assumption.
  unfold JSString.substring, JSString.stripNonAlnum. cbn [skipn Nat.sub].
  destruct Hs as [Hshort | Halnum].
  - rewrite (firstn_all2 (n := 6) s) by assumption.
    symmetry. apply firstn_all2.
    etransitivity; [apply filter_length_le | assumption].
  - assert (Hkeep : filter JSString.isAlnum (firstn 6 s) = firstn 6 s).
    { apply forallb_filter_id. assumption. }
    rewrite Hkeep.
    rewrite <- (firstn_skipn 6 s) at 2. rewrite filter_app, Hkeep.
    destruct (Nat.le_gt_cases 6 (List.length s)) as [Hlong | Hshort].
    + rewrite firstn_app, firstn_firstn, length_firstn.
      replace (Nat.min 6 (List.length s)) with 6%nat by lia.
      rewrite Nat.min_id, Nat.sub_diag. cbn [firstn]. now rewrite app_nil_r.
    + rewrite (skipn_all2 (n := 6) s) by lia. cbn [filter].
      rewrite app_nil_r. symmetry. apply firstn_all2.
      rewrite length_firstn. lia.
Qed.

End ChatOptionsFacts.

(** C1 (the handler departs from the specification).  The input
    [ab-cdefgh] is neither a URL nor a path.  Stripping and then truncating,
    as the specification says and the fallback of the handler does, gives
    [abcdef]; the handler truncates to six code units first and stores
    [abcde]. *)
Theorem onChange_truncates_before_stripping :
  forall URL_pathname : jsstring -> Completion jsstring,
    JSString.includes (lit "://") (lit "ab-cdefgh") = false /\
    JSString.startsWith (lit "/") (lit "ab-cdefgh") = false /\
    ChatOptions.onChange URL_pathname (lit "ab-cdefgh") = lit "abcde" /\
    JSString.substring 0 6 (JSString.stripNonAlnum (lit "ab-cdefgh")) = lit "abcdef" /\
    ChatOptions.onChange URL_pathname (lit "ab-cdefgh")
    <> JSString.substring 0 6 (JSString.stripNonAlnum (lit "ab-cdefgh")).
Proof.
  intros URL_pathname.
  repeat split; try reflexivity.
  rewrite onChange_direct_input by reflexivity.
  vm_compute. discriminate.
Qed.

Lemma matchAlnumTimes_spec (n : nat) (s rest : jsstring) :
  JSString.matchAlnumTimes n s = Some rest <->
  s = firstn n s ++ rest /\ List.length (firstn n s) = n /\
  forallb JSString.isAlnum (firstn n s) = true.
Proof.
  revert s; induction n as [|n IH]; intros s; cbn [JSString.matchAlnumTimes firstn].
  - split.
    + intros [= ->]. auto.
    + intros (H & _ & _). cbn in H. now subst.
  - destruct s as [|c s]; cbn [firstn].
    + split; [discriminate | intros (_ & H & _); discriminate].
    + cbn [forallb List.length app]. destruct (JSString.isAlnum c) eqn:Hc.
      * rewrite IH. cbn [andb]. split.
        -- intros (H1 & H2 & H3). repeat split; try congruence.
        -- intros (H1 & H2 & H3). injection H1 as H1. injection H2 as H2. auto.
      * cbn [andb]. split; [discriminate | intros (_ & _ & H); discriminate].
Qed.

(** The regular expression [^[a-zA-Z0-9]{6}$] accepts the strings of
    exactly six alphanumeric code units. *)
Lemma testCode6_spec (s : jsstring) :
  JSString.testCode6 s = true <->
  List.length s = 6%nat /\ forallb JSString.isAlnum s = true.
Proof.
  unfold JSString.testCode6.
  destruct (JSString.matchAlnumTimes 6 s) as [rest|] eqn:H.
  - apply matchAlnumTimes_spec in H. destruct H as (H1 & H2 & H3).
    destruct rest as [|r rest].
    + rewrite app_nil_r in H1. rewrite <- H1 in H2, H3. tauto.
    + split; [discriminate|]. intros [Hlen _].
      apply (f_equal (@List.length Z)) in H1.
      rewrite length_app, H2, Hlen in H1. cbn in H1. lia.
  - split; [discriminate|]. intros [Hlen Hall].
    assert (Hs : JSString.matchAlnumTimes 6 s = Some []).
    { apply matchAlnumTimes_spec. rewrite firstn_all2 by lia.
      rewrite app_nil_r. auto. }
    congruence.
Qed.

Lemma handleJoinByCode_cases {A : Type}
    (onStartGroupChat : GroupJoinMethod -> option jsstring -> A)
    (groupCode : jsstring) :
  ChatOptions.handleJoinByCode onStartGroupChat groupCode
  = if (JSString.length groupCode =? 6) && JSString.testCode6 groupCode
    then ChatOptions.StartGroupChat (onStartGroupChat join (Some groupCode))
    else ChatOptions.ToastInvalidGroupCode.
Proof.
  unfold ChatOptions.handleJoinByCode.
  destruct groupCode as [|c s]; [reflexivity|].
  cbn [JSString.truthy negb orb].
  destruct (JSString.length (c :: s) =? 6); [|reflexivity].
  destruct (JSString.testCode6 (c :: s)); reflexivity.
Qed.

Lemma filter_same_length {A : Type} (f : A -> bool) (l : list A) :
  List.length (filter f l) = List.length l -> filter f l = l.
Proof.
  induction l as [|x l IH]; [reflexivity|].
  cbn [filter]. destruct (f x); cbn [List.length]; intros H.
  - f_equal. apply IH. lia.
  - pose proof (filter_length_le f l). lia.
Qed.

Section ChatOptionsValid.

Variable URL_pathname : jsstring -> Completion jsstring.

(** On this path the stripping never yields a code that the join button
    accepts unless the first six code units were alphanumeric already. *)
Lemma onChange_direct_input_valid (s : jsstring) :
  JSString.includes (lit "://") s = false ->
  JSString.startsWith (lit "/") s = false ->
  JSString.testCode6 (ChatOptions.onChange URL_pathname s) = true ->
  ChatOptions.onChange URL_pathname s = firstn 6 s.
Proof.
  intros Hurl Hpath. rewrite onChange_direct_input by assumption.
  intros [Hlen _]%testCode6_spec.
  apply filter_same_length.
  unfold JSString.stripNonAlnum in *.
  pose proof (filter_length_le JSString.isAlnum (firstn 6 s)) as Hle.
  pose proof (firstn_le_length 6 s) as Hle6. lia.
Qed.

End ChatOptionsValid.

(* ===================================================================== *)
(** * Properties: connecting (use-chat-web-sockets.tsx, playground.tsx)   *)
(* ===================================================================== *)

Lemma connect_creates_socket (fresh : Fresh) (preference : jsstring)
    (groupJoinMethod : option GroupJoinMethod)
    (customGroupCode : option jsstring) (h : Hook) :
  socketCreated fresh = true ->
  socketRef (refs (UseChat.connect fresh preference groupJoinMethod customGroupCode h))
  = Some {| readyState := CONNECTING; sent := [];
            onopenProfile :=
              Some (UserProfile_json
                      (joinProfile fresh preference groupJoinMethod
                         customGroupCode (refs h))) |}.
Proof.
  intros Hsock. unfold UseChat.connect, joinProfile.
  destruct h as [s r]. destruct r as [sock uref etoast suid suname rel].
  unfold UseChat.getUserId.
  destruct sock as [ws|]; cbn; unfold UseChat.sendJsonMessage; cbn.
  - destruct (isOPEN (readyState ws)); cbn;
      destruct (UseChat.present uref); cbn; rewrite Hsock; reflexivity.
  - destruct (UseChat.present uref); cbn; rewrite Hsock; reflexivity.
Qed.

(** When the socket created by [connect] opens, it has transmitted the
    [join_chat] frame with the profile, and nothing else. *)
Lemma connect_onopen_wire (fresh : Fresh) (preference : jsstring)
    (groupJoinMethod : option GroupJoinMethod)
    (customGroupCode : option jsstring) (h : Hook) :
  socketCreated fresh = true ->
  UseChat.wire
    (UseChat.onopen
       (UseChat.connect fresh preference groupJoinMethod customGroupCode h))
  = [ {| event := "join_chat";
         data := UserProfile_json
                   (joinProfile fresh preference groupJoinMethod
                      customGroupCode (refs h)) |} ].
Proof.
  intros Hsock.
  pose proof (connect_creates_socket fresh preference groupJoinMethod
                customGroupCode h Hsock) as H.
  unfold UseChat.onopen, UseChat.wire. rewrite H. cbn.
  unfold UseChat.sendJsonMessage. cbn. reflexivity.
Qed.

Lemma JSString_eqb_eq (s t : jsstring) : JSString.eqb s t = true <-> s = t.
Proof.
  unfold JSString.eqb. destruct (list_eq_dec Z.eq_dec s t); split; congruence.
Qed.

Lemma JSString_eqb_refl (s : jsstring) : JSString.eqb s s = true.
Proof. now apply JSString_eqb_eq. Qed.

Lemma JSString_eqb_neq (s t : jsstring) : JSString.eqb s t = false <-> s <> t.
Proof.
  unfold JSString.eqb. destruct (list_eq_dec Z.eq_dec s t); split; congruence.
Qed.

(** C2.  [handleJoinByCode] calls [onStartGroupChat("join", groupCode)]
    exactly when the code is six code units long and matches
    [^[a-zA-Z0-9]{6}$], that is, when it is six alphanumerics; otherwise it
    shows the toast and returns.  A code of five characters never starts a
    join.  In the playground an invalid code leaves the hook as it was: no
    socket is created and no [join_chat] frame is produced, while a valid
    code produces one [join_chat] frame that carries the code. *)
Theorem handleJoinByCode_joins_iff_valid_code :
  forall (fresh : Fresh) (h : Hook) (groupCode : jsstring),
    let valid := JSString.length groupCode = 6 /\ JSString.testCode6 groupCode = true in
    (valid <-> List.length groupCode = 6%nat /\
               Forall (fun c => JSString.isAlnum c = true) groupCode) /\
    (forall (A : Type) (onStartGroupChat : GroupJoinMethod -> option jsstring -> A),
        (valid ->
         ChatOptions.handleJoinByCode onStartGroupChat groupCode
         = ChatOptions.StartGroupChat (onStartGroupChat join (Some groupCode))) /\
        (~ valid ->
         ChatOptions.handleJoinByCode onStartGroupChat groupCode
         = ChatOptions.ToastInvalidGroupCode) /\
        (List.length groupCode = 5%nat ->
         ChatOptions.handleJoinByCode onStartGroupChat groupCode
         = ChatOptions.ToastInvalidGroupCode)) /\
    ((exists h', Playground.clickJoin fresh groupCode h = ChatOptions.StartGroupChat h')
     <-> valid) /\
    (~ valid ->
     Playground.clickJoin fresh groupCode h = ChatOptions.ToastInvalidGroupCode /\
     Playground.afterClickJoin fresh groupCode h = h) /\
    (valid -> socketCreated fresh = true ->
     exists d,
       UseChat.wire (Playground.afterClickJoin fresh groupCode h)
       = [ {| event := "join_chat"; data := d |} ] /\
       property "group_join_method" d = Some (JString (lit "join")) /\
       property "group_code" d = Some (JString groupCode)).
Proof.
  intros fresh h groupCode valid.
  assert (Hdec : (JSString.length groupCode =? 6) && JSString.testCode6 groupCode = true
                 <-> valid).
  { unfold valid. rewrite andb_true_iff, Z.eqb_eq. reflexivity. }
  assert (Hcases : forall (A : Type) (f : GroupJoinMethod -> option jsstring -> A),
             (valid -> ChatOptions.handleJoinByCode f groupCode
                       = ChatOptions.StartGroupChat (f join (Some groupCode))) /\
             (~ valid -> ChatOptions.handleJoinByCode f groupCode
                         = ChatOptions.ToastInvalidGroupCode)).
  { intros A f. rewrite handleJoinByCode_cases.
    destruct ((JSString.length groupCode =? 6) && JSString.testCode6 groupCode).
    - split; [reflexivity|]. intros Hn. exfalso. apply Hn, Hdec. reflexivity.
    - split; [|reflexivity]. intros Hv. apply Hdec in Hv. discriminate. }
  assert (Hfive : List.length groupCode = 5%nat -> ~ valid).
  { intros H5 [H6 _]. unfold JSString.length in H6. lia. }
  split; [|split; [|split; [|split]]].
  - unfold valid. rewrite testCode6_spec, Forall_forall, forallb_forall.
    unfold JSString.length. split.
    + intros (_ & Hl & Ha). auto.
    + intros (Hl & Ha). repeat split; auto. lia.
  - intros A f. destruct (Hcases A f) as [Hyes Hno].
    repeat split; auto.
  - unfold Playground.clickJoin.
    destruct (Hcases Hook (Playground.handleStartGroupChat fresh h)) as [Hyes Hno].
    split.
    + intros [h' Hh']. apply Hdec.
      destruct ((JSString.length groupCode =? 6) && JSString.testCode6 groupCode) eqn:E;
        [reflexivity|].
      exfalso. rewrite Hno in Hh'; [discriminate|].
      intros Hv. apply Hdec in Hv. congruence.
    + intros Hv. eexists. apply Hyes, Hv.
  - intros Hn. unfold Playground.afterClickJoin, Playground.clickJoin.
    destruct (Hcases Hook (Playground.handleStartGroupChat fresh h)) as [_ Hno].
    rewrite (Hno Hn). split; reflexivity.
  - intros Hv Hsock. unfold Playground.afterClickJoin, Playground.clickJoin.
    destruct (Hcases Hook (Playground.handleStartGroupChat fresh h)) as [Hyes _].
    rewrite (Hyes Hv). unfold Playground.handleStartGroupChat.
    rewrite connect_onopen_wire by assumption.
    eexists. split; [reflexivity|].
    assert (Hp : UseChat.present (Some groupCode) = true).
    { destruct Hv as [Hl _]. destruct groupCode; [discriminate Hl | reflexivity]. }
    unfold joinProfile, UserProfile_json. cbn [group_join_method group_code].
    rewrite JSString_eqb_refl, Hp. split; reflexivity.
Qed.

(** C3, as stated, fails: a call [connect("group")] without a join method
    sends a [join_chat] frame whose room type is [group] and which has no
    [group_join_method] property, since [JSON.stringify] leaves out a
    property that is [undefined]. *)
Lemma connect_group_without_method_omits_group_join_method :
  exists d,
    UseChat.wire
      (UseChat.onopen
         (UseChat.connect Sample.fresh (lit "group") None None Sample.initialHook))
    = [ {| event := "join_chat"; data := d |} ] /\
    property "preference" d = Some (JString (lit "group")) /\
    property "room_type" d = Some (JString (lit "group")) /\
    property "group_join_method" d = None.
Proof.
  eexists. split; [reflexivity|]. repeat split.
Qed.

(** Nor does a supplied code reach the frame under another preference, or
    when it is the empty string. *)
Lemma connect_join_code_not_always_sent :
  (exists d,
      UseChat.wire
        (UseChat.onopen
           (UseChat.connect Sample.fresh (lit "couple") (Some join)
              (Some (lit "Ab12Cd")) Sample.initialHook))
      = [ {| event := "join_chat"; data := d |} ] /\
      property "group_code" d = None) /\
  (exists d,
      UseChat.wire
        (UseChat.onopen
           (UseChat.connect Sample.fresh (lit "group") (Some join)
              (Some []) Sample.initialHook))
      = [ {| event := "join_chat"; data := d |} ] /\
      property "group_code" d = None).
Proof.
  split; eexists; (split; [reflexivity|]); reflexivity.
Qed.

(** C3, amended.  When the socket created by [connect(preference,
    groupJoinMethod, customGroupCode)] opens, exactly one frame has been
    sent on it, a [join_chat] frame.  Its data has [user_id], [username],
    [preference], [gender] and [room_type], where [room_type] is ["group"]
    if the preference is ["group"] and ["couple"] otherwise.  It has
    [group_join_method] exactly when the preference is ["group"] and a
    method was given, and [group_code] exactly when the preference is
    ["group"], the method is ["join"] and the code is a non-empty string. *)
Theorem connect_join_chat_frame :
  forall (fresh : Fresh) (preference : jsstring)
         (groupJoinMethod : option GroupJoinMethod)
         (customGroupCode : option jsstring) (h : Hook),
    socketCreated fresh = true ->
    exists d,
      UseChat.wire
        (UseChat.onopen
           (UseChat.connect fresh preference groupJoinMethod customGroupCode h))
      = [ {| event := "join_chat"; data := d |} ] /\
      property "user_id" d = Some (JString (fst (UseChat.getUserId fresh (refs h)))) /\
      property "username" d
      = Some (JString (if UseChat.present (storedUsername (refs h))
                       then UseChat.valueOr [] (storedUsername (refs h))
                       else lit "User_"
                            ++ JSString.substring 0 5
                                 (fst (UseChat.getUserId fresh (refs h))))) /\
      property "preference" d = Some (JString preference) /\
      property "gender" d = Some (JString (lit "default")) /\
      property "room_type" d
      = Some (JString (if JSString.eqb preference (lit "group")
                       then lit "group" else lit "couple")) /\
      (forall k, In k (keys d) ->
                 In k ["user_id"; "username"; "preference"; "gender"; "room_type";
                       "group_join_method"; "group_code"]%string) /\
      (property "group_join_method" d <> None
       <-> preference = lit "group" /\ groupJoinMethod <> None) /\
      (preference = lit "group" ->
       property "group_join_method" d = option_map GroupJoinMethod_json groupJoinMethod) /\
      (property "group_code" d <> None
       <-> preference = lit "group" /\ groupJoinMethod = Some join /\
           UseChat.present customGroupCode = true) /\
      (property "group_code" d <> None ->
       property "group_code" d = option_map JString customGroupCode).
Proof.
  intros fresh preference groupJoinMethod customGroupCode h Hsock.
  rewrite connect_onopen_wire by assumption.
  eexists. split; [reflexivity|].
  unfold joinProfile, UserProfile_json.
  destruct (JSString.eqb preference (lit "group")) eqn:Hpref.
  - apply JSString_eqb_eq in Hpref.
    destruct groupJoinMethod as [[|]|];
      [ | destruct (UseChat.present customGroupCode) eqn:Hc;
          [destruct customGroupCode as [c|]; [|discriminate Hc] | ] | ];
      cbn;
      (repeat split; try reflexivity; try (eexists; reflexivity);
       try solve [intros k Hk; cbn; tauto];
       try solve [intuition congruence]).
  - apply JSString_eqb_neq in Hpref.
    cbn;
      (repeat split; try reflexivity; try (eexists; reflexivity);
       try solve [intros k Hk; cbn; tauto];
       try solve [intuition congruence]).
Qed.

Lemma connect_join_chat_frame_witness :
  (exists d,
      UseChat.wire
        (UseChat.onopen
           (UseChat.connect Sample.fresh (lit "group") (Some join)
              (Some (lit "Ab12Cd")) Sample.initialHook))
      = [ {| event := "join_chat"; data := d |} ] /\
      property "room_type" d = Some (JString (lit "group")) /\
      property "group_code" d = Some (JString (lit "Ab12Cd"))).
Proof.
  destruct (connect_join_chat_frame Sample.fresh (lit "group") (Some join)
              (Some (lit "Ab12Cd")) Sample.initialHook eq_refl)
    as (d & Hwire & _ & _ & _ & _ & Hroom & _ & _ & _ & Hcode & Hval).
  exists d. split; [exact Hwire|]. split; [exact Hroom|].
  apply Hval. apply Hcode. repeat split.
Defined.

(* ===================================================================== *)
(** * Properties: server events (use-chat-web-sockets.tsx)                *)
(* ===================================================================== *)

(** C5, as stated, fails: a [chat_started] event whose [groupCode] is the
    empty string has the property, yet the handler takes the other branch,
    since the empty string is falsy. *)
Lemma chat_started_with_empty_code_is_not_a_group :
  let s' := UseChat.handleChatStarted Sample.initialState Sample.fresh (Some [])
              Sample.initialState in
  isGroupChat s' = false /\
  groupCode s' = None /\
  map body (messages s')
  = [notification (lit "You're now chatting with a random stranger. Say Yaps!")].
Proof. repeat split. Qed.

Section ServerEvents.

Variable aes : AesGcm.
Variable CRYPTO_KEY : option jsstring.
Variable unicodeTextRegex : jsstring -> bool.

(** C5, amended.  On [chat_started] the client sets [connected], clears
    [connecting] and [partnerDisconnected].  For a frame that has data:
    if [data.groupCode] is a non-empty string it sets [isGroupChat], stores
    the code and replaces the message list with one system notification
    that names the code; if [data.groupCode] is absent, [null] or empty it
    clears [isGroupChat] and replaces the message list with the one
    stranger-chat system notification.  For a frame whose data is missing
    or [null] the handler throws at [data.groupCode] after the three
    setters, and the messages, the counter and the rest of the state stay
    as they were. *)
Theorem chat_started_sets_up_the_chat :
  forall (view : ChatState) (fresh : Fresh) (dataGroupCode : option jsstring)
         (s : ChatState),
    let s' := UseChat.handleServerEvent aes CRYPTO_KEY unicodeTextRegex view fresh
                (chat_started dataGroupCode) s in
    connected s' = true /\ connecting s' = false /\
    partnerDisconnected s' = false /\
    (forall code, dataGroupCode = Some code -> code <> [] ->
       isGroupChat s' = true /\ groupCode s' = Some code /\
       exists m, messages s' = [m] /\
                 sender m = lit "system" /\ isOwnMessage m = false /\
                 body m = notification
                            (lit "You've joined a group chat. Group code: " ++ code)) /\
    (dataGroupCode = None \/ dataGroupCode = Some [] ->
       isGroupChat s' = false /\ groupCode s' = groupCode s /\
       exists m, messages s' = [m] /\
                 sender m = lit "system" /\ isOwnMessage m = false /\
                 body m = notification
                            (lit "You're now chatting with a random stranger. Say Yaps!")) /\
    (let s0 := UseChat.handleServerEvent aes CRYPTO_KEY unicodeTextRegex view fresh
                 chat_started_without_data s in
     (exists e, snd (UseChat.handleChatStarted_withoutData s) = Throw e) /\
     connected s0 = true /\ connecting s0 = false /\
     partnerDisconnected s0 = false /\
     messages s0 = messages s /\ messageCounter s0 = messageCounter s /\
     isGroupChat s0 = isGroupChat s /\ groupCode s0 = groupCode s /\
     groupMembers s0 = groupMembers s /\ partnerTyping s0 = partnerTyping s /\
     currentReplyTo s0 = currentReplyTo s).
Proof.
  intros view fresh dataGroupCode s s'. subst s'.
  cbn [UseChat.handleServerEvent UseChat.handlePlainEvent].
  unfold UseChat.handleChatStarted.
  assert (Hnodata :
            (exists e, snd (UseChat.handleChatStarted_withoutData s) = Throw e) /\
            connected (fst (UseChat.handleChatStarted_withoutData s)) = true /\
            connecting (fst (UseChat.handleChatStarted_withoutData s)) = false /\
            partnerDisconnected (fst (UseChat.handleChatStarted_withoutData s)) = false /\
            messages (fst (UseChat.handleChatStarted_withoutData s)) = messages s /\
            messageCounter (fst (UseChat.handleChatStarted_withoutData s))
            = messageCounter s /\
            isGroupChat (fst (UseChat.handleChatStarted_withoutData s)) = isGroupChat s /\
            groupCode (fst (UseChat.handleChatStarted_withoutData s)) = groupCode s /\
            groupMembers (fst (UseChat.handleChatStarted_withoutData s))
            = groupMembers s /\
            partnerTyping (fst (UseChat.handleChatStarted_withoutData s))
            = partnerTyping s /\
            currentReplyTo (fst (UseChat.handleChatStarted_withoutData s))
            = currentReplyTo s).
  { split; [eexists; reflexivity|]. repeat split. }
  destruct dataGroupCode as [[|c code]|]; cbn [UseChat.present JSString.truthy];
    (split; [reflexivity|]); (split; [reflexivity|]); (split; [reflexivity|]);
    (split; [intros code' Hsome Hne | split; [intros Hor | exact Hnodata]]).
  - injection Hsome as <-. now elim Hne.
  - repeat split. eexists. repeat split.
  - injection Hsome as <-. repeat split. eexists. repeat split.
  - destruct Hor; discriminate.
  - discriminate.
  - repeat split. eexists. repeat split.
Qed.

(** The handlers keep the stored group code [null] or non-empty. *)
Lemma chat_started_group_code_truthy (view : ChatState) (fresh : Fresh)
    (dataGroupCode : option jsstring) (s : ChatState) :
  groupCode s = None \/ UseChat.present (groupCode s) = true ->
  let s' := UseChat.handleServerEvent aes CRYPTO_KEY unicodeTextRegex view fresh (chat_started dataGroupCode) s in
  groupCode s' = None \/ UseChat.present (groupCode s') = true.
Proof.
  intros H. cbn [UseChat.handleServerEvent UseChat.handlePlainEvent].
  unfold UseChat.handleChatStarted.
  destruct (UseChat.present dataGroupCode) eqn:E; cbn; auto.
Qed.

(** C10.  When the envelope of a [receive_message] event is missing or
    does not decrypt, the handler returns normally: it appends one system
    notification with the text of the source, adds one to the message
    counter, and changes nothing else; the messages stored before are
    the prefix of the new list, and no chat message is added. *)
Theorem receive_message_decrypt_failure_is_notified :
  forall (view : ChatState) (fresh : Fresh) (data : ReceiveMessageData)
         (s : ChatState),
    (rm_message data = None \/
     exists envelope e,
       rm_message data = Some envelope /\
       Crypto.decryptMessage aes CRYPTO_KEY
         {| encrypted := env_encrypted envelope; nonce := env_nonce envelope |}
       = Throw e) ->
    let s' := UseChat.handleServerEvent aes CRYPTO_KEY unicodeTextRegex view fresh
                (receive_message data) s in
    exists m,
      messages s' = messages s ++ [m] /\
      sender m = lit "system" /\ isOwnMessage m = false /\
      body m = notification
                 (lit "Could not decrypt message. Encryption key may be invalid.") /\
      messageCounter s' = messageCounter s + 1 /\
      connected s' = connected s /\ isGroupChat s' = isGroupChat s /\
      groupCode s' = groupCode s /\ groupMembers s' = groupMembers s /\
      partnerTyping s' = partnerTyping s /\
      partnerDisconnected s' = partnerDisconnected s /\
      connecting s' = connecting s /\ currentReplyTo s' = currentReplyTo s.
Proof.
  intros view fresh data s Hfail s'. subst s'.
  cbn [UseChat.handleServerEvent].
  unfold UseChat.handleReceiveMessage, UseChat.receivedMessage.
  destruct Hfail as [Hnone | (envelope & e & Hsome & Hthrow)].
  - rewrite Hnone. cbn [bind try_catch].
    eexists. repeat split.
  - rewrite Hsome. cbn [bind]. rewrite Hthrow. cbn [bind try_catch].
    eexists. repeat split.
Qed.

(** On [message_deleted] the messages with the given id go and the rest
    of the state stays. *)
Lemma message_deleted_filters (view : ChatState) (fresh : Fresh)
    (messageId : jsstring) (s : ChatState) :
  let s' := UseChat.handleServerEvent aes CRYPTO_KEY unicodeTextRegex view fresh
              (message_deleted (Some messageId)) s in
  messages s'
  = filter (fun m => negb (JSString.eqb (id m) messageId)) (messages s) /\
  messageCounter s' = messageCounter s /\ connected s' = connected s /\
  isGroupChat s' = isGroupChat s /\ groupCode s' = groupCode s.
Proof. repeat split. Qed.

End ServerEvents.

Lemma receive_message_decrypt_failure_witness :
  exists m,
    messages
      (UseChat.handleServerEvent Sample.toyAes None Sample.anyText
         (Sample.groupState [Sample.hello]) Sample.fresh
         (receive_message
            {| rm_sender := lit "u-bob";
               rm_message := Some {| env_encrypted := lit "AAAA";
                                     env_nonce := lit "AAAA";
                                     env_reply_to := None |};
               rm_reply_to := None |})
         (Sample.groupState [Sample.hello]))
    = [Sample.hello; m] /\
    body m = notification
               (lit "Could not decrypt message. Encryption key may be invalid.").
Proof.
  destruct (receive_message_decrypt_failure_is_notified Sample.toyAes None
              Sample.anyText (Sample.groupState [Sample.hello]) Sample.fresh
              {| rm_sender := lit "u-bob";
                 rm_message := Some {| env_encrypted := lit "AAAA";
                                       env_nonce := lit "AAAA";
                                       env_reply_to := None |};
                 rm_reply_to := None |}
              (Sample.groupState [Sample.hello]))
    as (m & Hm & _ & _ & Hbody & _).
  - right. eexists. eexists. split; reflexivity.
  - exists m. split; [exact Hm | exact Hbody].
Defined.

(* ===================================================================== *)
(** * Properties: deleting a message                                      *)
(* ===================================================================== *)

Lemma differsFrom_Some (messageId : jsstring) (m : Message) :
  UseChat.differsFrom (Some messageId) m = true <-> id m <> messageId.
Proof.
  cbn. rewrite negb_true_iff. apply JSString_eqb_neq.
Qed.

(** The chat survives the loss of its connection: after the socket has
    closed, [connected] is still true and the socket is still in the ref. *)
Lemma droppedHook_still_connected :
  connected (state Sample.droppedHook) = true /\
  groupCode (state Sample.droppedHook) = Some (lit "Ab12Cd") /\
  map id (messages (state Sample.droppedHook)) = [lit "m-1"] /\
  option_map readyState (socketRef (refs Sample.droppedHook)) = Some CLOSED /\
  map event (UseChat.wire Sample.droppedHook) = ["join_chat"%string].
Proof. repeat split. Qed.

(** C6, as stated, fails: in a chat whose connection has dropped,
    [connected] is still true; [deleteMessage] removes the message locally
    and no [delete_message] frame is transmitted, since [send] discards
    the data on a closed socket. *)
Lemma deleteMessage_on_closed_socket_sends_nothing :
  let h := Sample.droppedHook in
  let h' := UseChat.deleteMessage (state h) (lit "m-1") h in
  connected (state h) = true /\
  (exists ws, socketRef (refs h) = Some ws /\ readyState ws = CLOSED) /\
  map id (messages (state h)) = [lit "m-1"] /\
  UseChat.wire h' = UseChat.wire h /\
  framesOf "delete_message" (UseChat.wire h') = [] /\
  messages (state h') = [].
Proof. repeat split. eexists. split; reflexivity. Qed.

(** In the other states of the socket: while it is connecting, [send]
    throws and the message is kept; once it is closing or closed, the data
    is dropped and the message is removed all the same. *)
Lemma deleteMessage_socket_not_open (view : ChatState) (messageId : jsstring)
    (h : Hook) (ws : WebSocket) :
  socketRef (refs h) = Some ws -> connected view = true ->
  let h' := UseChat.deleteMessage view messageId h in
  (readyState ws = CONNECTING -> h' = h) /\
  (readyState ws = CLOSING \/ readyState ws = CLOSED ->
   UseChat.wire h' = sent ws /\
   messages (state h')
   = filter (fun m => negb (JSString.eqb (id m) messageId)) (messages (state h))).
Proof.
  intros Hsock Hconn h'. subst h'. unfold UseChat.deleteMessage.
  rewrite Hsock, Hconn. cbn [negb]. unfold WebSocket_send. split.
  - intros ->. reflexivity.
  - intros [-> | ->]; cbn [bind try_catch]; unfold UseChat.wire; cbn;
      (split; [reflexivity | reflexivity]).
Qed.

(** C6, amended.  While the socket is present and open and [connected] is
    true, [deleteMessage(messageId)] transmits one [delete_message] frame
    whose data has the properties [messageId], [chatId] (the current group
    code, or [null]) and [isGroupChat] (true if and only if the group code
    is a non-empty string), and removes from the local list the messages
    whose id is [messageId], keeping the others as they are and in order.
    On [message_deleted] with a [messageId], the messages with that id are
    removed and every other message stays. *)
Theorem deleteMessage_frame_and_removal :
  forall (aes : AesGcm) (CRYPTO_KEY : option jsstring)
         (unicodeTextRegex : jsstring -> bool)
         (view : ChatState) (fresh : Fresh) (messageId : jsstring)
         (h : Hook) (s : ChatState),
    (forall ws,
        socketRef (refs h) = Some ws -> readyState ws = OPEN ->
        connected view = true ->
        let h' := UseChat.deleteMessage view messageId h in
        exists d,
          UseChat.wire h' = sent ws ++ [ {| event := "delete_message"; data := d |} ] /\
          keys d = ["messageId"; "chatId"; "isGroupChat"]%string /\
          property "messageId" d = Some (JString messageId) /\
          property "chatId" d = Some (nullable (groupCode view)) /\
          property "isGroupChat" d = Some (JBool (UseChat.present (groupCode view))) /\
          messages (state h')
          = filter (fun m => negb (JSString.eqb (id m) messageId)) (messages (state h)) /\
          (forall m, In m (messages (state h'))
                     <-> In m (messages (state h)) /\ id m <> messageId)) /\
    (let s' := UseChat.handleServerEvent aes CRYPTO_KEY unicodeTextRegex view fresh
                 (message_deleted (Some messageId)) s in
     messages s'
     = filter (fun m => negb (JSString.eqb (id m) messageId)) (messages s) /\
     (forall m, In m (messages s') <-> In m (messages s) /\ id m <> messageId)).
Proof.
  intros aes CRYPTO_KEY unicodeTextRegex view fresh messageId h s.
  assert (Hin : forall l m,
             In m (filter (fun m => negb (JSString.eqb (id m) messageId)) l)
             <-> In m l /\ id m <> messageId).
  { intros l m. rewrite filter_In, negb_true_iff, JSString_eqb_neq. reflexivity. }
  split.
  - intros ws Hsock Hopen Hconn h'. subst h'.
    unfold UseChat.deleteMessage. rewrite Hsock, Hconn. cbn [negb].
    unfold WebSocket_send. rewrite Hopen. cbn [bind try_catch].
    eexists. split; [reflexivity|].
    cbn [state UseChat.setMessages messages].
    do 5 (split; [reflexivity|]). intros m. apply (Hin (messages (state h)) m).
  - cbn [UseChat.handleServerEvent UseChat.handlePlainEvent].
    unfold UseChat.handleMessageDeleted. cbn [UseChat.setMessages messages].
    split; [reflexivity|]. intros m. apply (Hin (messages s) m).
Qed.

Lemma deleteMessage_frame_and_removal_witness :
  let view := Sample.groupState [Sample.hello] in
  let h' := UseChat.deleteMessage view (lit "m-0")
              (Sample.groupHook OPEN [Sample.hello]) in
  exists d,
    UseChat.wire h' = [ {| event := "delete_message"; data := d |} ] /\
    property "chatId" d = Some (JString (lit "Ab12Cd")) /\
    property "isGroupChat" d = Some (JBool true) /\
    messages (state h') = [].
Proof.
  destruct (deleteMessage_frame_and_removal Sample.toyAes None Sample.anyText
              (Sample.groupState [Sample.hello]) Sample.fresh (lit "m-0")
              (Sample.groupHook OPEN [Sample.hello])
              (Sample.groupState [Sample.hello])) as [Hdel _].
  destruct (Hdel _ eq_refl eq_refl eq_refl) as (d & Hw & _ & _ & Hchat & Hgroup & Hmsgs & _).
  exists d. repeat split; assumption.
Defined.

(* ===================================================================== *)
(** * Properties: WebRTC signalling (webrtc-events.ts)                    *)
(* ===================================================================== *)

(** C7.  Each of [sendOffer], [sendAnswer], [sendIceCandidate] and
    [sendEndCall] returns [false] and sends nothing when the socket is
    absent or not open.  Otherwise it returns [true] after sending one
    frame with its event name, whose data has [sender_id], the user id that
    [localStorage] holds when the call returns (the one it held before, if
    any), [target_id], [is_group_chat] and [group_code] as given, and the
    [offer], [answer] or [candidate] of the first three functions. *)
Theorem webrtc_send_functions_send_one_frame :
  forall (randomSuffix : jsstring) (storedUserId : option jsstring)
         (socket : option WebSocket) (offer answer candidate : JSON)
         (targetId : jsstring) (isGroupChat : option bool)
         (groupCode : option jsstring),
    sendsOneSignal "webrtc_offer" (Some ("offer"%string, offer))
      storedUserId socket targetId isGroupChat groupCode
      (WebRTCEvents.sendOffer randomSuffix storedUserId socket offer targetId
         isGroupChat groupCode) /\
    sendsOneSignal "webrtc_answer" (Some ("answer"%string, answer))
      storedUserId socket targetId isGroupChat groupCode
      (WebRTCEvents.sendAnswer randomSuffix storedUserId socket answer targetId
         isGroupChat groupCode) /\
    sendsOneSignal "webrtc_ice_candidate" (Some ("candidate"%string, candidate))
      storedUserId socket targetId isGroupChat groupCode
      (WebRTCEvents.sendIceCandidate randomSuffix storedUserId socket candidate
         targetId isGroupChat groupCode) /\
    sendsOneSignal "webrtc_end_call" None
      storedUserId socket targetId isGroupChat groupCode
      (WebRTCEvents.sendEndCall randomSuffix storedUserId socket targetId
         isGroupChat groupCode).
Proof.
  intros randomSuffix storedUserId socket offer answer candidate targetId
         isGroupChat groupCode.
  unfold sendsOneSignal, WebRTCEvents.sendOffer, WebRTCEvents.sendAnswer,
    WebRTCEvents.sendIceCandidate, WebRTCEvents.sendEndCall,
    WebRTCEvents.getCurrentUserId.
  repeat match goal with |- (_ /\ _) /\ _ => split end.
  all: split.
  all: try (intros [-> | (ws & -> & Hne)];
            [ cbn; repeat split
            | destruct (readyState ws) eqn:E; cbn; repeat split; now elim Hne ]).
  all: intros ws -> Hopen; rewrite Hopen; cbn [isOPEN negb];
    destruct storedUserId as [[|c0 u0]|];
    cbn [UseChat.present JSString.truthy UseChat.valueOr
         WebRTCEvents.returned WebRTCEvents.socketAfter WebRTCEvents.userIdAfter];
    (split; [reflexivity|]); eexists; eexists;
    (split; [unfold transmit; rewrite Hopen; reflexivity|]);
    (split; [reflexivity|]);
    (split; [intros u Hu Hne; try discriminate Hu; injection Hu as <-;
             solve [reflexivity | now elim Hne] |]);
    destruct groupCode; cbn; repeat split.
Qed.

(* ===================================================================== *)
(** * Properties: sending a message                                       *)
(* ===================================================================== *)

Lemma sendJsonMessage_open (eventName : string) (d : JSON) (r : Refs) (ws : WebSocket) :
  socketRef r = Some ws -> readyState ws = OPEN ->
  socketRef (UseChat.sendJsonMessage eventName d r)
  = Some (transmit ws {| event := eventName; data := d |}).
Proof.
  intros Hs Ho. unfold UseChat.sendJsonMessage. rewrite Hs, Ho. reflexivity.
Qed.

Lemma sendJsonMessage_not_open (eventName : string) (d : JSON) (r : Refs) (ws : WebSocket) :
  socketRef r = Some ws -> readyState ws <> OPEN ->
  UseChat.sendJsonMessage eventName d r = r.
Proof.
  intros Hs Ho. unfold UseChat.sendJsonMessage. rewrite Hs.
  destruct (readyState ws); try reflexivity. now elim Ho.
Qed.

Lemma getUserId_socketRef (fresh : Fresh) (r : Refs) :
  socketRef (snd (UseChat.getUserId fresh r)) = socketRef r.
Proof.
  unfold UseChat.getUserId. destruct (UseChat.present (userIdRef r)); reflexivity.
Qed.

Lemma sendJsonMessage_getUserId_open (fresh : Fresh) (eventName : string)
    (d : JSON) (r : Refs) (ws : WebSocket) :
  socketRef r = Some ws -> readyState ws = OPEN ->
  socketRef (UseChat.sendJsonMessage eventName d (snd (UseChat.getUserId fresh r)))
  = Some (transmit ws {| event := eventName; data := d |}).
Proof.
  intros Hs Ho. apply sendJsonMessage_open; [|assumption].
  rewrite getUserId_socketRef. assumption.
Qed.

Lemma framesOf_app (name : string) (l1 l2 : list Frame) :
  framesOf name (l1 ++ l2) = framesOf name l1 ++ framesOf name l2.
Proof. apply filter_app. Qed.

Lemma Uint8Array_view_header (b : bytes) :
  (8 <= List.length b)%nat ->
  UseChat.Uint8Array_view b 0 8 = Normal (firstn 8 b).
Proof.
  intros H. unfold UseChat.Uint8Array_view.
  replace (0 + 8 <=? List.length b)%nat with true
    by (symmetry; apply Nat.leb_le; lia).
  reflexivity.
Qed.

Lemma Uint8Array_view_short (b : bytes) :
  (List.length b < 8)%nat ->
  exists e, UseChat.Uint8Array_view b 0 8 = Throw e.
Proof.
  intros H. unfold UseChat.Uint8Array_view.
  replace (0 + 8 <=? List.length b)%nat with false
    by (symmetry; apply Nat.leb_gt; lia).
  eexists. reflexivity.
Qed.

Lemma isProbablyImage_header (b : bytes) :
  (8 <= List.length b)%nat ->
  UseChat.isProbablyImage (firstn 8 b) = hasImageMagic b.
Proof.
  intros H.
  do 8 (destruct b as [|? b]; [cbn in H; lia|]).
  unfold UseChat.isProbablyImage, hasImageMagic. cbn [firstn nth JSString.startsWith].
  rewrite !andb_true_r.
  repeat match goal with |- context [?x =? ?y] =>
           lazymatch x with
           | Zpos _ => rewrite (Z.eqb_sym x y)
           end
         end.
  rewrite <- !andb_assoc. reflexivity.
Qed.

(** The synchronous part of a [sendMessage] call that gets through: the
    frames, the local message and the state of the promise. *)
Lemma sendMessage_open (aes : AesGcm) (CRYPTO_KEY : option jsstring)
    (view : ChatState) (fresh : Fresh) (content : MessageContent)
    (replyTo : option jsstring) (h : Hook) (ws : WebSocket) (e : EncryptedData) :
  socketRef (refs h) = Some ws -> readyState ws = OPEN ->
  connected view = true -> sendable content ->
  Crypto.encryptMessage aes CRYPTO_KEY (randomBytes12 fresh) (contentToEncrypt content)
  = Normal e ->
  let isImage := match contentToEncrypt content with
                 | BinaryContent _ => true
                 | TextContent _ => false
                 end in
  let out := UseChat.sendMessage aes CRYPTO_KEY view fresh content replyTo h in
  UseChat.wire (fst out)
  = sent ws
    ++ (if isImage then [fileFrame "file_sending_start" view (fileIdOf fresh)] else [])
    ++ [sendMessageFrame view e replyTo] /\
  snd out = (if isImage then AwaitingDelay (fileIdOf fresh) else Resolved) /\
  (exists m,
      messages (state (fst out)) = messages (state h) ++ [m] /\
      isOwnMessage m = true /\ replyToId m = replyTo /\
      body m = match contentToEncrypt content with
               | TextContent s => text s
               | BinaryContent b =>
                   file (lit "image.png") (Z.of_nat (List.length b)) (lit "image/png") b
               end) /\
  messageCounter (state (fst out)) = messageCounter (state h) + 1.
Proof.
  intros Hsock Hopen Hconn Hsend Henc isImage out. subst isImage out.
  unfold UseChat.sendMessage. rewrite Hsock, Hconn. cbn [negb].
  assert (Hreply : (if UseChat.present replyTo then option_map JNumberOf replyTo else None)
                   = match replyTo with
                     | Some (c :: r) => Some (JNumberOf (c :: r))
                     | _ => None
                     end).
  { destruct replyTo as [[|c r]|]; reflexivity. }
  destruct content as [s|b]; cbn [UseChat.prepare contentToEncrypt] in *.
  - rewrite Henc.
    destruct (UseChat.getUserId fresh (refs h)) as [senderId r2] eqn:Hid.
    assert (Hs2 : socketRef r2 = Some ws).
    { replace r2 with (snd (UseChat.getUserId fresh (refs h))) by (rewrite Hid; reflexivity).
      rewrite getUserId_socketRef. assumption. }
    cbn [fst snd state refs]. unfold UseChat.wire. cbn [refs].
    rewrite (sendJsonMessage_open _ _ _ _ Hs2 Hopen), Hreply.
    split; [reflexivity|]. split; [reflexivity|]. split.
    + eexists. split; [destruct replyTo; reflexivity | repeat split; reflexivity].
    + destruct replyTo; reflexivity.
  - cbn in Hsend. rewrite (Uint8Array_view_header b Hsend). cbn [bind].
    rewrite (isProbablyImage_header b Hsend).
    destruct (hasImageMagic b) eqn:Himg; cbn [negb].
    + rewrite Henc.
      set (r1 := UseChat.sendJsonMessage "file_sending_start" _ (refs h)).
      assert (Hs1 : socketRef r1 = Some (transmit ws (fileFrame "file_sending_start" view (fileIdOf fresh)))).
      { apply sendJsonMessage_open; assumption. }
      destruct (UseChat.getUserId fresh r1) as [senderId r2] eqn:Hid.
      assert (Hs2 : socketRef r2 = Some (transmit ws (fileFrame "file_sending_start" view (fileIdOf fresh)))).
      { replace r2 with (snd (UseChat.getUserId fresh r1)) by (rewrite Hid; reflexivity).
        rewrite getUserId_socketRef. assumption. }
      cbn [fst snd state refs]. unfold UseChat.wire. cbn [refs].
      rewrite (sendJsonMessage_open _ _ _ _ Hs2) by (cbn; assumption).
      rewrite Hreply. cbn [transmit sent]. rewrite <- app_assoc.
      split; [reflexivity|]. split; [reflexivity|].
      assert (Hlen : negb (Z.of_nat (List.length b) =? 0) = true).
      { apply negb_true_iff, Z.eqb_neq. lia. }
      rewrite Hlen. split.
      * eexists. split; [destruct replyTo; reflexivity | repeat split; reflexivity].
      * destruct replyTo; reflexivity.
    + rewrite Henc.
      destruct (UseChat.getUserId fresh (refs h)) as [senderId r2] eqn:Hid.
      assert (Hs2 : socketRef r2 = Some ws).
      { replace r2 with (snd (UseChat.getUserId fresh (refs h))) by (rewrite Hid; reflexivity).
        rewrite getUserId_socketRef. assumption. }
      cbn [fst snd state refs]. unfold UseChat.wire. cbn [refs].
      rewrite (sendJsonMessage_open _ _ _ _ Hs2 Hopen), Hreply.
      split; [reflexivity|]. split; [reflexivity|]. split.
      * eexists. split; [destruct replyTo; reflexivity | repeat split; reflexivity].
      * destruct replyTo; reflexivity.
Qed.

Lemma sendMessage_not_open (aes : AesGcm) (CRYPTO_KEY : option jsstring)
    (view : ChatState) (fresh : Fresh) (content : MessageContent)
    (replyTo : option jsstring) (h : Hook) (ws : WebSocket) :
  socketRef (refs h) = Some ws -> readyState ws <> OPEN ->
  socketRef (refs (fst (UseChat.sendMessage aes CRYPTO_KEY view fresh content replyTo h)))
  = Some ws.
Proof.
  intros Hsock Hopen. unfold UseChat.sendMessage. rewrite Hsock.
  destruct (connected view); cbn [negb fst]; [|assumption].
  destruct (UseChat.prepare view fresh content (refs h))
    as [[[messageToSend fileId] r1]|e] eqn:Hprep; cbn [fst]; [|assumption].
  assert (Hr1 : r1 = refs h).
  { destruct content as [s|b]; cbn [UseChat.prepare] in Hprep.
    - now injection Hprep as _ _ <-.
    - destruct (UseChat.Uint8Array_view b 0 8); cbn [bind] in Hprep; [|discriminate].
      destruct (UseChat.isProbablyImage a); cbn [negb] in Hprep.
      + injection Hprep as _ _ <-.
        apply sendJsonMessage_not_open with (ws := ws); assumption.
      + now injection Hprep as _ _ <-. }
  subst r1.
  destruct (Crypto.encryptMessage aes CRYPTO_KEY (randomBytes12 fresh) messageToSend);
    cbn [fst refs]; [|assumption].
  destruct (UseChat.getUserId fresh (refs h)) as [senderId r2] eqn:Hid.
  assert (Hs2 : socketRef r2 = Some ws).
  { replace r2 with (snd (UseChat.getUserId fresh (refs h))) by (rewrite Hid; reflexivity).
    rewrite getUserId_socketRef. assumption. }
  cbn [fst refs].
  rewrite (sendJsonMessage_not_open _ _ _ _ Hs2 Hopen). assumption.
Qed.

Lemma sendMessage_encryption_fails (aes : AesGcm) (CRYPTO_KEY : option jsstring)
    (view : ChatState) (fresh : Fresh) (content : MessageContent)
    (replyTo : option jsstring) (h : Hook) (ws : WebSocket) (err : string) :
  socketRef (refs h) = Some ws -> connected view = true -> sendable content ->
  Crypto.encryptMessage aes CRYPTO_KEY (randomBytes12 fresh) (contentToEncrypt content)
  = Throw err ->
  let out := UseChat.sendMessage aes CRYPTO_KEY view fresh content replyTo h in
  snd out = Rejected err /\ state (fst out) = state h /\
  framesOf "send_message" (UseChat.wire (fst out)) = framesOf "send_message" (sent ws).
Proof.
  intros Hsock Hconn Hsend Henc out. subst out.
  unfold UseChat.sendMessage. rewrite Hsock, Hconn. cbn [negb].
  destruct content as [s|b]; cbn [UseChat.prepare contentToEncrypt] in *.
  - rewrite Henc. cbn [fst snd state]. unfold UseChat.wire. cbn [refs].
    rewrite Hsock. repeat split.
  - cbn in Hsend. rewrite (Uint8Array_view_header b Hsend). cbn [bind].
    rewrite (isProbablyImage_header b Hsend).
    destruct (hasImageMagic b) eqn:Himg; cbn [negb]; rewrite Henc;
      cbn [fst snd state]; unfold UseChat.wire; cbn [refs].
    + split; [reflexivity|]. split; [reflexivity|].
      unfold UseChat.sendJsonMessage. rewrite Hsock.
      destruct (isOPEN (readyState ws)); cbn [negb]; [|now rewrite Hsock].
      cbn [UseChat.setSocketRef socketRef transmit sent].
      rewrite framesOf_app. cbn. apply app_nil_r.
    + rewrite Hsock. repeat split.
Qed.

(** C4, as stated, fails: with the chat connected and the socket open but
    no [CRYPTO_KEY] in the environment, [sendMessage("hi")] is rejected
    and no [send_message] frame is emitted. *)
Lemma sendMessage_without_key_sends_nothing :
  let view := Sample.groupState [] in
  let h := Sample.groupHook OPEN [] in
  let out := UseChat.sendMessage Sample.toyAes None view Sample.fresh
               (TextContent (lit "hi")) None h in
  connected view = true /\
  (exists ws, socketRef (refs h) = Some ws /\ readyState ws = OPEN) /\
  snd out = Rejected "Encryption failed: Encryption key not found in environment variables" /\
  framesOf "send_message" (UseChat.wire (fst out)) = [] /\
  UseChat.wire (fst out) = [].
Proof.
  repeat split. eexists. split; reflexivity.
Qed.

(** C4, amended.  Called while the socket is absent or [connected] is
    false, [sendMessage] returns a rejected promise and leaves the hook as
    it was: no frame, the same messages, the same counter.  Called while
    the socket is present and open and [connected] is true, with a string
    or a buffer of at least eight bytes that encrypts, it emits exactly one
    [send_message] frame, the last frame of the call, whose data is
    [{message: {encrypted, nonce}, is_group_chat, group_code, reply_to_id}]
    with [reply_to_id] the number [Number(replyToId)], left out when
    [replyToId] is missing or empty.  When encryption throws, the promise
    is rejected, no [send_message] frame is emitted and the messages and
    counter stay; when the socket is not open, nothing is transmitted. *)
Theorem sendMessage_guard_and_frame :
  forall (aes : AesGcm) (CRYPTO_KEY : option jsstring) (view : ChatState)
         (fresh : Fresh) (content : MessageContent) (replyTo : option jsstring)
         (h : Hook),
    let out := UseChat.sendMessage aes CRYPTO_KEY view fresh content replyTo h in
    (socketRef (refs h) = None \/ connected view = false ->
     snd out = Rejected "Not connected to chat" /\ fst out = h) /\
    (forall ws e,
        socketRef (refs h) = Some ws -> readyState ws = OPEN ->
        connected view = true -> sendable content ->
        Crypto.encryptMessage aes CRYPTO_KEY (randomBytes12 fresh)
          (contentToEncrypt content) = Normal e ->
        exists d before,
          UseChat.wire (fst out)
          = sent ws ++ before ++ [ {| event := "send_message"; data := d |} ] /\
          framesOf "send_message" before = [] /\
          framesOf "send_message" (UseChat.wire (fst out))
          = framesOf "send_message" (sent ws) ++ [ {| event := "send_message"; data := d |} ] /\
          property "message" d
          = Some (object [ ("encrypted", Some (JString (encrypted e)));
                           ("nonce", Some (JString (nonce e))) ]%string) /\
          property "is_group_chat" d = Some (JBool (isGroupChat view)) /\
          property "group_code" d = Some (nullable (groupCode view)) /\
          property "reply_to_id" d
          = match replyTo with
            | Some (c :: r) => Some (JNumberOf (c :: r))
            | _ => None
            end /\
          (forall k, In k (keys d) ->
                     In k ["message"; "is_group_chat"; "group_code"; "reply_to_id"]%string) /\
          messageCounter (state (fst out)) = messageCounter (state h) + 1 /\
          exists m, messages (state (fst out)) = messages (state h) ++ [m]) /\
    (forall ws err,
        socketRef (refs h) = Some ws -> connected view = true -> sendable content ->
        Crypto.encryptMessage aes CRYPTO_KEY (randomBytes12 fresh)
          (contentToEncrypt content) = Throw err ->
        snd out = Rejected err /\
        framesOf "send_message" (UseChat.wire (fst out))
        = framesOf "send_message" (sent ws) /\
        messages (state (fst out)) = messages (state h) /\
        messageCounter (state (fst out)) = messageCounter (state h)) /\
    (forall ws,
        socketRef (refs h) = Some ws -> readyState ws <> OPEN ->
        UseChat.wire (fst out) = sent ws).
Proof.
  intros aes CRYPTO_KEY view fresh content replyTo h out.
  split; [|split; [|split]].
  - subst out. unfold UseChat.sendMessage. intros [Hnone | Hconn].
    + rewrite Hnone. split; reflexivity.
    + rewrite Hconn. destruct (socketRef (refs h)); split; reflexivity.
  - intros ws e Hsock Hopen Hconn Hsend Henc.
    destruct (sendMessage_open aes CRYPTO_KEY view fresh content replyTo h ws e
                Hsock Hopen Hconn Hsend Henc) as (Hwire & _ & (m & Hm & _) & Hcount).
    fold out in Hwire, Hm, Hcount.
    exists (data (sendMessageFrame view e replyTo)).
    eexists. split; [exact Hwire|].
    split; [destruct (contentToEncrypt content); reflexivity|].
    split.
    { rewrite Hwire, !framesOf_app.
      destruct (contentToEncrypt content); cbn; reflexivity. }
    cbn [sendMessageFrame data].
    destruct replyTo as [[|c r]|]; cbn;
      (repeat split; try reflexivity; try assumption;
       try solve [intros k Hk; tauto]; try (exists m; assumption)).
  - intros ws err Hsock Hconn Hsend Henc.
    destruct (sendMessage_encryption_fails aes CRYPTO_KEY view fresh content replyTo
                h ws err Hsock Hconn Hsend Henc) as (Hres & Hstate & Hframes).
    fold out in Hres, Hstate, Hframes.
    rewrite Hstate. repeat split; assumption.
  - intros ws Hsock Hopen. unfold UseChat.wire. subst out.
    rewrite (sendMessage_not_open aes CRYPTO_KEY view fresh content replyTo h ws
               Hsock Hopen).
    reflexivity.
Qed.

Lemma sendMessage_guard_and_frame_witness :
  exists d,
    framesOf "send_message"
      (UseChat.wire
         (fst (UseChat.sendMessage Sample.toyAes (Some Sample.key32)
                 (Sample.groupState []) Sample.fresh (TextContent (lit "hi"))
                 (Some (lit "m-0")) (Sample.groupHook OPEN []))))
    = [ {| event := "send_message"; data := d |} ] /\
    property "reply_to_id" d = Some (JNumberOf (lit "m-0")).
Proof.
  destruct (sendMessage_guard_and_frame Sample.toyAes (Some Sample.key32)
              (Sample.groupState []) Sample.fresh (TextContent (lit "hi"))
              (Some (lit "m-0")) (Sample.groupHook OPEN [])) as (_ & Hsent & _).
  edestruct (Hsent _ _ eq_refl eq_refl eq_refl I eq_refl)
    as (d & before & _ & _ & Hframes & _ & _ & _ & Hreply & _).
  exists d. split; [exact Hframes | exact Hreply].
Defined.

(* ===================================================================== *)
(** * Properties: sending an image                                        *)
(* ===================================================================== *)

(** C8, as stated, fails: with the chat connected and the socket open but
    no [CRYPTO_KEY] in the environment, [sendMessage] of a JPEG buffer
    emits the [file_sending_start] frame and is then rejected when
    encryption throws: no [send_message] frame and no [file_sending_end]
    frame follow. *)
Lemma sendMessage_image_without_key_stops_after_start :
  let view := Sample.groupState [] in
  let h := Sample.groupHook OPEN [] in
  let out := UseChat.sendMessage Sample.toyAes None view Sample.fresh
               (BinaryContent jpegHeader) None h in
  hasImageMagic jpegHeader = true /\
  connected view = true /\
  snd out = Rejected "Encryption failed: Encryption key not found in environment variables" /\
  map event (UseChat.wire (fst out)) = ["file_sending_start"%string] /\
  framesOf "send_message" (UseChat.wire (fst out)) = [] /\
  framesOf "file_sending_end" (UseChat.wire (fst out)) = [].
Proof. repeat split. Qed.

(** Nor is any of the three frames transmitted once the connection has
    dropped, although the call goes through and the message is shown. *)
Lemma sendMessage_image_on_closed_socket_sends_nothing :
  let h := Sample.droppedHook in
  let out := UseChat.sendMessage Sample.toyAes (Some Sample.key32) (state h)
               Sample.fresh (BinaryContent jpegHeader) None h in
  connected (state h) = true /\
  snd out = AwaitingDelay (lit "file-1700000000001") /\
  UseChat.wire (fst out) = UseChat.wire h /\
  UseChat.wire (UseChat.sendMessage_afterDelay (state h) (lit "file-1700000000001")
                  (fst out)) = UseChat.wire h /\
  List.length (messages (state (fst out))) = 2%nat.
Proof. repeat split. Qed.

Lemma sendMessage_afterDelay_open (view : ChatState) (fileId : jsstring)
    (h : Hook) (ws : WebSocket) :
  socketRef (refs h) = Some ws -> readyState ws = OPEN ->
  UseChat.wire (UseChat.sendMessage_afterDelay view fileId h)
  = sent ws ++ [fileFrame "file_sending_end" view fileId].
Proof.
  intros Hsock Hopen. unfold UseChat.sendMessage_afterDelay, UseChat.wire.
  cbn [UseChat.withRefs refs].
  rewrite (sendJsonMessage_open _ _ _ _ Hsock Hopen). reflexivity.
Qed.

Lemma wire_socket (h : Hook) (l : list Frame) :
  l <> [] -> UseChat.wire h = l ->
  exists ws, socketRef (refs h) = Some ws /\ sent ws = l.
Proof.
  unfold UseChat.wire. destruct (socketRef (refs h)) as [ws|].
  - intros _ <-. now exists ws.
  - intros Hne <-. now elim Hne.
Qed.

Lemma sendMessage_keeps_open (aes : AesGcm) (CRYPTO_KEY : option jsstring)
    (view : ChatState) (fresh : Fresh) (content : MessageContent)
    (replyTo : option jsstring) (h : Hook) (ws : WebSocket) :
  socketRef (refs h) = Some ws -> readyState ws = OPEN ->
  exists ws',
    socketRef (refs (fst (UseChat.sendMessage aes CRYPTO_KEY view fresh content replyTo h)))
    = Some ws' /\ readyState ws' = OPEN.
Proof.
  intros Hsock Hopen. unfold UseChat.sendMessage. rewrite Hsock.
  destruct (connected view); cbn [negb fst]; [|eauto].
  destruct (UseChat.prepare view fresh content (refs h))
    as [[[messageToSend fileId] r1]|e] eqn:Hprep; cbn [fst]; [|eauto].
  assert (Hr1 : exists ws1, socketRef r1 = Some ws1 /\ readyState ws1 = OPEN).
  { destruct content as [s|b]; cbn [UseChat.prepare] in Hprep.
    - injection Hprep as _ _ <-. eauto.
    - destruct (UseChat.Uint8Array_view b 0 8); cbn [bind] in Hprep; [|discriminate].
      destruct (UseChat.isProbablyImage a); cbn [negb] in Hprep.
      + injection Hprep as _ _ <-.
        rewrite (sendJsonMessage_open _ _ _ _ Hsock Hopen). eauto.
      + injection Hprep as _ _ <-. eauto. }
  destruct Hr1 as (ws1 & Hs1 & Ho1).
  destruct (Crypto.encryptMessage aes CRYPTO_KEY (randomBytes12 fresh) messageToSend);
    cbn [fst refs]; [|eauto].
  destruct (UseChat.getUserId fresh r1) as [senderId r2] eqn:Hid.
  assert (Hs2 : socketRef r2 = Some ws1).
  { replace r2 with (snd (UseChat.getUserId fresh r1)) by (rewrite Hid; reflexivity).
    rewrite getUserId_socketRef. assumption. }
  cbn [fst refs]. rewrite (sendJsonMessage_open _ _ _ _ Hs2 Ho1). eauto.
Qed.

(** C8, amended.  Take a [sendMessage] call with a buffer of at least
    eight bytes, made while [connected] is true and the socket is open, and
    let encryption succeed.  If the buffer begins with the magic number of
    JPEG, PNG or GIF, the call emits a [file_sending_start] frame
    [{file_id, is_group_chat, group_code}] and then the [send_message]
    frame, and, when the timer fires with the socket still open, a
    [file_sending_end] frame with the same [file_id] after them.  If the
    buffer begins with none of them, it is decoded as UTF-8 and sent as a
    text message: the [send_message] frame is the only frame. *)
Theorem sendMessage_image_frames_in_order :
  forall (aes : AesGcm) (CRYPTO_KEY : option jsstring) (view : ChatState)
         (fresh : Fresh) (b : bytes) (replyTo : option jsstring) (h : Hook)
         (ws : WebSocket) (e : EncryptedData),
    socketRef (refs h) = Some ws -> readyState ws = OPEN ->
    connected view = true -> (8 <= List.length b)%nat ->
    let out := UseChat.sendMessage aes CRYPTO_KEY view fresh (BinaryContent b) replyTo h in
    let fileId := lit "file-" ++ JSString.ofZ (fileNow fresh) in
    let fileData := object [ ("file_id", Some (JString fileId));
                             ("is_group_chat", Some (JBool (isGroupChat view)));
                             ("group_code", Some (nullable (groupCode view))) ]%string in
    (hasImageMagic b = true ->
     Crypto.encryptMessage aes CRYPTO_KEY (randomBytes12 fresh) (BinaryContent b)
     = Normal e ->
     snd out = AwaitingDelay fileId /\
     UseChat.wire (fst out)
     = sent ws ++ [ {| event := "file_sending_start"; data := fileData |};
                    sendMessageFrame view e replyTo ] /\
     UseChat.wire (UseChat.sendMessage_afterDelay view fileId (fst out))
     = sent ws ++ [ {| event := "file_sending_start"; data := fileData |};
                    sendMessageFrame view e replyTo;
                    {| event := "file_sending_end"; data := fileData |} ] /\
     (forall h2 ws2,
         socketRef (refs h2) = Some ws2 -> readyState ws2 = OPEN ->
         UseChat.wire (UseChat.sendMessage_afterDelay view fileId h2)
         = sent ws2 ++ [ {| event := "file_sending_end"; data := fileData |} ])) /\
    (hasImageMagic b = false ->
     Crypto.encryptMessage aes CRYPTO_KEY (randomBytes12 fresh)
       (TextContent (Encoding.TextDecoder_decode b)) = Normal e ->
     snd out = Resolved /\
     UseChat.wire (fst out) = sent ws ++ [ sendMessageFrame view e replyTo ] /\
     exists m, messages (state (fst out)) = messages (state h) ++ [m] /\
               body m = text (Encoding.TextDecoder_decode b)).
Proof.
  intros aes CRYPTO_KEY view fresh b replyTo h ws e Hsock Hopen Hconn Hlen out
         fileId fileData.
  split; intros Hmagic Henc.
  - destruct (sendMessage_open aes CRYPTO_KEY view fresh (BinaryContent b) replyTo
                h ws e Hsock Hopen Hconn Hlen) as (Hwire & Hres & _).
    { cbn [contentToEncrypt]. rewrite Hmagic. exact Henc. }
    cbn [contentToEncrypt] in Hwire, Hres. rewrite Hmagic in Hwire, Hres.
    fold out in Hwire, Hres.
    split; [exact Hres|]. split; [exact Hwire|]. split.
    + assert (Hne : sent ws ++ [fileFrame "file_sending_start" view (fileIdOf fresh)]
                             ++ [sendMessageFrame view e replyTo] <> [])
        by (destruct (sent ws); discriminate).
      destruct (wire_socket (fst out) _ Hne Hwire) as (ws' & Hs' & Hsent').
      destruct (sendMessage_keeps_open aes CRYPTO_KEY view fresh (BinaryContent b)
                  replyTo h ws Hsock Hopen) as (ws'' & Hs'' & Ho'').
      fold out in Hs''. rewrite Hs' in Hs''. injection Hs'' as <-.
      rewrite (sendMessage_afterDelay_open view fileId (fst out) ws' Hs' Ho'').
      rewrite Hsent'. cbn [app]. rewrite <- app_assoc. reflexivity.
    + intros h2 ws2 Hs2 Ho2.
      apply (sendMessage_afterDelay_open view fileId h2 ws2 Hs2 Ho2).
  - destruct (sendMessage_open aes CRYPTO_KEY view fresh (BinaryContent b) replyTo
                h ws e Hsock Hopen Hconn Hlen) as (Hwire & Hres & (m & Hm & _ & _ & Hbody) & _).
    { cbn [contentToEncrypt]. rewrite Hmagic. exact Henc. }
    cbn [contentToEncrypt] in Hwire, Hres, Hbody. rewrite Hmagic in Hwire, Hres, Hbody.
    fold out in Hwire, Hres, Hm.
    split; [exact Hres|]. split; [exact Hwire|].
    exists m. split; assumption.
Qed.

Lemma sendMessage_image_frames_witness :
  map event
    (UseChat.wire
       (UseChat.sendMessage_afterDelay (Sample.groupState [])
          (lit "file-1700000000001")
          (fst (UseChat.sendMessage Sample.toyAes (Some Sample.key32)
                  (Sample.groupState []) Sample.fresh (BinaryContent jpegHeader)
                  None (Sample.groupHook OPEN [])))))
  = ["file_sending_start"; "send_message"; "file_sending_end"]%string.
Proof.
  destruct (sendMessage_image_frames_in_order Sample.toyAes (Some Sample.key32)
              (Sample.groupState []) Sample.fresh jpegHeader None
              (Sample.groupHook OPEN [])
              {| readyState := OPEN; sent := []; onopenProfile := None |}
              {| encrypted := Encoding.base64_encode
                                (Sample.complement jpegHeader ++ Sample.zeroTag);
                 nonce := Encoding.base64_encode (randomBytes12 Sample.fresh) |}
              eq_refl eq_refl eq_refl (Nat.le_refl 8)) as [Himage _].
  destruct (Himage eq_refl eq_refl) as (_ & _ & Hend & _).
  change (lit "file-" ++ JSString.ofZ (fileNow Sample.fresh))
    with (lit "file-1700000000001") in Hend.
  rewrite Hend. reflexivity.
Defined.

(** A buffer shorter than eight bytes never gets as far as the magic
    numbers: the header view throws, the promise is rejected and the hook
    stays as it was. *)
Lemma sendMessage_short_buffer_rejected (aes : AesGcm) (CRYPTO_KEY : option jsstring)
    (view : ChatState) (fresh : Fresh) (b : bytes) (replyTo : option jsstring)
    (h : Hook) (ws : WebSocket) :
  socketRef (refs h) = Some ws -> connected view = true ->
  (List.length b < 8)%nat ->
  UseChat.sendMessage aes CRYPTO_KEY view fresh (BinaryContent b) replyTo h
  = (h, Rejected "RangeError: Invalid typed array length").
Proof.
  intros Hsock Hconn Hlen. unfold UseChat.sendMessage.
  rewrite Hsock, Hconn. cbn [negb UseChat.prepare].
  unfold UseChat.Uint8Array_view.
  replace (0 + 8 <=? List.length b)%nat with false
    by (symmetry; apply Nat.leb_gt; lia).
  reflexivity.
Qed.

Lemma sendMessage_two_byte_text_rejected :
  hasImageMagic (lit "hi") = false /\
  UseChat.sendMessage Sample.toyAes (Some Sample.key32) (Sample.groupState [])
    Sample.fresh (BinaryContent (lit "hi")) None (Sample.groupHook OPEN [])
  = (Sample.groupHook OPEN [], Rejected "RangeError: Invalid typed array length").
Proof. split; reflexivity. Qed.

(* ===================================================================== *)
(** * Properties: the encodings                                           *)
(* ===================================================================== *)

Section ListInduction.

Variable A : Type.
Variable P : list A -> Prop.

(** Induction on a list three elements at a time. *)
Lemma list_ind3 :
  P [] -> (forall a, P [a]) -> (forall a b, P [a; b]) ->
  (forall a b c l, P l -> P (a :: b :: c :: l)) ->
  forall l, P l.
Proof.
  intros H0 H1 H2 H3 l.
  enough (H : P l /\ (forall a, P (a :: l)) /\ (forall a b, P (a :: b :: l)))
    by apply H.
  induction l as [|x l (IH0 & IH1 & IH2)].
  - auto.
  - repeat split; auto.
Qed.

(** Induction on a list two elements at a time. *)
Lemma list_ind2 :
  P [] -> (forall a, P [a]) ->
  (forall a b l, P l -> P (a :: b :: l)) ->
  forall l, P l.
Proof.
  intros H0 H1 H2 l.
  enough (H : P l /\ (forall a, P (a :: l))) by apply H.
  induction l as [|x l (IH0 & IH1)].
  - auto.
  - split; auto.
Qed.

End ListInduction.

Lemma octets_cons (x : Z) (b : bytes) :
  octets (x :: b) <-> (0 <= x < 256) /\ octets b.
Proof.
  unfold octets, is_octet. rewrite Forall_cons_iff, andb_true_iff, Z.leb_le, Z.ltb_lt.
  reflexivity.
Qed.

Lemma octets_app (a b : bytes) : octets (a ++ b) <-> octets a /\ octets b.
Proof. apply Forall_app. Qed.

(** Every index of the alphabet maps to a character other than [=] whose
    value is the index. *)
Lemma b64value_b64char (i : Z) :
  0 <= i < 64 ->
  Encoding.b64value (Encoding.b64char i) = Some i /\
  (Encoding.b64char i =? 61) = false.
Proof.
  intros Hi.
  assert (Htable :
            forallb (fun n =>
                       let j := Z.of_nat n in
                       match Encoding.b64value (Encoding.b64char j) with
                       | Some v => (v =? j) && negb (Encoding.b64char j =? 61)
                       | None => false
                       end) (seq 0 64) = true) by (vm_compute; reflexivity).
  rewrite forallb_forall in Htable.
  assert (Hin : In (Z.to_nat i) (seq 0 64)) by (apply in_seq; lia).
  specialize (Htable (Z.to_nat i) Hin).
  rewrite Z2Nat.id in Htable by lia. cbv zeta in Htable.
  destruct (Encoding.b64value (Encoding.b64char i)) as [v|]; [|discriminate].
  apply andb_true_iff in Htable. destruct Htable as [Hv Hc].
  apply Z.eqb_eq in Hv. apply negb_true_iff in Hc. subst. auto.
Qed.

(** The characters of the alphabet are their own low bytes. *)
Lemma lowByte_b64char (i : Z) :
  0 <= i < 64 -> Encoding.lowByte (Encoding.b64char i) = Encoding.b64char i.
Proof.
  intros Hi. unfold Encoding.lowByte, Encoding.b64char.
  apply Z.mod_small.
  destruct (i <? 26) eqn:H1; [|destruct (i <? 52) eqn:H2;
                                [|destruct (i <? 62) eqn:H3;
                                  [|destruct (i =? 62)]]];
    rewrite ?Z.ltb_lt, ?Z.ltb_ge in *; lia.
Qed.

Lemma sextets_b64char (i : Z) (s : jsstring) :
  0 <= i < 64 ->
  Encoding.sextets (Encoding.b64char i :: s) = i :: Encoding.sextets s.
Proof.
  intros Hi. destruct (b64value_b64char i Hi) as [Hv Hc].
  cbn [Encoding.sextets]. rewrite (lowByte_b64char i Hi), Hc, Hv. reflexivity.
Qed.

Lemma sextets_padding (s : jsstring) : Encoding.sextets (61 :: s) = [].
Proof. reflexivity. Qed.

(** Decoding the base64 text of a buffer gives the buffer back. *)
Lemma base64_roundtrip (b : bytes) :
  octets b -> Encoding.base64_decode (Encoding.base64_encode b) = b.
Proof.
  unfold Encoding.base64_decode.
  induction b as [|x|x y|x y z rest IH] using list_ind3; intros Hb.
  - reflexivity.
  - apply octets_cons in Hb. destruct Hb as [Hx _].
    cbn [Encoding.base64_encode].
    rewrite !sextets_b64char by (Z.div_mod_to_equations; lia).
    rewrite sextets_padding. cbn [Encoding.fromSextets].
    f_equal. Z.div_mod_to_equations; lia.
  - apply octets_cons in Hb. destruct Hb as [Hx Hb].
    apply octets_cons in Hb. destruct Hb as [Hy _].
    cbn [Encoding.base64_encode].
    rewrite !sextets_b64char by (Z.div_mod_to_equations; lia).
    rewrite sextets_padding. cbn [Encoding.fromSextets].
    f_equal; [|f_equal]; Z.div_mod_to_equations; lia.
  - apply octets_cons in Hb. destruct Hb as [Hx Hb].
    apply octets_cons in Hb. destruct Hb as [Hy Hb].
    apply octets_cons in Hb. destruct Hb as [Hz Hb].
    cbn [Encoding.base64_encode].
    rewrite !sextets_b64char by (Z.div_mod_to_equations; lia).
    cbn [Encoding.fromSextets]. rewrite (IH Hb).
    f_equal; [|f_equal; [|f_equal]]; Z.div_mod_to_equations; lia.
Qed.

(** The tag is the last sixteen bytes and the ciphertext is the rest. *)
Lemma slice_tag (cipher tag : bytes) :
  List.length tag = 16%nat ->
  let len := Z.of_nat (List.length (cipher ++ tag)) in
  Encoding.slice (len - 16) len (cipher ++ tag) = tag /\
  Encoding.slice 0 (len - 16) (cipher ++ tag) = cipher.
Proof.
  intros Htag len. subst len. unfold Encoding.slice. cbv zeta.
  rewrite length_app, Htag.
  set (n := List.length cipher).
  replace (Z.of_nat (n + 16) - 16) with (Z.of_nat n) by lia.
  split.
  - replace (Z.of_nat n <? 0) with false by (symmetry; apply Z.ltb_ge; lia).
    replace (Z.of_nat (n + 16) <? 0) with false by (symmetry; apply Z.ltb_ge; lia).
    rewrite !Z.min_l by lia. 
    replace (Z.of_nat n <? Z.of_nat (n + 16)) with true
      by (symmetry; apply Z.ltb_lt; lia).
    rewrite Nat2Z.id. replace (Z.to_nat (Z.of_nat (n + 16) - Z.of_nat n)) with 16%nat by lia.
    subst n. rewrite skipn_app, skipn_all, Nat.sub_diag. cbn [app skipn].
    apply firstn_all2. lia.
  - cbn [Z.ltb Z.compare].
    replace (Z.of_nat n <? 0) with false by (symmetry; apply Z.ltb_ge; lia).
    rewrite Z.min_l by lia. rewrite Z.min_l by lia.
    destruct (0 <? Z.of_nat n) eqn:Hn.
    + rewrite Z.sub_0_r, Nat2Z.id. cbn [Z.to_nat skipn]. subst n.
      rewrite firstn_app, Nat.sub_diag, firstn_all. cbn [firstn]. apply app_nil_r.
    + apply Z.ltb_ge in Hn. destruct cipher; [reflexivity|]. subst n. cbn in Hn. lia.
Qed.

(** A hexadecimal digit is its own low byte. *)
Lemma lowByte_hexDigit (c : Z) :
  Encoding.isHexDigit c = true -> Encoding.lowByte c = c.
Proof.
  unfold Encoding.isHexDigit, Encoding.hexValue, Encoding.lowByte. intros H.
  apply Z.mod_small.
  destruct ((48 <=? c) && (c <=? 57)) eqn:H1;
    [|destruct ((97 <=? c) && (c <=? 102)) eqn:H2;
      [|destruct ((65 <=? c) && (c <=? 70)) eqn:H3; [|discriminate]]];
    rewrite ?andb_true_iff, ?Z.leb_le in *; lia.
Qed.

Lemma hex_decode_length (n : nat) (s : jsstring) :
  List.length s = (2 * n)%nat -> forallb Encoding.isHexDigit s = true ->
  List.length (Encoding.hex_decode s) = n.
Proof.
  revert s. induction n as [|n IH]; intros s Hlen Hhex.
  - destruct s; [reflexivity | discriminate].
  - destruct s as [|a [|b rest]]; try (cbn in Hlen; lia).
    cbn [forallb] in Hhex. apply andb_true_iff in Hhex. destruct Hhex as [Ha Hhex].
    apply andb_true_iff in Hhex. destruct Hhex as [Hb Hrest].
    cbn [Encoding.hex_decode].
    rewrite (lowByte_hexDigit a Ha), (lowByte_hexDigit b Hb).
    unfold Encoding.isHexDigit in Ha, Hb.
    destruct (Encoding.hexValue a); [|discriminate].
    destruct (Encoding.hexValue b); [|discriminate].
    cbn [List.length]. f_equal. apply IH; [cbn in Hlen; lia | assumption].
Qed.

(** ASCII text is its own UTF-8 encoding. *)
Lemma utf8_encode_ascii (s : jsstring) :
  forallb isAscii s = true -> Encoding.utf8_encode s = s.
Proof.
  unfold Encoding.utf8_encode.
  induction s as [|c s IH]; [reflexivity|].
  cbn [forallb]. intros [Hc Hs]%andb_true_iff.
  unfold isAscii in Hc. apply andb_true_iff in Hc. destruct Hc as [H0 H1].
  apply Z.leb_le in H0. apply Z.ltb_lt in H1.
  cbn [Encoding.codePoints].
  unfold Encoding.isHighSurrogate, Encoding.isLowSurrogate.
  replace (55296 <=? c) with false by (symmetry; apply Z.leb_gt; lia).
  replace (56320 <=? c) with false by (symmetry; apply Z.leb_gt; lia).
  cbn [andb flat_map]. rewrite (IH Hs).
  unfold Encoding.encodeCodePoint.
  replace (c <? 128) with true by (symmetry; apply Z.ltb_lt; lia).
  reflexivity.
Qed.

Lemma getEncryptionKey_valid (key : jsstring) :
  validKey key ->
  exists k, Crypto.getEncryptionKey (Some key) = Normal k /\ List.length k = 32%nat.
Proof.
  unfold Crypto.getEncryptionKey, JSString.length.
  intros [[Hlen Hhex] | [Hlen Hascii]].
  - destruct key; [discriminate|]. cbn [JSString.truthy negb].
    rewrite Hlen. cbn [Z.of_nat Z.eqb Pos.of_succ_nat Pos.succ Pos.eqb].
    eexists. split; [reflexivity|].
    apply hex_decode_length; [rewrite Hlen; reflexivity | assumption].
  - destruct key; [discriminate|]. cbn [JSString.truthy negb].
    rewrite Hlen. cbn [Z.of_nat Z.eqb Pos.of_succ_nat Pos.succ Pos.eqb].
    eexists. split; [reflexivity|].
    rewrite utf8_encode_ascii by assumption. assumption.
Qed.

Ltac decide_tests :=
  repeat match goal with
    | |- context [?a <=? ?b] =>
        first [ replace (a <=? b) with true
                  by (symmetry; apply Z.leb_le; Z.div_mod_to_equations; lia)
              | replace (a <=? b) with false
                  by (symmetry; apply Z.leb_gt; Z.div_mod_to_equations; lia) ]
    | |- context [?a <? ?b] =>
        first [ replace (a <? b) with true
                  by (symmetry; apply Z.ltb_lt; Z.div_mod_to_equations; lia)
              | replace (a <? b) with false
                  by (symmetry; apply Z.ltb_ge; Z.div_mod_to_equations; lia) ]
    | |- context [?a =? ?b] =>
        first [ replace (a =? b) with true
                  by (symmetry; apply Z.eqb_eq; Z.div_mod_to_equations; lia)
              | replace (a =? b) with false
                  by (symmetry; apply Z.eqb_neq; Z.div_mod_to_equations; lia) ]
    end.

Ltac run_decoder := repeat (progress (decide_tests; cbn [andb orb])).

(** The decoder reads the encoding of a scalar value back as that value
    and is in its initial state again. *)
Lemma decode_encodeCodePoint (cp : Z) (rest : bytes) :
  isScalar cp ->
  Encoding.decodeFrom 0 0 128 191 (Encoding.encodeCodePoint cp ++ rest)
  = cp :: Encoding.decodeFrom 0 0 128 191 rest.
Proof.
  intros [Hrange Hsur]. unfold Encoding.encodeCodePoint.
  destruct (cp <? 128) eqn:H1; [|destruct (cp <? 2048) eqn:H2;
                                  [|destruct (cp <? 65536) eqn:H3]].
  - apply Z.ltb_lt in H1.
    cbn [app Encoding.decodeFrom]. unfold Encoding.decodeLead.
    run_decoder. reflexivity.
  - apply Z.ltb_ge in H1. apply Z.ltb_lt in H2.
    cbn [app Encoding.decodeFrom]. unfold Encoding.decodeLead.
    run_decoder. f_equal. Z.div_mod_to_equations; lia.
  - apply Z.ltb_ge in H1. apply Z.ltb_ge in H2. apply Z.ltb_lt in H3.
    cbn [app Encoding.decodeFrom]. unfold Encoding.decodeLead.
    run_decoder.
    destruct (224 + cp / 4096 =? 224) eqn:E1;
      destruct (224 + cp / 4096 =? 237) eqn:E2;
      rewrite ?Z.eqb_eq, ?Z.eqb_neq in E1, E2;
      run_decoder; f_equal; Z.div_mod_to_equations; lia.
  - apply Z.ltb_ge in H1. apply Z.ltb_ge in H2. apply Z.ltb_ge in H3.
    cbn [app Encoding.decodeFrom]. unfold Encoding.decodeLead.
    run_decoder.
    destruct (240 + cp / 262144 =? 240) eqn:E1;
      destruct (240 + cp / 262144 =? 244) eqn:E2;
      rewrite ?Z.eqb_eq, ?Z.eqb_neq in E1, E2;
      run_decoder; f_equal; Z.div_mod_to_equations; lia.
Qed.

Lemma encodeCodePoint_octets (cp : Z) :
  0 <= cp < 1114112 -> octets (Encoding.encodeCodePoint cp).
Proof.
  intros Hcp. unfold Encoding.encodeCodePoint.
  destruct (cp <? 128) eqn:H1; [|destruct (cp <? 2048) eqn:H2;
                                  [|destruct (cp <? 65536) eqn:H3]];
    rewrite ?Z.ltb_lt, ?Z.ltb_ge in *;
    repeat (apply octets_cons; split; [Z.div_mod_to_equations; lia|]);
    constructor.
Qed.

Lemma isHighSurrogate_range (c : Z) :
  Encoding.isHighSurrogate c = true <-> 55296 <= c <= 56319.
Proof.
  unfold Encoding.isHighSurrogate. rewrite andb_true_iff, !Z.leb_le. reflexivity.
Qed.

Lemma isLowSurrogate_range (c : Z) :
  Encoding.isLowSurrogate c = true <-> 56320 <= c <= 57343.
Proof.
  unfold Encoding.isLowSurrogate. rewrite andb_true_iff, !Z.leb_le. reflexivity.
Qed.

Lemma isHighSurrogate_not (c : Z) :
  Encoding.isHighSurrogate c = false <-> ~ (55296 <= c <= 56319).
Proof.
  rewrite <- isHighSurrogate_range. destruct (Encoding.isHighSurrogate c); split; congruence.
Qed.

Lemma isLowSurrogate_not (c : Z) :
  Encoding.isLowSurrogate c = false <-> ~ (56320 <= c <= 57343).
Proof.
  rewrite <- isLowSurrogate_range. destruct (Encoding.isLowSurrogate c); split; congruence.
Qed.

Lemma codePoints_range (s : jsstring) :
  codeUnits s -> Forall (fun cp => 0 <= cp < 1114112) (Encoding.codePoints s).
Proof.
  remember (List.length s) as n eqn:Hn.
  revert s Hn. induction n as [n IH] using lt_wf_ind. intros s Hn Hs.
  destruct s as [|c s]; [constructor|].
  apply Forall_cons_iff in Hs. destruct Hs as [Hc Hs].
  cbn [Encoding.codePoints].
  assert (Htail : Forall (fun cp => 0 <= cp < 1114112) (Encoding.codePoints s)).
  { apply (IH (List.length s)); [subst n; cbn; lia | reflexivity | assumption]. }
  destruct (Encoding.isHighSurrogate c) eqn:Hhigh.
  - destruct s as [|d s]; [repeat constructor; lia|].
    destruct (Encoding.isLowSurrogate d) eqn:Hlow.
    + apply isHighSurrogate_range in Hhigh. apply isLowSurrogate_range in Hlow.
      apply Forall_cons_iff in Hs. destruct Hs as [Hd Hs].
      constructor; [lia|].
      apply (IH (List.length s)); [subst n; cbn; lia | reflexivity | assumption].
    + constructor; [lia | assumption].
  - destruct (Encoding.isLowSurrogate c); constructor; (lia || assumption).
Qed.

Lemma utf8_encode_octets (s : jsstring) :
  codeUnits s -> octets (Encoding.utf8_encode s).
Proof.
  intros Hs. unfold Encoding.utf8_encode.
  pose proof (codePoints_range s Hs) as Hcp.
  induction Hcp as [|cp cps Hcp _ IH]; [constructor|].
  cbn [flat_map]. apply octets_app. split; [|assumption].
  apply encodeCodePoint_octets. assumption.
Qed.

(** Decoding the UTF-8 encoding of a well-formed string gives the string
    back. *)
Lemma utf8_roundtrip (s : jsstring) :
  codeUnits s -> Encoding.isWellFormed s = true ->
  Encoding.utf8_decode (Encoding.utf8_encode s) = s.
Proof.
  unfold Encoding.utf8_decode, Encoding.utf8_encode.
  remember (List.length s) as n eqn:Hn.
  revert s Hn. induction n as [n IH] using lt_wf_ind. intros s Hn Hs Hwf.
  destruct s as [|c s]; [reflexivity|].
  apply Forall_cons_iff in Hs. destruct Hs as [Hc Hs].
  cbn [Encoding.codePoints Encoding.isWellFormed] in *.
  destruct (Encoding.isHighSurrogate c) eqn:Hhigh.
  - destruct s as [|d s]; [discriminate|].
    apply andb_true_iff in Hwf. destruct Hwf as [Hlow Hwf]. rewrite Hlow.
    apply Forall_cons_iff in Hs. destruct Hs as [Hd Hs].
    apply isHighSurrogate_range in Hhigh. apply isLowSurrogate_range in Hlow.
    cbn [flat_map]. rewrite decode_encodeCodePoint by (unfold isScalar; lia).
    cbn [flat_map].
    rewrite (IH (List.length s)); [|subst n; cbn; lia | reflexivity | assumption..].
    unfold Encoding.toCodeUnits.
    replace (65536 + (c - 55296) * 1024 + (d - 56320) <? 65536) with false
      by (symmetry; apply Z.ltb_ge; lia).
    cbn [app]. f_equal; [|f_equal]; Z.div_mod_to_equations; lia.
  - apply andb_true_iff in Hwf. destruct Hwf as [Hlow Hwf].
    apply negb_true_iff in Hlow. rewrite Hlow.
    apply isHighSurrogate_not in Hhigh. apply isLowSurrogate_not in Hlow.
    cbn [flat_map]. rewrite decode_encodeCodePoint by (unfold isScalar; lia).
    cbn [flat_map].
    rewrite (IH (List.length s)); [|subst n; cbn; lia | reflexivity | assumption..].
    unfold Encoding.toCodeUnits.
    replace (c <? 65536) with true by (symmetry; apply Z.ltb_lt; lia).
    reflexivity.
Qed.

(** An unpaired surrogate does not survive the encoding. *)
Lemma utf8_lone_surrogate :
  Encoding.utf8_encode [55296] = [239; 191; 189] /\
  Encoding.utf8_decode [239; 191; 189] = [65533].
Proof. split; reflexivity. Qed.

(* ===================================================================== *)
(** * Properties: the envelope (lib/crypto.ts)                            *)
(* ===================================================================== *)

(** The toy cipher meets the contract. *)
Lemma toyAes_correct : AesGcm_correct Sample.toyAes.
Proof.
  intros key iv plain Hkey _ Hplain.
  exists (Sample.complement plain), Sample.zeroTag.
  unfold Sample.toyAes. cbn [gcm_encrypt gcm_decrypt].
  rewrite Hkey. cbn [Nat.eqb]. rewrite JSString_eqb_refl.
  split; [reflexivity|]. split; [reflexivity|].
  assert (Hc : octets (Sample.complement plain)).
  { unfold Sample.complement. induction Hplain as [|x l Hx _ IH]; [constructor|].
    cbn [map]. apply octets_cons. split; [|exact IH].
    unfold is_octet in Hx. apply andb_true_iff in Hx.
    rewrite Z.leb_le, Z.ltb_lt in Hx. lia. }
  split; [exact Hc|]. split; [repeat constructor|].
  f_equal. unfold Sample.complement. rewrite map_map.
  rewrite <- (map_id plain) at 2. apply map_ext. intros x. lia.
Qed.

Section Envelope.

Variable aes : AesGcm.
Hypothesis aes_correct : AesGcm_correct aes.

Variable key : jsstring.
Hypothesis key_valid : validKey key.

(** The result of [randomBytes(12)]. *)
Variable nonce12 : bytes.
Hypothesis nonce12_length : List.length nonce12 = 12%nat.
Hypothesis nonce12_octets : octets nonce12.

(** Encrypting a buffer and decrypting the envelope gives the buffer
    back; the envelope holds the nonce and, after the ciphertext, the
    sixteen bytes of the tag. *)
Lemma decrypt_encrypt_buffer (message : MessageContent) (plain : bytes) :
  plain = match message with
          | TextContent s => Encoding.utf8_encode s
          | BinaryContent b => b
          end ->
  octets plain ->
  exists e cipher tag k,
    Crypto.getEncryptionKey (Some key) = Normal k /\
    gcm_encrypt aes k nonce12 plain = Normal (cipher, tag) /\
    List.length tag = 16%nat /\
    Crypto.encryptMessage aes (Some key) nonce12 message = Normal e /\
    Encoding.base64_decode (nonce e) = nonce12 /\
    Encoding.base64_decode (encrypted e) = cipher ++ tag /\
    Crypto.decryptMessage aes (Some key) e = Normal plain.
Proof.
  intros Hplain Hoct.
  destruct (getEncryptionKey_valid key key_valid) as (k & Hk & Hklen).
  destruct (aes_correct k nonce12 plain Hklen nonce12_length Hoct)
    as (cipher & tag & Henc & Htag & Hcoct & Htoct & Hdec).
  exists {| encrypted := Encoding.base64_encode (cipher ++ tag);
            nonce := Encoding.base64_encode nonce12 |}, cipher, tag, k.
  assert (Hb64 : Encoding.base64_decode (Encoding.base64_encode (cipher ++ tag))
                 = cipher ++ tag).
  { apply base64_roundtrip, octets_app. auto. }
  split; [exact Hk|]. split; [exact Henc|]. split; [exact Htag|].
  split; [|split; [|split]].
  - unfold Crypto.encryptMessage. rewrite Hk. cbn [bind].
    rewrite <- Hplain, Henc. reflexivity.
  - apply base64_roundtrip. assumption.
  - exact Hb64.
  - unfold Crypto.decryptMessage. cbn [encrypted nonce].
    rewrite Hb64, (base64_roundtrip nonce12 nonce12_octets).
    destruct (slice_tag cipher tag Htag) as [Ht Hc]. cbv zeta in Ht, Hc.
    rewrite Ht, Hc, Hk. cbn [bind]. rewrite Hdec. reflexivity.
Qed.

(** C9, amended.  For every well-formed string [m] (no unpaired
    surrogate) and every valid key, [encryptMessage(m)] succeeds with an
    envelope whose nonce is the twelve random bytes in base64 and whose
    ciphertext is the base64 of the encrypted bytes followed by the sixteen
    bytes of the tag; [decryptMessage] takes exactly those last sixteen
    bytes as the tag, decrypts the rest under the same key and nonce, and
    returns a buffer whose UTF-8 decoding is [m]. *)
Theorem decrypt_encrypt_roundtrip :
  forall m : jsstring,
    codeUnits m -> Encoding.isWellFormed m = true ->
    exists e cipher tag k,
      Crypto.getEncryptionKey (Some key) = Normal k /\
      gcm_encrypt aes k nonce12 (Encoding.utf8_encode m) = Normal (cipher, tag) /\
      List.length tag = 16%nat /\
      Crypto.encryptMessage aes (Some key) nonce12 (TextContent m) = Normal e /\
      Encoding.base64_decode (nonce e) = nonce12 /\
      Encoding.base64_decode (encrypted e) = cipher ++ tag /\
      (let buffer := Encoding.base64_decode (encrypted e) in
       let len := Z.of_nat (List.length buffer) in
       Encoding.slice (len - 16) len buffer = tag /\
       Encoding.slice 0 (len - 16) buffer = cipher) /\
      exists buffer,
        Crypto.decryptMessage aes (Some key) e = Normal buffer /\
        Encoding.utf8_decode buffer = m.
Proof.
  intros m Hm Hwf.
  destruct (decrypt_encrypt_buffer (TextContent m) (Encoding.utf8_encode m) eq_refl
              (utf8_encode_octets m Hm))
    as (e & cipher & tag & k & Hk & Henc & Htag & He & Hnonce & Hbuf & Hdec).
  exists e, cipher, tag, k.
  do 6 (split; [assumption|]). split.
  - rewrite Hbuf. apply slice_tag. assumption.
  - exists (Encoding.utf8_encode m). split; [assumption|].
    apply utf8_roundtrip; assumption.
Qed.

(** For the string that is one unpaired surrogate the decrypted buffer
    decodes to U+FFFD, whatever the cipher. *)
Lemma decrypt_encrypt_lone_surrogate :
  exists e,
    Crypto.encryptMessage aes (Some key) nonce12 (TextContent [55296]) = Normal e /\
    Crypto.decryptMessage aes (Some key) e = Normal [239; 191; 189] /\
    Encoding.utf8_decode [239; 191; 189] = [65533].
Proof.
  destruct (decrypt_encrypt_buffer (TextContent [55296]) [239; 191; 189] eq_refl)
    as (e & cipher & tag & k & Hk & Henc & Htag & He & Hnonce & Hbuf & Hdec).
  { repeat constructor. }
  exists e. repeat split; assumption.
Qed.

End Envelope.

Lemma decrypt_encrypt_roundtrip_witness :
  exists e buffer,
    Crypto.encryptMessage Sample.toyAes (Some Sample.key64)
      (randomBytes12 Sample.fresh) (TextContent (lit "hello")) = Normal e /\
    Crypto.decryptMessage Sample.toyAes (Some Sample.key64) e = Normal buffer /\
    Encoding.utf8_decode buffer = lit "hello".
Proof.
  destruct (decrypt_encrypt_roundtrip Sample.toyAes toyAes_correct Sample.key64
              (or_introl (conj eq_refl eq_refl))
              (randomBytes12 Sample.fresh) eq_refl
              ltac:(repeat constructor)
              (lit "hello") ltac:(repeat constructor; lia) eq_refl)
    as (e & _ & _ & _ & _ & _ & _ & He & _ & _ & _ & buffer & Hdec & Hm).
  exists e, buffer. repeat split; assumption.
Defined.

(** C9, as stated, fails: under no cipher that meets the contract does the
    round trip give back every string.  The string made of one unpaired
    surrogate is encoded as U+FFFD, so the decrypted buffer decodes to
    U+FFFD. *)
Lemma decrypt_encrypt_not_for_every_string :
  ~ exists aes : AesGcm,
      AesGcm_correct aes /\
      forall m : jsstring,
        codeUnits m ->
        exists e buffer,
          Crypto.encryptMessage aes (Some Sample.key32)
            (randomBytes12 Sample.fresh) (TextContent m) = Normal e /\
          Crypto.decryptMessage aes (Some Sample.key32) e = Normal buffer /\
          Encoding.utf8_decode buffer = m.
Proof.
  intros (aes & Haes & Hall).
  destruct (Hall [55296]) as (e & buffer & He & Hdec & Hm).
  { repeat constructor; lia. }
  destruct (decrypt_encrypt_lone_surrogate aes Haes Sample.key32
              (or_intror (conj eq_refl eq_refl))
              (randomBytes12 Sample.fresh) eq_refl ltac:(repeat constructor))
    as (e' & He' & Hdec' & Hfffd).
  rewrite He in He'. injection He' as <-.
  rewrite Hdec in Hdec'. injection Hdec' as ->.
  rewrite Hfffd in Hm. discriminate Hm.
Qed.

(* ===================================================================== *)
(** * Further properties: the key and the envelope (lib/crypto.ts)      *)
(* ===================================================================== *)

Lemma hex_decode_full (n : nat) (s : jsstring) :
  List.length s = (2 * n)%nat ->
  (List.length (Encoding.hex_decode s) = n <-> forallb isHexLowByte s = true).
Proof.
  revert s. induction n as [|n IH]; intros s Hlen.
  - destruct s; [split; reflexivity | discriminate].
  - destruct s as [|a [|b rest]]; try (cbn in Hlen; lia).
    cbn [Encoding.hex_decode forallb]. unfold isHexLowByte at 1 2.
    unfold Encoding.isHexDigit at 1 2.
    destruct (Encoding.hexValue (Encoding.lowByte a));
      [|split; discriminate].
    destruct (Encoding.hexValue (Encoding.lowByte b));
      [|split; discriminate].
    cbn [andb List.length]. rewrite <- (IH rest) by (cbn in Hlen; lia).
    split; intros H; lia.
Qed.

Lemma encodeCodePoint_length (cp : Z) :
  (1 <= List.length (Encoding.encodeCodePoint cp))%nat /\
  (128 <= cp -> (2 <= List.length (Encoding.encodeCodePoint cp))%nat) /\
  (65536 <= cp -> List.length (Encoding.encodeCodePoint cp) = 4%nat).
Proof.
  unfold Encoding.encodeCodePoint.
  destruct (cp <? 128) eqn:H1; [|destruct (cp <? 2048) eqn:H2;
                                  [|destruct (cp <? 65536) eqn:H3]];
    rewrite ?Z.ltb_lt, ?Z.ltb_ge in *; cbn [List.length]; repeat split; lia.
Qed.

(** The UTF-8 encoding has at least one byte for each code unit, and
    exactly one for each only when every code unit is ASCII. *)
Lemma utf8_encode_length (s : jsstring) :
  codeUnits s ->
  (List.length s <= List.length (Encoding.utf8_encode s))%nat /\
  (List.length (Encoding.utf8_encode s) = List.length s -> forallb isAscii s = true).
Proof.
  unfold Encoding.utf8_encode.
  remember (List.length s) as n eqn:Hn.
  revert s Hn. induction n as [n IH] using lt_wf_ind. intros s Hn Hs.
  destruct s as [|c s]; [subst n; split; [cbn; lia | reflexivity]|].
  apply Forall_cons_iff in Hs. destruct Hs as [Hc Hs].
  cbn [Encoding.codePoints].
  destruct (IH (List.length s)) with (s := s) as [IHle IHeq];
    [subst n; cbn; lia | reflexivity | assumption |].
  destruct (Encoding.isHighSurrogate c) eqn:Hhigh.
  - apply isHighSurrogate_range in Hhigh.
    destruct s as [|d s].
    + subst n. cbn. split; [lia | intros H; discriminate H].
    + destruct (Encoding.isLowSurrogate d) eqn:Hlow.
      * apply isLowSurrogate_range in Hlow.
        apply Forall_cons_iff in Hs. destruct Hs as [Hd Hs].
        destruct (IH (List.length s)) with (s := s) as [IHle' _];
          [subst n; cbn; lia | reflexivity | assumption |].
        cbn [flat_map]. rewrite length_app.
        destruct (encodeCodePoint_length (65536 + (c - 55296) * 1024 + (d - 56320)))
          as (_ & _ & H4).
        rewrite H4 by lia. subst n. cbn [List.length]. split; lia.
      * cbn [flat_map]. rewrite length_app.
        change (List.length (Encoding.encodeCodePoint 65533)) with 3%nat.
        subst n. cbn [List.length] in *. split; lia.
  - apply isHighSurrogate_not in Hhigh.
    destruct (Encoding.isLowSurrogate c) eqn:Hlow.
    + cbn [flat_map]. rewrite length_app.
      change (List.length (Encoding.encodeCodePoint 65533)) with 3%nat.
      subst n. cbn [List.length] in *. split; lia.
    + cbn [flat_map]. rewrite length_app.
      destruct (encodeCodePoint_length c) as (H1 & H2 & _).
      subst n. cbn [List.length forallb] in *. split; [lia|].
      intros Heq. apply andb_true_iff. split.
      * unfold isAscii. apply andb_true_iff. rewrite Z.leb_le, Z.ltb_lt.
        split; [lia|]. destruct (Z.lt_ge_cases c 128) as [|Hge]; [assumption|].
        specialize (H2 Hge). lia.
      * apply IHeq. lia.
Qed.

Lemma JSString_length_eqb (s : jsstring) (n : nat) :
  (JSString.length s =? Z.of_nat n) = true <-> List.length s = n.
Proof. unfold JSString.length. rewrite Z.eqb_eq. lia. Qed.

(** X1.  [getEncryptionKey] returns whenever the key has 32 or 64 code
    units, and what it returns is a 32-byte key exactly for 64 code units
    whose low bytes are hexadecimal digits, which 64 hexadecimal digits
    are, or for 32 ASCII characters. *)
Theorem getEncryptionKey_gives_32_bytes_iff (key : jsstring) :
  codeUnits key ->
  ((exists k, Crypto.getEncryptionKey (Some key) = Normal k)
   <-> List.length key = 32%nat \/ List.length key = 64%nat) /\
  ((exists k, Crypto.getEncryptionKey (Some key) = Normal k /\ List.length k = 32%nat)
   <-> keyOf32Bytes key) /\
  (validKey key -> keyOf32Bytes key).
Proof.
  intros Hkey.
  pose proof (fun s => JSString_length_eqb s 64) as Hlen64.
  pose proof (fun s => JSString_length_eqb s 32) as Hlen32.
  cbn [Z.of_nat Pos.of_succ_nat Pos.succ] in Hlen64, Hlen32.
  split; [|split].
  - unfold Crypto.getEncryptionKey.
    destruct key as [|c key]; [cbn; split; [intros [k H]; discriminate | intros [H|H]; discriminate]|].
    cbn [JSString.truthy negb].
    destruct (JSString.length (c :: key) =? 64) eqn:E64.
    + split; [intros _; right; now apply Hlen64 | eauto].
    + destruct (JSString.length (c :: key) =? 32) eqn:E32.
      * split; [intros _; left; now apply Hlen32 | eauto].
      * split; [intros [k H]; discriminate|].
        intros [H|H]; [apply Hlen32 in H | apply Hlen64 in H]; congruence.
  - unfold Crypto.getEncryptionKey.
    destruct key as [|c key].
    { split; [intros (k & Hk & _); discriminate Hk|].
      intros [[H _] | [H _]]; discriminate H. }
    cbn [JSString.truthy negb].
    destruct (JSString.length (c :: key) =? 64) eqn:E64.
    + apply Hlen64 in E64. split.
      * intros (k & Hk & Hk32). left. split; [assumption|].
        injection Hk as <-. apply (hex_decode_full 32); assumption.
      * intros [[_ Hhex] | [H32 _]]; [|rewrite E64 in H32; discriminate H32].
        eexists. split; [reflexivity|]. apply (hex_decode_full 32); assumption.
    + destruct (JSString.length (c :: key) =? 32) eqn:E32.
      * apply Hlen32 in E32. split.
        -- intros (k & Hk & Hk32). right. split; [assumption|].
           injection Hk as <-. apply utf8_encode_length; [assumption | congruence].
        -- intros [[H64 _] | [_ Hascii]]; [rewrite E32 in H64; discriminate H64|].
           eexists. split; [reflexivity|].
           rewrite utf8_encode_ascii by assumption. assumption.
      * split; [intros (k & Hk & _); discriminate Hk|].
        intros [[H _] | [H _]]; [apply Hlen64 in H | apply Hlen32 in H]; congruence.
  - intros [[Hlen Hhex] | Hascii]; [left | right; assumption].
    split; [assumption|]. apply forallb_forall. intros x Hx.
    rewrite forallb_forall in Hhex. specialize (Hhex x Hx).
    unfold isHexLowByte. rewrite (lowByte_hexDigit x Hhex). exact Hhex.
Qed.

Lemma getEncryptionKey_gives_32_bytes_iff_witness :
  forallb Encoding.isHexDigit dottedKey = false /\
  exists k, Crypto.getEncryptionKey (Some dottedKey) = Normal k /\ List.length k = 32%nat.
Proof.
  split; [reflexivity|].
  apply (getEncryptionKey_gives_32_bytes_iff dottedKey).
  - repeat constructor; lia.
  - left. split; reflexivity.
Defined.

Lemma getEncryptionKey_unusable (CRYPTO_KEY : option jsstring) :
  unusableKey CRYPTO_KEY ->
  exists err, Crypto.getEncryptionKey CRYPTO_KEY = Throw err.
Proof.
  intros Hbad. unfold Crypto.getEncryptionKey.
  destruct CRYPTO_KEY as [key|]; [|eauto].
  destruct (Hbad key eq_refl) as [H32 H64].
  destruct (JSString.truthy key); cbn [negb]; [|eauto].
  destruct (JSString.length key =? 64) eqn:E64.
  { apply (JSString_length_eqb key 64) in E64. contradiction. }
  destruct (JSString.length key =? 32) eqn:E32.
  { apply (JSString_length_eqb key 32) in E32. contradiction. }
  eauto.
Qed.

(** X2.  Without a usable key neither function gets as far as the cipher:
    whatever the cipher, the nonce, the message and the envelope,
    [encryptMessage] and [decryptMessage] throw the error of
    [getEncryptionKey] with their own prefix. *)
Theorem encrypt_decrypt_reject_unusable_key :
  forall (CRYPTO_KEY : option jsstring),
    unusableKey CRYPTO_KEY ->
    exists err,
      Crypto.getEncryptionKey CRYPTO_KEY = Throw err /\
      forall (aes : AesGcm) (nonce : bytes) (message : MessageContent)
             (encryptedData : EncryptedData),
        Crypto.encryptMessage aes CRYPTO_KEY nonce message
        = Throw ("Encryption failed: " ++ err) /\
        Crypto.decryptMessage aes CRYPTO_KEY encryptedData
        = Throw ("Decryption failed: " ++ err).
Proof.
  intros CRYPTO_KEY Hbad.
  destruct (getEncryptionKey_unusable CRYPTO_KEY Hbad) as [err Herr].
  exists err. split; [assumption|].
  intros aes nonce message encryptedData.
  unfold Crypto.encryptMessage, Crypto.decryptMessage. rewrite Herr.
  split; reflexivity.
Qed.

Lemma encrypt_decrypt_reject_unusable_key_witness :
  exists err,
    Crypto.encryptMessage Sample.toyAes (Some (lit "secret"))
      (randomBytes12 Sample.fresh) (TextContent (lit "hi"))
    = Throw ("Encryption failed: " ++ err).
Proof.
  destruct (encrypt_decrypt_reject_unusable_key (Some (lit "secret")))
    as (err & _ & Hall).
  - intros key [= <-]. split; discriminate.
  - exists err.
    apply (Hall Sample.toyAes (randomBytes12 Sample.fresh) (TextContent (lit "hi"))
             {| encrypted := []; nonce := [] |}).
Defined.

(* ===================================================================== *)
(** * Further properties: messages from end to end                      *)
(* ===================================================================== *)

(** What [handleReceiveMessage] does with an envelope that decrypts. *)
Lemma handleReceiveMessage_decrypted (aes : AesGcm) (CRYPTO_KEY : option jsstring)
    (unicodeTextRegex : jsstring -> bool) (view : ChatState) (fresh : Fresh)
    (data : ReceiveMessageData) (s : ChatState) (envelope : ReceivedEnvelope)
    (plain : bytes) :
  rm_message data = Some envelope ->
  Crypto.decryptMessage aes CRYPTO_KEY
    {| encrypted := env_encrypted envelope; nonce := env_nonce envelope |}
  = Normal plain ->
  let s' := UseChat.handleServerEvent aes CRYPTO_KEY unicodeTextRegex view fresh
              (receive_message data) s in
  let decodedText := Encoding.utf8_decode plain in
  exists m,
    messages s' = messages s ++ [m] /\
    messageCounter s' = messageCounter s + 1 /\
    sender m = rm_sender data /\ isOwnMessage m = false /\
    id m = messageUuid fresh /\
    body m = if JSString.startsWith (lit "data:image") decodedText
                || negb (UseChat.hasControlChars decodedText)
                || (JSString.length decodedText <? 1000)
                || unicodeTextRegex decodedText
             then text decodedText
             else if Z.of_nat (List.length plain) =? 0
                  then text (lit "Image file")
                  else file (lit "image.png") (Z.of_nat (List.length plain))
                         (lit "image/png") plain.
Proof.
  intros Hsome Hdec s' decodedText. subst s' decodedText.
  cbn [UseChat.handleServerEvent].
  unfold UseChat.handleReceiveMessage, UseChat.receivedMessage.
  rewrite Hsome. cbn [bind]. rewrite Hdec. cbn [bind try_catch].
  eexists. split; [reflexivity|]. split; [reflexivity|].
  split; [reflexivity|]. split; [reflexivity|]. split; [reflexivity|].
  cbn [body].
  destruct (JSString.startsWith (lit "data:image") (Encoding.utf8_decode plain));
    [reflexivity|].
  cbn [orb].
  destruct (negb (UseChat.hasControlChars (Encoding.utf8_decode plain))
            || (JSString.length (Encoding.utf8_decode plain) <? 1000)
            || unicodeTextRegex (Encoding.utf8_decode plain)); [reflexivity|].
  destruct (Z.of_nat (List.length plain) =? 0); reflexivity.
Qed.

(** The decoding of a buffer that begins with the magic number of JPEG,
    PNG or GIF does not begin with [data:image]. *)
Lemma image_is_not_a_data_url (b : bytes) :
  hasImageMagic b = true ->
  JSString.startsWith (lit "data:image") (Encoding.utf8_decode b) = false.
Proof.
  unfold hasImageMagic. intros H.
  apply orb_true_iff in H. destruct H as [H | H];
    [apply orb_true_iff in H; destruct H as [H | H]|].
  - destruct b as [|x b]; [discriminate|].
    cbn [JSString.startsWith] in H. apply andb_true_iff in H. destruct H as [Hx _].
    apply Z.eqb_eq in Hx. subst x. reflexivity.
  - destruct b as [|x b]; [discriminate|].
    cbn [JSString.startsWith] in H. apply andb_true_iff in H. destruct H as [Hx _].
    apply Z.eqb_eq in Hx. subst x. reflexivity.
  - destruct b as [|x b]; [discriminate|].
    cbn [JSString.startsWith] in H. apply andb_true_iff in H. destruct H as [Hx _].
    apply Z.eqb_eq in Hx. subst x. reflexivity.
Qed.

Section EndToEnd.

Variable aes : AesGcm.
Hypothesis aes_correct : AesGcm_correct aes.

Variable key : jsstring.
Hypothesis key_valid : validKey key.

Variable unicodeTextRegex : jsstring -> bool.

(** X3.  A buffer survives the envelope byte for byte: for every buffer
    of octets, [encryptMessage] succeeds and [decryptMessage] applied to
    its result returns the same buffer. *)
Theorem decrypt_encrypt_binary_roundtrip :
  forall (nonce12 b : bytes),
    List.length nonce12 = 12%nat -> octets nonce12 -> octets b ->
    exists e,
      Crypto.encryptMessage aes (Some key) nonce12 (BinaryContent b) = Normal e /\
      Crypto.decryptMessage aes (Some key) e = Normal b.
Proof.
  intros nonce12 b Hlen Hoct Hb.
  destruct (decrypt_encrypt_buffer aes aes_correct key key_valid nonce12 Hlen Hoct
              (BinaryContent b) b eq_refl Hb)
    as (e & cipher & tag & k & _ & _ & _ & He & _ & _ & Hdec).
  exists e. split; assumption.
Qed.

(** X4.  A text message sent over an open socket reaches the other side
    as typed: the [send_message] frame carries an envelope which, handed
    to the [receive_message] handler of a client with the same key, adds a
    text message with the same content. *)
Theorem text_message_is_delivered :
  forall (m : jsstring) (view : ChatState) (fresh : Fresh)
         (replyTo : option jsstring) (h : Hook) (ws : WebSocket),
    codeUnits m -> Encoding.isWellFormed m = true ->
    JSString.length m < 1000 \/ UseChat.hasControlChars m = false ->
    List.length (randomBytes12 fresh) = 12%nat -> octets (randomBytes12 fresh) ->
    socketRef (refs h) = Some ws -> readyState ws = OPEN -> connected view = true ->
    exists e,
      UseChat.wire
        (fst (UseChat.sendMessage aes (Some key) view fresh (TextContent m) replyTo h))
      = sent ws ++ [sendMessageFrame view e replyTo] /\
      forall (view' : ChatState) (fresh' : Fresh) (from : jsstring)
             (r1 r2 : option jsstring) (s : ChatState),
        let s' := UseChat.handleServerEvent aes (Some key) unicodeTextRegex view' fresh'
                    (receive_message
                       {| rm_sender := from;
                          rm_message := Some {| env_encrypted := encrypted e;
                                                env_nonce := nonce e;
                                                env_reply_to := r1 |};
                          rm_reply_to := r2 |}) s in
        exists msg,
          messages s' = messages s ++ [msg] /\
          body msg = text m /\ sender msg = from /\ isOwnMessage msg = false.
Proof.
  intros m view fresh replyTo h ws Hm Hwf Htext Hlen Hoct Hsock Hopen Hconn.
  destruct (decrypt_encrypt_buffer aes aes_correct key key_valid (randomBytes12 fresh)
              Hlen Hoct (TextContent m) (Encoding.utf8_encode m) eq_refl
              (utf8_encode_octets m Hm))
    as (e & cipher & tag & k & _ & _ & _ & He & _ & _ & Hdec).
  exists e. split.
  - destruct (sendMessage_open aes (Some key) view fresh (TextContent m) replyTo h ws e
                Hsock Hopen Hconn I He) as (Hwire & _).
    exact Hwire.
  - intros view' fresh' from r1 r2 s.
    destruct (handleReceiveMessage_decrypted aes (Some key) unicodeTextRegex view' fresh'
                {| rm_sender := from;
                   rm_message := Some {| env_encrypted := encrypted e;
                                         env_nonce := nonce e;
                                         env_reply_to := r1 |};
                   rm_reply_to := r2 |} s _ (Encoding.utf8_encode m) eq_refl)
      as (msg & Hmsgs & _ & Hsender & Hown & _ & Hbody).
    { cbn [env_encrypted env_nonce]. destruct e. exact Hdec. }
    exists msg. split; [exact Hmsgs|]. split; [|split; assumption].
    rewrite Hbody, (utf8_roundtrip m Hm Hwf).
    destruct (JSString.startsWith (lit "data:image") m); [reflexivity|].
    destruct Htext as [Hshort | Hctl].
    + apply Z.ltb_lt in Hshort. rewrite Hshort, orb_true_r. reflexivity.
    + rewrite Hctl. reflexivity.
Qed.

(** X5.  An image sent over an open socket is stored by the sender as
    a file; the receiver shows it as a file with the same bytes only when
    the UTF-8 decoding of the bytes has at least 1000 code units, contains
    a control character and fails the Unicode-text test, and as a text
    message made of that decoding otherwise. *)
Theorem image_is_received_by_its_decoding :
  forall (b : bytes) (view : ChatState) (fresh : Fresh)
         (replyTo : option jsstring) (h : Hook) (ws : WebSocket),
    octets b -> (8 <= List.length b)%nat -> hasImageMagic b = true ->
    List.length (randomBytes12 fresh) = 12%nat -> octets (randomBytes12 fresh) ->
    socketRef (refs h) = Some ws -> readyState ws = OPEN -> connected view = true ->
    let out := UseChat.sendMessage aes (Some key) view fresh (BinaryContent b) replyTo h in
    let image := file (lit "image.png") (Z.of_nat (List.length b)) (lit "image/png") b in
    let decodedText := Encoding.utf8_decode b in
    exists e own,
      UseChat.wire (fst out)
      = sent ws ++ [fileFrame "file_sending_start" view (fileIdOf fresh);
                    sendMessageFrame view e replyTo] /\
      messages (state (fst out)) = messages (state h) ++ [own] /\ body own = image /\
      forall (view' : ChatState) (fresh' : Fresh) (from : jsstring)
             (r1 r2 : option jsstring) (s : ChatState),
        let s' := UseChat.handleServerEvent aes (Some key) unicodeTextRegex view' fresh'
                    (receive_message
                       {| rm_sender := from;
                          rm_message := Some {| env_encrypted := encrypted e;
                                                env_nonce := nonce e;
                                                env_reply_to := r1 |};
                          rm_reply_to := r2 |}) s in
        exists msg,
          messages s' = messages s ++ [msg] /\
          body msg = if (JSString.length decodedText <? 1000)
                        || negb (UseChat.hasControlChars decodedText)
                        || unicodeTextRegex decodedText
                     then text decodedText
                     else image.
Proof.
  intros b view fresh replyTo h ws Hb Hlen8 Hmagic Hlen Hoct Hsock Hopen Hconn
         out image decodedText.
  destruct (decrypt_encrypt_buffer aes aes_correct key key_valid (randomBytes12 fresh)
              Hlen Hoct (BinaryContent b) b eq_refl Hb)
    as (e & cipher & tag & k & _ & _ & _ & He & _ & _ & Hdec).
  destruct (sendMessage_open aes (Some key) view fresh (BinaryContent b) replyTo h ws e
              Hsock Hopen Hconn Hlen8) as (Hwire & _ & (own & Hown & _ & _ & Hbody) & _).
  { cbn [contentToEncrypt]. rewrite Hmagic. exact He. }
  cbn [contentToEncrypt] in Hwire, Hbody. rewrite Hmagic in Hwire, Hbody.
  exists e, own. split; [exact Hwire|]. split; [exact Hown|]. split; [exact Hbody|].
  intros view' fresh' from r1 r2 s.
  destruct (handleReceiveMessage_decrypted aes (Some key) unicodeTextRegex view' fresh'
              {| rm_sender := from;
                 rm_message := Some {| env_encrypted := encrypted e;
                                       env_nonce := nonce e;
                                       env_reply_to := r1 |};
                 rm_reply_to := r2 |} s _ b eq_refl)
    as (msg & Hmsgs & _ & _ & _ & _ & Hmsg).
  { cbn [env_encrypted env_nonce]. destruct e. exact Hdec. }
  exists msg. split; [exact Hmsgs|].
  rewrite Hmsg, (image_is_not_a_data_url b Hmagic). cbn [orb].
  fold decodedText.
  replace (Z.of_nat (List.length b) =? 0) with false
    by (symmetry; apply Z.eqb_neq; lia).
  destruct (UseChat.hasControlChars decodedText), (JSString.length decodedText <? 1000),
    (unicodeTextRegex decodedText); reflexivity.
Qed.

End EndToEnd.

Lemma decrypt_encrypt_binary_roundtrip_witness :
  exists e,
    Crypto.encryptMessage Sample.toyAes (Some Sample.key32)
      (randomBytes12 Sample.fresh) (BinaryContent jpegHeader) = Normal e /\
    Crypto.decryptMessage Sample.toyAes (Some Sample.key32) e = Normal jpegHeader.
Proof.
  apply (decrypt_encrypt_binary_roundtrip Sample.toyAes toyAes_correct Sample.key32
           (or_intror (conj eq_refl eq_refl)) (randomBytes12 Sample.fresh) jpegHeader
           eq_refl); repeat constructor.
Defined.

Lemma text_message_is_delivered_witness :
  exists e,
    UseChat.wire
      (fst (UseChat.sendMessage Sample.toyAes (Some Sample.key32) (Sample.groupState [])
              Sample.fresh (TextContent (lit "hello")) None (Sample.groupHook OPEN [])))
    = [sendMessageFrame (Sample.groupState []) e None] /\
    exists msg,
      messages
        (UseChat.handleServerEvent Sample.toyAes (Some Sample.key32) Sample.anyText
           (Sample.groupState []) Sample.fresh
           (receive_message
              {| rm_sender := lit "u-ann";
                 rm_message := Some {| env_encrypted := encrypted e;
                                       env_nonce := nonce e;
                                       env_reply_to := None |};
                 rm_reply_to := None |})
           (Sample.groupState []))
      = [msg] /\ body msg = text (lit "hello").
Proof.
  destruct (text_message_is_delivered Sample.toyAes toyAes_correct Sample.key32
              (or_intror (conj eq_refl eq_refl)) Sample.anyText (lit "hello")
              (Sample.groupState []) Sample.fresh None (Sample.groupHook OPEN [])
              {| readyState := OPEN; sent := []; onopenProfile := None |}
              ltac:(repeat constructor; lia) eq_refl (or_introl eq_refl) eq_refl
              ltac:(repeat constructor) eq_refl eq_refl eq_refl)
    as (e & Hwire & Hrecv).
  exists e. split; [exact Hwire|].
  destruct (Hrecv (Sample.groupState []) Sample.fresh (lit "u-ann") None None
              (Sample.groupState [])) as (msg & Hmsgs & Hbody & _).
  exists msg. split; [exact Hmsgs | exact Hbody].
Defined.

Lemma image_is_received_by_its_decoding_witness :
  exists e,
    map event
      (UseChat.wire
         (fst (UseChat.sendMessage Sample.toyAes (Some Sample.key32) (Sample.groupState [])
                 Sample.fresh (BinaryContent jpegHeader) None (Sample.groupHook OPEN []))))
    = ["file_sending_start"; "send_message"]%string /\
    exists msg,
      messages
        (UseChat.handleServerEvent Sample.toyAes (Some Sample.key32) Sample.anyText
           (Sample.groupState []) Sample.fresh
           (receive_message
              {| rm_sender := lit "u-ann";
                 rm_message := Some {| env_encrypted := encrypted e;
                                       env_nonce := nonce e;
                                       env_reply_to := None |};
                 rm_reply_to := None |})
           (Sample.groupState []))
      = [msg] /\ body msg = text (Encoding.utf8_decode jpegHeader).
Proof.
  destruct (image_is_received_by_its_decoding Sample.toyAes toyAes_correct Sample.key32
              (or_intror (conj eq_refl eq_refl)) Sample.anyText jpegHeader
              (Sample.groupState []) Sample.fresh None (Sample.groupHook OPEN [])
              {| readyState := OPEN; sent := []; onopenProfile := None |}
              ltac:(repeat constructor) (Nat.le_refl 8) eq_refl eq_refl
              ltac:(repeat constructor) eq_refl eq_refl eq_refl)
    as (e & own & Hwire & _ & _ & Hrecv).
  exists e. split; [rewrite Hwire; reflexivity|].
  destruct (Hrecv (Sample.groupState []) Sample.fresh (lit "u-ann") None None
              (Sample.groupState [])) as (msg & Hmsgs & Hbody).
  exists msg. split; [exact Hmsgs | exact Hbody].
Defined.



(* ===================================================================== *)
(** * Further properties: server events and the connection guard        *)
(* ===================================================================== *)

(** X7.  On every event of the server a stored message is left as it is:
    an event either keeps the counter and leaves a sublist of the stored
    messages, in order, or adds one to the counter and ends the list with
    one new message of another sender, appended to the stored messages or
    replacing them.  The message being replied to is not touched. *)
Theorem handleServerEvent_keeps_stored_messages :
  forall (aes : AesGcm) (CRYPTO_KEY : option jsstring)
         (unicodeTextRegex : jsstring -> bool)
         (view : ChatState) (fresh : Fresh) (ev : ServerEvent) (s : ChatState),
    let s' := UseChat.handleServerEvent aes CRYPTO_KEY unicodeTextRegex view fresh ev s in
    currentReplyTo s' = currentReplyTo s /\
    ((messageCounter s' = messageCounter s /\
      exists keep, messages s' = filter keep (messages s)) \/
     (messageCounter s' = messageCounter s + 1 /\
      exists m,
        (messages s' = messages s ++ [m] \/ messages s' = [m]) /\
        id m = messageUuid fresh /\ timestamp m = now fresh /\
        messageIndex m = messageCounter view /\
        isOwnMessage m = false /\ role m = assistant)).
Proof.
  intros aes CRYPTO_KEY unicodeTextRegex view fresh ev s s'. subst s'.
  assert (Hsame : forall l : list Message, l = filter (fun _ => true) l).
  { intros l. symmetry. apply forallb_filter_id. apply forallb_forall. reflexivity. }
  destruct ev as [dataGroupCode| |data|members|username|username| | |dataMessageId| | | | | | | ];
    cbn [UseChat.handleServerEvent UseChat.handlePlainEvent].
  - unfold UseChat.handleChatStarted.
    destruct (UseChat.present dataGroupCode); (split; [reflexivity|]); right;
      (split; [reflexivity|]); eexists; (split; [right; reflexivity|]); repeat split.
  - split; [reflexivity|]. left. split; [reflexivity|]. eexists. apply Hsame.
  - unfold UseChat.handleReceiveMessage.
    destruct (UseChat.receivedMessage aes CRYPTO_KEY unicodeTextRegex view fresh data)
      as [newMsg|e] eqn:Hmsg; cbn [bind try_catch].
    + split; [reflexivity|]. right. split; [reflexivity|].
      exists newMsg. split; [left; reflexivity|].
      unfold UseChat.receivedMessage in Hmsg.
      destruct (rm_message data); cbn [bind] in Hmsg; [|discriminate].
      destruct (Crypto.decryptMessage _ _ _); cbn [bind] in Hmsg; [|discriminate].
      injection Hmsg as <-. repeat split.
    + split; [reflexivity|]. right. split; [reflexivity|].
      eexists. split; [left; reflexivity|]. repeat split.
  - split; [reflexivity|]. left. split; [reflexivity|]. eexists. apply Hsame.
  - split; [reflexivity|]. right. split; [reflexivity|].
    eexists. split; [left; reflexivity|]. repeat split.
  - split; [reflexivity|]. right. split; [reflexivity|].
    eexists. split; [left; reflexivity|]. repeat split.
  - unfold UseChat.handleTypingStarted. destruct (isGroupChat view);
      (split; [reflexivity|]); left; (split; [reflexivity|]); eexists; apply Hsame.
  - split; [reflexivity|]. left. split; [reflexivity|]. eexists. apply Hsame.
  - split; [reflexivity|]. left. split; [reflexivity|]. eexists. reflexivity.
  - split; [reflexivity|]. left. split; [reflexivity|]. eexists. apply Hsame.
  - split; [reflexivity|]. left. split; [reflexivity|]. eexists. apply Hsame.
  - split; [reflexivity|]. left. split; [reflexivity|]. eexists. apply Hsame.
  - split; [reflexivity|]. right. split; [reflexivity|].
    eexists. split; [right; reflexivity|]. repeat split.
  - split; [reflexivity|]. right. split; [reflexivity|].
    eexists. split; [right; reflexivity|]. repeat split.
  - split; [reflexivity|]. right. split; [reflexivity|].
    eexists. split; [right; reflexivity|]. repeat split.
  - split; [reflexivity|]. left. split; [reflexivity|]. eexists. apply Hsame.
Qed.

(** X8.  [sendTypingIndicator] never changes the state.  With a
    socket, [connected] true and the socket open it transmits one frame,
    [typing_start] or [typing_stop], whose data is [is_group_chat] and
    [group_code] ([null] outside a group); in every other case it
    transmits nothing. *)
Theorem sendTypingIndicator_sends_one_frame :
  forall (view : ChatState) (isTyping : bool) (h : Hook),
    let h' := UseChat.sendTypingIndicator view isTyping h in
    state h' = state h /\
    (socketRef (refs h) = None \/ connected view = false \/
     (exists ws, socketRef (refs h) = Some ws /\ readyState ws <> OPEN) ->
     h' = h) /\
    (forall ws,
        socketRef (refs h) = Some ws -> readyState ws = OPEN ->
        connected view = true ->
        exists d,
          UseChat.wire h'
          = sent ws ++ [ {| event := if isTyping then "typing_start" else "typing_stop";
                            data := d |} ] /\
          keys d = ["is_group_chat"; "group_code"]%string /\
          property "is_group_chat" d = Some (JBool (isGroupChat view)) /\
          property "group_code" d = Some (nullable (groupCode view))).
Proof.
  intros view isTyping h h'. subst h'. unfold UseChat.sendTypingIndicator.
  split; [|split].
  - destruct (socketRef (refs h)); [|reflexivity].
    destruct (connected view); reflexivity.
  - intros [Hnone | [Hconn | (ws & Hsock & Hopen)]].
    + rewrite Hnone. reflexivity.
    + rewrite Hconn. destruct (socketRef (refs h)); reflexivity.
    + rewrite Hsock. destruct (connected view); cbn [negb]; [|reflexivity].
      unfold UseChat.withRefs.
      rewrite (sendJsonMessage_not_open _ _ _ _ Hsock Hopen).
      destruct h; reflexivity.
  - intros ws Hsock Hopen Hconn. rewrite Hsock, Hconn. cbn [negb].
    unfold UseChat.wire, UseChat.withRefs. cbn [refs].
    rewrite (sendJsonMessage_open _ _ _ _ Hsock Hopen). cbn [transmit sent].
    eexists. split; [reflexivity|]. repeat split.
Qed.

(** X9.  Once the partner has left, or no match or no group was found,
    the chat is no longer connected: rendered with that state,
    [sendMessage] is rejected and [sendTypingIndicator] and
    [deleteMessage] do nothing, although the socket is still there; a
    [chat_started] event, with data or without, connects the chat again. *)
Theorem partner_disconnected_blocks_sending :
  forall (aes : AesGcm) (CRYPTO_KEY : option jsstring)
         (unicodeTextRegex : jsstring -> bool)
         (view : ChatState) (fresh : Fresh) (ev : ServerEvent) (s : ChatState),
    let s' := UseChat.handleServerEvent aes CRYPTO_KEY unicodeTextRegex view fresh ev s in
    (ev = partner_disconnected \/ ev = no_match_found \/ ev = group_not_found ->
     connected s' = false /\
     (ev = partner_disconnected ->
      partnerDisconnected s' = true /\ partnerTyping s' = false /\
      messages s' = messages s) /\
     forall (fresh2 : Fresh) (content : MessageContent) (replyTo : option jsstring)
            (isTyping : bool) (messageId : jsstring) (h : Hook),
       UseChat.sendMessage aes CRYPTO_KEY s' fresh2 content replyTo h
       = (h, Rejected "Not connected to chat") /\
       UseChat.sendTypingIndicator s' isTyping h = h /\
       UseChat.deleteMessage s' messageId h = h) /\
    (forall dataGroupCode, ev = chat_started dataGroupCode ->
       connected s' = true /\ partnerDisconnected s' = false) /\
    (ev = chat_started_without_data ->
     connected s' = true /\ partnerDisconnected s' = false).
Proof.
  intros aes CRYPTO_KEY unicodeTextRegex view fresh ev s s'.
  split; [|split].
  - intros Hev.
    assert (Hconn : connected s' = false).
    { subst s'. destruct Hev as [-> | [-> | ->]]; reflexivity. }
    split; [exact Hconn|]. split.
    + intros ->. subst s'. repeat split.
    + intros fresh2 content replyTo isTyping messageId h.
      unfold UseChat.sendMessage, UseChat.sendTypingIndicator, UseChat.deleteMessage.
      rewrite Hconn. destruct (socketRef (refs h)); repeat split.
  - intros dataGroupCode ->. subst s'.
    cbn [UseChat.handleServerEvent UseChat.handlePlainEvent].
    unfold UseChat.handleChatStarted.
    destruct (UseChat.present dataGroupCode); split; reflexivity.
  - intros ->. subst s'. split; reflexivity.
Qed.

(* ===================================================================== *)
(** * Further properties: the user id and the socket                    *)
(* ===================================================================== *)

(** X10.  The user id is fixed by the first call of [getUserId]: the call
    leaves the id in [userIdRef], and every later call returns the same id
    and changes nothing, whatever [localStorage] and [uuidv4] hold by
    then. *)
Theorem getUserId_is_stable :
  forall (fresh : Fresh) (r : Refs),
    userUuid fresh <> [] ->
    let userId := fst (UseChat.getUserId fresh r) in
    let r1 := snd (UseChat.getUserId fresh r) in
    userId <> [] /\
    userIdRef r1 = Some userId /\
    (UseChat.present (userIdRef r) = false -> storedUserId r1 = Some userId) /\
    socketRef r1 = socketRef r /\ storedUsername r1 = storedUsername r /\
    forall (fresh' : Fresh) (r2 : Refs),
      userIdRef r2 = userIdRef r1 ->
      UseChat.getUserId fresh' r2 = (userId, r2).
Proof.
  intros fresh r Huuid userId r1. subst userId r1.
  unfold UseChat.getUserId.
  destruct (userIdRef r) as [[|c u]|] eqn:Href; cbn [UseChat.present JSString.truthy].
  - destruct (storedUserId r) as [[|d v]|]; cbn [UseChat.present JSString.truthy UseChat.valueOr fst snd userIdRef storedUserId socketRef storedUsername].
    + destruct (userUuid fresh) as [|x y] eqn:E; [now elim Huuid|].
      repeat split; try discriminate. intros fresh' r2 ->. reflexivity.
    + repeat split; try discriminate. intros fresh' r2 ->. reflexivity.
    + destruct (userUuid fresh) as [|x y] eqn:E; [now elim Huuid|].
      repeat split; try discriminate. intros fresh' r2 ->. reflexivity.
  - cbn [UseChat.valueOr fst snd]. rewrite Href.
    repeat split; try discriminate. intros fresh' r2 ->. reflexivity.
  - destruct (storedUserId r) as [[|d v]|]; cbn [UseChat.present JSString.truthy UseChat.valueOr fst snd userIdRef storedUserId socketRef storedUsername].
    + destruct (userUuid fresh) as [|x y] eqn:E; [now elim Huuid|].
      repeat split; try discriminate. intros fresh' r2 ->. reflexivity.
    + repeat split; try discriminate. intros fresh' r2 ->. reflexivity.
    + destruct (userUuid fresh) as [|x y] eqn:E; [now elim Huuid|].
      repeat split; try discriminate. intros fresh' r2 ->. reflexivity.
Qed.

Lemma getUserId_is_stable_witness :
  UseChat.getUserId Sample.fresh
    (snd (UseChat.getUserId Sample.fresh (refs Sample.initialHook)))
  = (lit "u-ann", snd (UseChat.getUserId Sample.fresh (refs Sample.initialHook))).
Proof.
  destruct (getUserId_is_stable Sample.fresh (refs Sample.initialHook))
    as (_ & _ & _ & _ & _ & Hagain).
  - discriminate.
  - apply (Hagain Sample.fresh). reflexivity.
Defined.

Lemma disconnect_refs (h : Hook) :
  refs (UseChat.disconnect h)
  = match socketRef (refs h) with
    | Some ws => UseChat.release (hungUp ws) (UseChat.setSocketRef None (refs h))
    | None => refs h
    end.
Proof.
  unfold UseChat.disconnect, UseChat.sendJsonMessage, hungUp.
  destruct (socketRef (refs h)) as [ws|] eqn:Hsock; [|reflexivity].
  destruct (readyState ws) eqn:Hrs; cbn; rewrite ?Hsock; cbn;
    unfold WebSocket_close; cbn; rewrite ?Hrs, ?app_nil_r; reflexivity.
Qed.

Lemma disconnect_state (h : Hook) :
  state (UseChat.disconnect h) = UseChat.resetState (state h).
Proof.
  unfold UseChat.disconnect. destruct (socketRef (refs h)); reflexivity.
Qed.

Lemma disconnect_socketRef (h : Hook) :
  socketRef (refs (UseChat.disconnect h)) = None.
Proof.
  rewrite disconnect_refs. destruct (socketRef (refs h)) eqn:E; [reflexivity | exact E].
Qed.

(** X11.  [disconnect] lets go of the socket after a [disconnect_chat]
    frame (sent only if the socket is open) and a [close], and clears the
    chat: messages, connection flags, group code and members.  The message
    counter, [connecting], the message being replied to and the user id
    are kept.  A second [disconnect] changes nothing. *)
Theorem disconnect_hangs_up_and_clears :
  forall h : Hook,
    let h' := UseChat.disconnect h in
    socketRef (refs h') = None /\
    released (refs h')
    = released (refs h) ++ match socketRef (refs h) with
                           | Some ws => [hungUp ws]
                           | None => []
                           end /\
    messages (state h') = [] /\ connected (state h') = false /\
    isGroupChat (state h') = false /\ groupCode (state h') = None /\
    groupMembers (state h') = [] /\ partnerTyping (state h') = false /\
    partnerDisconnected (state h') = false /\
    messageCounter (state h') = messageCounter (state h) /\
    connecting (state h') = connecting (state h) /\
    currentReplyTo (state h') = currentReplyTo (state h) /\
    userIdRef (refs h') = userIdRef (refs h) /\
    storedUserId (refs h') = storedUserId (refs h) /\
    UseChat.disconnect h' = h'.
Proof.
  intros h h'.
  pose proof (disconnect_refs h) as Hrefs. fold h' in Hrefs.
  pose proof (disconnect_state h) as Hstate. fold h' in Hstate.
  pose proof (disconnect_socketRef h) as Hnone. fold h' in Hnone.
  split; [exact Hnone|].
  split; [rewrite Hrefs; destruct (socketRef (refs h));
          [reflexivity | symmetry; apply app_nil_r]|].
  rewrite Hstate.
  do 10 (split; [reflexivity|]).
  split; [rewrite Hrefs; destruct (socketRef (refs h)); reflexivity|].
  split; [rewrite Hrefs; destruct (socketRef (refs h)); reflexivity|].
  unfold UseChat.disconnect at 1. rewrite Hnone.
  destruct h' as [s' r']. cbn [state] in Hstate. subst s'. reflexivity.
Qed.

Lemma connect_state (fresh : Fresh) (preference : jsstring)
    (groupJoinMethod : option GroupJoinMethod)
    (customGroupCode : option jsstring) (h : Hook) :
  state (UseChat.connect fresh preference groupJoinMethod customGroupCode h)
  = UseChat.setConnecting (socketCreated fresh) (UseChat.resetState (state h)).
Proof.
  unfold UseChat.connect.
  destruct (UseChat.getUserId fresh _) as [userId r4].
  destruct (socketCreated fresh); cbn [state UseChat.withRefs UseChat.withState];
    (destruct (socketRef (refs h)); [rewrite disconnect_state|]); reflexivity.
Qed.

Lemma connect_refs (fresh : Fresh) (preference : jsstring)
    (groupJoinMethod : option GroupJoinMethod)
    (customGroupCode : option jsstring) (h : Hook) :
  exists r4 profile,
    r4 = snd (UseChat.getUserId fresh
                (UseChat.setErrorToastRef false (refs (UseChat.disconnect h)))) /\
    socketRef r4 = None /\
    refs (UseChat.connect fresh preference groupJoinMethod customGroupCode h)
    = if socketCreated fresh
      then UseChat.setSocketRef
             (Some {| readyState := CONNECTING; sent := [];
                      onopenProfile := Some profile |}) r4
      else r4.
Proof.
  assert (Hsame : refs match socketRef (refs h) with
                       | Some _ => UseChat.disconnect h
                       | None => h
                       end = refs (UseChat.disconnect h)).
  { destruct (socketRef (refs h)) eqn:E; [reflexivity|].
    rewrite disconnect_refs, E. reflexivity. }
  pose proof (getUserId_socketRef fresh
                (UseChat.setErrorToastRef false (refs (UseChat.disconnect h)))) as Hs.
  cbn [UseChat.setErrorToastRef socketRef] in Hs.
  rewrite disconnect_socketRef in Hs.
  unfold UseChat.connect.
  cbn [UseChat.withRefs UseChat.withState refs]. rewrite Hsame.
  destruct (UseChat.getUserId fresh _) as [userId r4].
  cbn [snd] in Hs.
  exists r4. eexists. split; [reflexivity|]. split; [exact Hs|].
  destruct (socketCreated fresh); cbn [refs]; [reflexivity|].
  rewrite Hs. reflexivity.
Qed.

Lemma getUserId_keeps (fresh : Fresh) (r : Refs) :
  errorToastRef (snd (UseChat.getUserId fresh r)) = errorToastRef r /\
  released (snd (UseChat.getUserId fresh r)) = released r /\
  storedUsername (snd (UseChat.getUserId fresh r)) = storedUsername r.
Proof.
  unfold UseChat.getUserId. destruct (UseChat.present (userIdRef r)); repeat split.
Qed.

(** X12.  [connect] first hangs up on the socket in use, if any, and
    clears the chat.  If the WebSocket constructor returns, the new socket
    is connecting with nothing sent on it and [connecting] is set; if it
    throws, there is no socket and [connecting] is cleared.  Either way
    [connected] is false, so that a message sent before [chat_started]
    arrives is rejected. *)
Theorem connect_starts_afresh :
  forall (fresh : Fresh) (preference : jsstring)
         (groupJoinMethod : option GroupJoinMethod)
         (customGroupCode : option jsstring) (h : Hook),
    let h' := UseChat.connect fresh preference groupJoinMethod customGroupCode h in
    released (refs h')
    = released (refs h) ++ match socketRef (refs h) with
                           | Some ws => [hungUp ws]
                           | None => []
                           end /\
    (if socketCreated fresh
     then (exists profile,
              socketRef (refs h')
              = Some {| readyState := CONNECTING; sent := [];
                        onopenProfile := Some profile |}) /\
          connecting (state h') = true
     else socketRef (refs h') = None /\ connecting (state h') = false) /\
    errorToastRef (refs h') = false /\
    messages (state h') = [] /\ connected (state h') = false /\
    isGroupChat (state h') = false /\ groupCode (state h') = None /\
    groupMembers (state h') = [] /\ partnerTyping (state h') = false /\
    partnerDisconnected (state h') = false /\
    messageCounter (state h') = messageCounter (state h) /\
    currentReplyTo (state h') = currentReplyTo (state h) /\
    UseChat.wire h' = [] /\
    forall (aes : AesGcm) (CRYPTO_KEY : option jsstring) (fresh2 : Fresh)
           (content : MessageContent) (replyTo : option jsstring),
      UseChat.sendMessage aes CRYPTO_KEY (state h') fresh2 content replyTo h'
      = (h', Rejected "Not connected to chat").
Proof.
  intros fresh preference groupJoinMethod customGroupCode h h'.
  pose proof (connect_state fresh preference groupJoinMethod customGroupCode h) as Hstate.
  destruct (connect_refs fresh preference groupJoinMethod customGroupCode h)
    as (r4 & profile & Hr4 & Hs4 & Hrefs).
  fold h' in Hstate, Hrefs.
  destruct (getUserId_keeps fresh
              (UseChat.setErrorToastRef false (refs (UseChat.disconnect h))))
    as (Htoast & Hrel & _).
  rewrite <- Hr4 in Htoast, Hrel.
  cbn [UseChat.setErrorToastRef errorToastRef released] in Htoast, Hrel.
  rewrite disconnect_refs in Hrel.
  rewrite Hstate, Hrefs.
  split.
  { destruct (socketCreated fresh); cbn [UseChat.setSocketRef released];
      rewrite Hrel; destruct (socketRef (refs h));
      try reflexivity; symmetry; apply app_nil_r. }
  split.
  { destruct (socketCreated fresh); (split; [|reflexivity]);
      [eexists; reflexivity | exact Hs4]. }
  split; [destruct (socketCreated fresh); exact Htoast|].
  do 9 (split; [reflexivity|]).
  assert (Hwire : UseChat.wire h' = []).
  { unfold UseChat.wire. rewrite Hrefs.
    destruct (socketCreated fresh); [reflexivity | rewrite Hs4; reflexivity]. }
  split; [exact Hwire|].
  intros aes CRYPTO_KEY fresh2 content replyTo.
  unfold UseChat.sendMessage.
  replace (connected (UseChat.setConnecting (socketCreated fresh)
                        (UseChat.resetState (state h)))) with false by reflexivity.
  destruct (socketRef (refs h')); reflexivity.
Qed.

Lemma getUserId_stored (fresh : Fresh) (r : Refs) :
  userUuid fresh <> [] ->
  (UseChat.present (userIdRef r) = true -> storedUserId r = userIdRef r) ->
  fst (UseChat.getUserId fresh r) <> [] /\
  storedUserId (snd (UseChat.getUserId fresh r)) = Some (fst (UseChat.getUserId fresh r)).
Proof.
  intros Huuid Hinv. unfold UseChat.getUserId.
  destruct (userIdRef r) as [[|c u]|] eqn:Href; cbn [UseChat.present JSString.truthy] in *.
  - destruct (storedUserId r) as [[|d v]|]; cbn; split; try reflexivity; try discriminate;
      assumption.
  - cbn [fst snd UseChat.valueOr]. rewrite (Hinv eq_refl). split; [discriminate | reflexivity].
  - destruct (storedUserId r) as [[|d v]|]; cbn; split; try reflexivity; try discriminate;
      assumption.
Qed.

Lemma onopen_connect_refs (fresh : Fresh) (preference : jsstring)
    (groupJoinMethod : option GroupJoinMethod)
    (customGroupCode : option jsstring) (h : Hook) :
  socketCreated fresh = true ->
  exists r4 profile,
    r4 = snd (UseChat.getUserId fresh
                (UseChat.setErrorToastRef false (refs (UseChat.disconnect h)))) /\
    refs (UseChat.onopen
            (UseChat.connect fresh preference groupJoinMethod customGroupCode h))
    = UseChat.setSocketRef
        (Some {| readyState := OPEN;
                 sent := [ {| event := "join_chat";
                              data := UserProfile_json
                                        (joinProfile fresh preference groupJoinMethod
                                           customGroupCode (refs h)) |} ];
                 onopenProfile := Some profile |}) r4.
Proof.
  intros Hc.
  destruct (connect_refs fresh preference groupJoinMethod customGroupCode h)
    as (r4 & profile & Hr4 & Hs4 & Hrefs).
  rewrite Hc in Hrefs.
  pose proof (connect_creates_socket fresh preference groupJoinMethod
                customGroupCode h Hc) as Hsock.
  exists r4. eexists. split; [exact Hr4|].
  unfold UseChat.onopen. rewrite Hsock. cbn [readyState onopenProfile].
  unfold UseChat.withRefs. cbn [refs]. rewrite Hrefs.
  unfold UseChat.sendJsonMessage. cbn. reflexivity.
Qed.

(** X13.  The video signalling speaks under the id that the chat joined
    with: on the socket opened by [connect], each of the four send
    functions transmits, after the [join_chat] frame, one frame whose
    [sender_id] is the [user_id] of that [join_chat] frame. *)
Theorem webrtc_sender_id_is_join_user_id :
  forall (fresh : Fresh) (preference : jsstring)
         (groupJoinMethod : option GroupJoinMethod)
         (customGroupCode : option jsstring) (h : Hook)
         (randomSuffix : jsstring) (offer answer candidate : JSON)
         (targetId : jsstring) (isGroupChat : option bool)
         (groupCode : option jsstring),
    socketCreated fresh = true -> userUuid fresh <> [] ->
    (UseChat.present (userIdRef (refs h)) = true ->
     storedUserId (refs h) = userIdRef (refs h)) ->
    let h' := UseChat.onopen
                (UseChat.connect fresh preference groupJoinMethod customGroupCode h) in
    let stored := storedUserId (refs h') in
    let socket := socketRef (refs h') in
    exists userId joined,
      UseChat.wire h' = [ {| event := "join_chat"; data := joined |} ] /\
      property "user_id" joined = Some (JString userId) /\
      WebRTCEvents.getCurrentUserId randomSuffix stored = (userId, Some userId) /\
      forall r : WebRTCEvents.Sent,
        In r [ WebRTCEvents.sendOffer randomSuffix stored socket offer targetId
                 isGroupChat groupCode;
               WebRTCEvents.sendAnswer randomSuffix stored socket answer targetId
                 isGroupChat groupCode;
               WebRTCEvents.sendIceCandidate randomSuffix stored socket candidate
                 targetId isGroupChat groupCode;
               WebRTCEvents.sendEndCall randomSuffix stored socket targetId
                 isGroupChat groupCode ] ->
        WebRTCEvents.returned r = true /\
        WebRTCEvents.userIdAfter r = Some userId /\
        exists name d,
          option_map sent (WebRTCEvents.socketAfter r)
          = Some [ {| event := "join_chat"; data := joined |};
                   {| event := name; data := d |} ] /\
          property "sender_id" d = Some (JString userId).
Proof.
  intros fresh preference groupJoinMethod customGroupCode h randomSuffix
         offer answer candidate targetId isGroupChat groupCode Hc Huuid Hinv
         h' stored socket.
  destruct (onopen_connect_refs fresh preference groupJoinMethod customGroupCode h Hc)
    as (r4 & profile & Hr4 & Hrefs).
  fold h' in Hrefs.
  set (r0 := UseChat.setErrorToastRef false (refs (UseChat.disconnect h))) in Hr4.
  assert (Hr0 : userIdRef r0 = userIdRef (refs h) /\ storedUserId r0 = storedUserId (refs h)).
  { subst r0. rewrite disconnect_refs. destruct (socketRef (refs h)); split; reflexivity. }
  destruct Hr0 as [Hr0u Hr0s].
  assert (Hid : fst (UseChat.getUserId fresh r0) = fst (UseChat.getUserId fresh (refs h))).
  { unfold UseChat.getUserId. rewrite Hr0u, Hr0s.
    destruct (UseChat.present (userIdRef (refs h))); reflexivity. }
  destruct (getUserId_stored fresh r0 Huuid) as [Hne Hstored].
  { rewrite Hr0u, Hr0s. exact Hinv. }
  rewrite <- Hr4, Hid in Hstored. rewrite Hid in Hne.
  set (userId := fst (UseChat.getUserId fresh (refs h))) in *.
  assert (Hst : stored = Some userId).
  { subst stored. rewrite Hrefs. exact Hstored. }
  assert (Hso : socket = Some {| readyState := OPEN;
                                 sent := [ {| event := "join_chat";
                                              data := UserProfile_json
                                                        (joinProfile fresh preference
                                                           groupJoinMethod customGroupCode
                                                           (refs h)) |} ];
                                 onopenProfile := Some profile |}).
  { subst socket. rewrite Hrefs. reflexivity. }
  exists userId. eexists. split.
  { unfold UseChat.wire. fold socket. rewrite Hso. reflexivity. }
  split; [reflexivity|].
  assert (Hcur : WebRTCEvents.getCurrentUserId randomSuffix stored = (userId, Some userId)).
  { rewrite Hst. unfold WebRTCEvents.getCurrentUserId.
    destruct userId; [now elim Hne | reflexivity]. }
  split; [exact Hcur|].
  intros r Hin. cbn [In] in Hin.
  destruct Hin as [<- | [<- | [<- | [<- | []]]]];
    unfold WebRTCEvents.sendOffer, WebRTCEvents.sendAnswer,
      WebRTCEvents.sendIceCandidate, WebRTCEvents.sendEndCall;
    rewrite Hso; cbn [readyState isOPEN negb]; rewrite Hcur;
    (split; [reflexivity|]); (split; [reflexivity|]);
    eexists; eexists; (split; [reflexivity|]); reflexivity.
Qed.

Lemma webrtc_sender_id_is_join_user_id_witness :
  WebRTCEvents.getCurrentUserId (lit "k3j9x2a")
    (storedUserId
       (refs (UseChat.onopen
                (UseChat.connect Sample.fresh (lit "couple") None None
                   Sample.initialHook))))
  = (lit "u-ann", Some (lit "u-ann")).
Proof.
  destruct (webrtc_sender_id_is_join_user_id Sample.fresh (lit "couple") None None
              Sample.initialHook (lit "k3j9x2a") JNull JNull JNull (lit "u-bob")
              None None eq_refl)
    as (userId & joined & Hwire & Huser & Hcur & _).
  - discriminate.
  - discriminate.
  - injection Hwire as <-. injection Huser as <-. exact Hcur.
Defined.

(* ===================================================================== *)
(** * Further properties: the join input (chat-options.tsx)             *)
(* ===================================================================== *)

Lemma alnum_no_separator (s : jsstring) :
  forallb JSString.isAlnum s = true ->
  JSString.includes (lit "://") s = false /\
  JSString.startsWith (lit "/") s = false /\
  JSString.split 47 s = [s].
Proof.
  induction s as [|c s IH]; [repeat split|].
  cbn [forallb]. intros [Hc Hs]%andb_true_iff.
  destruct (IH Hs) as (Hi & _ & Hsplit).
  assert (Hc58 : (58 =? c) = false).
  { apply Z.eqb_neq. intros <-. discriminate Hc. }
  assert (Hc47 : (47 =? c) = false).
  { apply Z.eqb_neq. intros <-. discriminate Hc. }
  split; [|split].
  - cbn [JSString.includes lit map list_ascii_of_string JSString.startsWith] in *.
    change (Z.of_N (N_of_ascii ":")) with 58. rewrite Hc58. cbn [andb orb]. exact Hi.
  - cbn [lit map list_ascii_of_string JSString.startsWith].
    change (Z.of_N (N_of_ascii "/")) with 47. rewrite Hc47. reflexivity.
  - cbn [JSString.split]. rewrite Z.eqb_sym, Hc47, Hsplit. reflexivity.
Qed.

Lemma strip_short_alnum (s : jsstring) :
  (List.length s <= 6)%nat -> forallb JSString.isAlnum s = true ->
  JSString.substring 0 6 (JSString.stripNonAlnum (JSString.substring 0 6 s)) = s.
Proof.
  intros Hlen Hs. unfold JSString.substring, JSString.stripNonAlnum.
  cbn [skipn Nat.sub]. rewrite (firstn_all2 (n := 6) s) by assumption.
  rewrite forallb_filter_id by assumption. apply firstn_all2. assumption.
Qed.

Section ChatOptionsStored.

Variable URL_pathname : jsstring -> Completion jsstring.

Lemma onChange_shape (value : jsstring) :
  exists raw, ChatOptions.onChange URL_pathname value
              = firstn 6 (filter JSString.isAlnum raw).
Proof.
  unfold ChatOptions.onChange.
  destruct (ChatOptions.extractCodeFromInput URL_pathname value) as [code|e];
    cbn [bind try_catch]; eexists; reflexivity.
Qed.

(** X14.  Whatever is typed or pasted, the code that the input stores
    has at most six code units, all of them alphanumeric; feeding it to
    the handler again gives it back; and the join button accepts it exactly
    when it has six code units. *)
Theorem onChange_stores_short_alnum :
  forall value : jsstring,
    let code := ChatOptions.onChange URL_pathname value in
    (List.length code <= 6)%nat /\
    Forall (fun c => JSString.isAlnum c = true) code /\
    ChatOptions.onChange URL_pathname code = code /\
    forall (A : Type) (onStartGroupChat : GroupJoinMethod -> option jsstring -> A),
      (List.length code = 6%nat ->
       ChatOptions.handleJoinByCode onStartGroupChat code
       = ChatOptions.StartGroupChat (onStartGroupChat join (Some code))) /\
      (List.length code <> 6%nat ->
       ChatOptions.handleJoinByCode onStartGroupChat code
       = ChatOptions.ToastInvalidGroupCode).
Proof.
  intros value code.
  destruct (onChange_shape value) as [raw Hraw]. fold code in Hraw.
  assert (Hlen : (List.length code <= 6)%nat).
  { rewrite Hraw. apply firstn_le_length. }
  assert (Hall : forallb JSString.isAlnum code = true).
  { rewrite Hraw. apply forallb_forall. intros c Hc.
    assert (Hin : In c (filter JSString.isAlnum raw)).
    { rewrite <- (firstn_skipn 6 (filter JSString.isAlnum raw)).
      apply in_or_app. left. exact Hc. }
    apply filter_In in Hin. apply Hin. }
  split; [exact Hlen|]. split; [apply Forall_forall, forallb_forall; exact Hall|].
  split.
  - destruct (alnum_no_separator code Hall) as (Hurl & Hpath & _).
    rewrite onChange_direct_input by assumption.
    rewrite (firstn_all2 (n := 6) code) by assumption.
    apply forallb_filter_id. exact Hall.
  - intros A onStartGroupChat. rewrite handleJoinByCode_cases.
    split; intros H6.
    + replace (JSString.length code =? 6) with true
        by (symmetry; apply (JSString_length_eqb code 6); assumption).
      replace (JSString.testCode6 code) with true
        by (symmetry; apply testCode6_spec; auto).
      reflexivity.
    + replace (JSString.length code =? 6) with false; [reflexivity|].
      symmetry. apply Z.eqb_neq. unfold JSString.length. lia.
Qed.

(** X15.  The share link gives the code back: for a code of six
    alphanumerics, pasting the link that the share dialog copies, the path
    [/code] or the code itself into the join input stores exactly the
    code, which the join button then accepts. *)
Theorem share_link_gives_the_code_back :
  forall groupCode : jsstring,
    List.length groupCode = 6%nat -> forallb JSString.isAlnum groupCode = true ->
    URL_pathname (ShareGroupCode.handleCopyShareLink groupCode)
    = Normal (lit "/" ++ groupCode) ->
    ChatOptions.onChange URL_pathname (ShareGroupCode.handleCopyShareLink groupCode)
    = groupCode /\
    ChatOptions.onChange URL_pathname (lit "/" ++ groupCode) = groupCode /\
    ChatOptions.onChange URL_pathname groupCode = groupCode /\
    forall (A : Type) (onStartGroupChat : GroupJoinMethod -> option jsstring -> A),
      ChatOptions.handleJoinByCode onStartGroupChat groupCode
      = ChatOptions.StartGroupChat (onStartGroupChat join (Some groupCode)).
Proof.
  intros groupCode Hlen Hall Hurl.
  destruct (alnum_no_separator groupCode Hall) as (Hnourl & Hnopath & Hsplit).
  assert (Hstrip : JSString.substring 0 6
                     (JSString.stripNonAlnum (JSString.substring 0 6 groupCode))
                   = groupCode) by (apply strip_short_alnum; [lia | assumption]).
  split; [|split; [|split]].
  - unfold ChatOptions.onChange, ChatOptions.extractCodeFromInput.
    replace (JSString.includes (lit "://") (ShareGroupCode.handleCopyShareLink groupCode))
      with true by reflexivity.
    rewrite Hurl. cbn [bind try_catch].
    change (lit "/" ++ groupCode) with (47 :: groupCode).
    cbn [JSString.split Z.eqb Pos.eqb]. rewrite Hsplit. cbn [last]. exact Hstrip.
  - unfold ChatOptions.onChange, ChatOptions.extractCodeFromInput.
    change (lit "/" ++ groupCode) with (47 :: groupCode).
    assert (Hi : JSString.includes (lit "://") (47 :: groupCode) = false).
    { cbn [JSString.includes]. rewrite Hnourl.
      cbn [lit map list_ascii_of_string JSString.startsWith]. reflexivity. }
    rewrite Hi. cbn [lit map list_ascii_of_string JSString.startsWith].
    change (Z.of_N (N_of_ascii "/") =? 47) with true. cbn [andb bind try_catch].
    unfold JSString.substring at 2. cbn [skipn Nat.sub].
    unfold JSString.substring in Hstrip. cbn [skipn Nat.sub] in Hstrip. exact Hstrip.
  - unfold ChatOptions.onChange, ChatOptions.extractCodeFromInput.
    rewrite Hnourl, Hnopath. cbn [bind try_catch]. exact Hstrip.
  - intros A onStartGroupChat. rewrite handleJoinByCode_cases.
    replace (JSString.length groupCode =? 6) with true
      by (symmetry; apply (JSString_length_eqb groupCode 6); assumption).
    replace (JSString.testCode6 groupCode) with true
      by (symmetry; apply testCode6_spec; auto).
    reflexivity.
Qed.

End ChatOptionsStored.

Lemma share_link_gives_the_code_back_witness :
  ChatOptions.onChange yapsPathname (lit "https://yaps.chat/Ab12Cd") = lit "Ab12Cd".
Proof.
  apply (share_link_gives_the_code_back yapsPathname (lit "Ab12Cd")); reflexivity.
Defined.

Lemma isAlnum_not_white (c : Z) :
  JSString.isAlnum c = true -> JSString.isWhiteSpace c = false.
Proof.
  unfold JSString.isAlnum, JSString.isWhiteSpace. intros H.
  apply not_true_iff_false. intros Hw.
  rewrite !orb_true_iff, !andb_true_iff, !Z.leb_le in H.
  rewrite !orb_true_iff, !andb_true_iff, !Z.leb_le, !Z.eqb_eq in Hw. lia.
Qed.

Lemma trimStart_blank (s : jsstring) :
  JSString.trimStart s = [] <-> forallb JSString.isWhiteSpace s = true.
Proof.
  induction s as [|c s IH]; [split; reflexivity|].
  cbn [JSString.trimStart forallb].
  destruct (JSString.isWhiteSpace c); cbn [andb]; [exact IH|].
  split; discriminate.
Qed.

Lemma trimStart_head (s : jsstring) :
  match JSString.trimStart s with
  | [] => True
  | c :: _ => JSString.isWhiteSpace c = false
  end.
Proof.
  induction s as [|c s IH]; [exact I|].
  cbn [JSString.trimStart]. destruct (JSString.isWhiteSpace c) eqn:E; assumption.
Qed.

Lemma forallb_rev {A : Type} (f : A -> bool) (l : list A) :
  forallb f (rev l) = forallb f l.
Proof.
  induction l as [|x l IH]; [reflexivity|].
  cbn [rev forallb]. rewrite forallb_app, IH. cbn [forallb].
  rewrite andb_true_r. apply andb_comm.
Qed.

(** [trim] leaves nothing exactly of the strings made of white space. *)
Lemma trim_blank (s : jsstring) :
  JSString.trim s = [] <-> forallb JSString.isWhiteSpace s = true.
Proof.
  unfold JSString.trim, JSString.trimEnd. split.
  - intros H.
    assert (H1 : JSString.trimStart (rev (JSString.trimStart s)) = []).
    { destruct (JSString.trimStart (rev (JSString.trimStart s))) as [|x l];
        [reflexivity|].
      cbn [rev] in H. apply app_eq_nil in H. destruct H as [_ H]. discriminate H. }
    apply trimStart_blank in H1. rewrite forallb_rev in H1.
    pose proof (trimStart_head s) as Hh.
    destruct (JSString.trimStart s) as [|c t] eqn:E.
    + now apply trimStart_blank.
    + cbn [forallb] in H1. rewrite Hh in H1. discriminate.
  - intros H. apply trimStart_blank in H. rewrite H. reflexivity.
Qed.

Lemma trim_truthy (s : jsstring) :
  JSString.truthy (JSString.trim s) = negb (forallb JSString.isWhiteSpace s).
Proof.
  destruct (forallb JSString.isWhiteSpace s) eqn:E.
  - apply trim_blank in E. rewrite E. reflexivity.
  - destruct (JSString.trim s) eqn:T; [|reflexivity].
    apply trim_blank in T. congruence.
Qed.

Section KeyPress.

Variable URL_pathname : jsstring -> Completion jsstring.

(** X16.  In the join input the Enter key does what the join button
    does, except that on an empty code it does nothing at all: with the
    code that [onChange] has stored, Enter starts a join when the code has
    six characters, shows the toast when it has one to five, and no other
    key does anything. *)
Theorem handleKeyPress_joins_on_enter :
  forall (A : Type) (onStartGroupChat : GroupJoinMethod -> option jsstring -> A)
         (value key : jsstring),
    let code := ChatOptions.onChange URL_pathname value in
    ChatOptions.handleKeyPress onStartGroupChat code key
    = if JSString.eqb key (lit "Enter") then
        match List.length code with
        | 0%nat => None
        | 6%nat => Some (ChatOptions.StartGroupChat (onStartGroupChat join (Some code)))
        | _ => Some ChatOptions.ToastInvalidGroupCode
        end
      else None.
Proof.
  intros A onStartGroupChat value key code.
  unfold ChatOptions.handleKeyPress.
  destruct (JSString.eqb key (lit "Enter")); [|reflexivity]. cbn [andb].
  destruct (onChange_shape URL_pathname value) as [raw Hraw]. fold code in Hraw.
  assert (Hall : forallb JSString.isAlnum code = true).
  { rewrite Hraw. apply forallb_forall. intros c Hc.
    assert (Hin : In c (filter JSString.isAlnum raw)).
    { rewrite <- (firstn_skipn 6 (filter JSString.isAlnum raw)).
      apply in_or_app. left. exact Hc. }
    apply filter_In in Hin. apply Hin. }
  rewrite trim_truthy, handleJoinByCode_cases.
  destruct code as [|c code'] eqn:Hcode; [reflexivity|]. rewrite <- Hcode in *.
  assert (Hc : JSString.isWhiteSpace c = false).
  { apply isAlnum_not_white. rewrite Hcode in Hall. cbn [forallb] in Hall.
    apply andb_true_iff in Hall. apply Hall. }
  replace (forallb JSString.isWhiteSpace code) with false
    by (rewrite Hcode; cbn [forallb]; rewrite Hc; reflexivity).
  cbn [negb].
  destruct (Nat.eq_dec (List.length code) 6) as [H6 | H6].
  - rewrite H6.
    replace (JSString.length code =? 6) with true
      by (symmetry; apply (JSString_length_eqb code 6); assumption).
    replace (JSString.testCode6 code) with true
      by (symmetry; apply testCode6_spec; auto).
    reflexivity.
  - replace (JSString.length code =? 6) with false
      by (symmetry; apply Z.eqb_neq; unfold JSString.length; lia).
    cbn [andb]. rewrite Hcode in *. cbn [List.length] in *.
    remember (List.length code') as n eqn:Hn. clear - H6.
    do 7 (destruct n as [|n]; [first [reflexivity | now elim H6]|]). reflexivity.
Qed.

End KeyPress.

(* ===================================================================== *)
(** * Further properties: the signalling listener (webrtc-events.ts)    *)
(* ===================================================================== *)

(** X17.  The listener of [initializeWebRTCEvents] is added only to an
    open socket.  It hands a message to a callback exactly when its event
    is one of the four signalling events, and then to the callback of that
    event with the data of the message; the frame that each send function
    transmits is one that the listener hands to the matching callback.  A
    message of any other event, a message without an event and a text that
    is not JSON are ignored. *)
Theorem webrtc_listener_takes_the_four_signals :
  forall (A : Type) (callbacks : WebRTCEvents.Callbacks A) (socket : option WebSocket),
    (WebRTCEvents.initializeWebRTCEvents socket callbacks
     = match socket with
       | Some ws => if isOPEN (readyState ws)
                    then Some (WebRTCEvents.handleSocketMessage callbacks)
                    else None
       | None => None
       end) /\
    (forall d : JSON,
        WebRTCEvents.handleSocketMessage callbacks
          (Normal (serverMessage (lit "webrtc_offer") d))
        = WebRTCEvents.call (WebRTCEvents.onOffer callbacks) (Some d) /\
        WebRTCEvents.handleSocketMessage callbacks
          (Normal (serverMessage (lit "webrtc_answer") d))
        = WebRTCEvents.call (WebRTCEvents.onAnswer callbacks) (Some d) /\
        WebRTCEvents.handleSocketMessage callbacks
          (Normal (serverMessage (lit "webrtc_ice_candidate") d))
        = WebRTCEvents.call (WebRTCEvents.onIceCandidate callbacks) (Some d) /\
        WebRTCEvents.handleSocketMessage callbacks
          (Normal (serverMessage (lit "webrtc_end_call") d))
        = WebRTCEvents.call (WebRTCEvents.onEndCall callbacks) (Some d)) /\
    (forall (name : jsstring) (d : JSON),
        ~ In name [lit "webrtc_offer"; lit "webrtc_answer";
                   lit "webrtc_ice_candidate"; lit "webrtc_end_call"] ->
        WebRTCEvents.handleSocketMessage callbacks (Normal (serverMessage name d))
        = None) /\
    (forall v : JSON,
        property "event" v = None ->
        WebRTCEvents.handleSocketMessage callbacks (Normal v) = None) /\
    (forall e : string,
        WebRTCEvents.handleSocketMessage callbacks (Throw e) = None) /\
    forall (randomSuffix : jsstring) (storedUserId : option jsstring) (ws : WebSocket)
           (offer answer candidate : JSON) (targetId : jsstring)
           (isGroupChat : option bool) (groupCode : option jsstring)
           (r : WebRTCEvents.Sent) (callback : option (option JSON -> A)),
      readyState ws = OPEN ->
      In (r, callback)
         [ (WebRTCEvents.sendOffer randomSuffix storedUserId (Some ws) offer targetId
              isGroupChat groupCode, WebRTCEvents.onOffer callbacks);
           (WebRTCEvents.sendAnswer randomSuffix storedUserId (Some ws) answer targetId
              isGroupChat groupCode, WebRTCEvents.onAnswer callbacks);
           (WebRTCEvents.sendIceCandidate randomSuffix storedUserId (Some ws) candidate
              targetId isGroupChat groupCode, WebRTCEvents.onIceCandidate callbacks);
           (WebRTCEvents.sendEndCall randomSuffix storedUserId (Some ws) targetId
              isGroupChat groupCode, WebRTCEvents.onEndCall callbacks) ] ->
      exists f,
        option_map sent (WebRTCEvents.socketAfter r) = Some (sent ws ++ [f]) /\
        WebRTCEvents.handleSocketMessage callbacks
          (Normal (serverMessage (lit (event f)) (data f)))
        = WebRTCEvents.call callback (Some (data f)).
Proof.
  intros A callbacks socket.
  split; [|split; [|split; [|split; [|split]]]].
  - unfold WebRTCEvents.initializeWebRTCEvents.
    destruct socket as [ws|]; [|reflexivity].
    destruct (isOPEN (readyState ws)); reflexivity.
  - intros d. repeat split.
  - intros name d Hnot.
    unfold WebRTCEvents.handleSocketMessage, serverMessage.
    cbn [bind try_catch property find fst snd String.eqb Ascii.eqb Bool.eqb].
    repeat match goal with
           | |- context [JSString.eqb name ?l] =>
               destruct (JSString.eqb name l) eqn:Heq;
               [apply JSString_eqb_eq in Heq; exfalso; apply Hnot; subst name;
                cbn; tauto | clear Heq]
           end.
    reflexivity.
  - intros v Hv. unfold WebRTCEvents.handleSocketMessage.
    cbn [bind try_catch]. rewrite Hv. reflexivity.
  - reflexivity.
  - intros randomSuffix storedUserId ws offer answer candidate targetId isGroupChat
           groupCode r callback Hopen Hin.
    cbn [In] in Hin.
    destruct Hin as [Heq | [Heq | [Heq | [Heq | []]]]]; injection Heq as <- <-;
      unfold WebRTCEvents.sendOffer, WebRTCEvents.sendAnswer,
        WebRTCEvents.sendIceCandidate, WebRTCEvents.sendEndCall;
      rewrite Hopen; cbn [isOPEN negb];
      destruct (WebRTCEvents.getCurrentUserId randomSuffix storedUserId)
        as [senderId stored'];
      cbn [WebRTCEvents.socketAfter option_map transmit sent];
      eexists; (split; [reflexivity|]); reflexivity.
Qed.

(* ===================================================================== *)
(** * Further properties: sending from the chat (chat.tsx)              *)
(* ===================================================================== *)

Lemma sendTypingIndicator_open (view : ChatState) (isTyping : bool) (h : Hook)
    (ws : WebSocket) :
  socketRef (refs h) = Some ws -> readyState ws = OPEN -> connected view = true ->
  UseChat.sendTypingIndicator view isTyping h
  = {| state := state h;
       refs := UseChat.setSocketRef (Some (transmit ws (typingFrame view isTyping)))
                 (refs h) |}.
Proof.
  intros Hsock Hopen Hconn. unfold UseChat.sendTypingIndicator.
  rewrite Hsock, Hconn. cbn [negb]. unfold UseChat.withRefs, UseChat.sendJsonMessage.
  rewrite Hsock, Hopen. reflexivity.
Qed.

(** X18.  [handleSend] sends nothing when there is nothing to send: when
    the chat is not connected it only shows a toast, and when the input is
    empty or all white space and no file is selected it does nothing at
    all; the hook and the state of the component stay as they were. *)
Theorem handleSend_nothing_to_send :
  forall (aes : AesGcm) (CRYPTO_KEY : option jsstring) (view : ChatState)
         (fresh : Fresh) (clock : Z) (u : Chat.ChatUI) (h : Hook),
    let r := Chat.handleSend aes CRYPTO_KEY view fresh clock u h in
    (connected view = false ->
     r = {| Chat.ui := u; Chat.hook := h; Chat.toasts := ["Not connected"%string];
            Chat.pending := Chat.Done |}) /\
    (connected view = true ->
     forallb JSString.isWhiteSpace (Chat.input u) = true -> Chat.files u = [] ->
     r = {| Chat.ui := u; Chat.hook := h; Chat.toasts := [];
            Chat.pending := Chat.Done |}) /\
    (UseChat.wire (Chat.hook r) <> UseChat.wire h ->
     connected view = true /\
     (forallb JSString.isWhiteSpace (Chat.input u) = false \/ Chat.files u <> [])).
Proof.
  intros aes CRYPTO_KEY view fresh clock u h r. subst r.
  unfold Chat.handleSend. rewrite trim_truthy.
  destruct (connected view); cbn [negb].
  - split; [discriminate|].
    destruct (forallb JSString.isWhiteSpace (Chat.input u)) eqn:Hblank; cbn [negb orb].
    + destruct (Chat.files u) as [|f fs] eqn:Hfiles; cbn [List.length Z.of_nat Z.ltb Z.compare].
      * split; [reflexivity|]. intros Hwire. now elim Hwire.
      * split; [discriminate|]. intros _. split; [reflexivity|]. right. discriminate.
    + split; [discriminate|]. intros _. split; [reflexivity|]. left. reflexivity.
  - split; [reflexivity|]. split; [discriminate|]. intros Hwire. now elim Hwire.
Qed.

Section HandleSend.

Variable aes : AesGcm.
Variable CRYPTO_KEY : option jsstring.
Variable view : ChatState.
Variable fresh : Fresh.
Variable clock : Z.
Variable u : Chat.ChatUI.
Variable h : Hook.
Variable ws : WebSocket.

Hypothesis chat_connected : connected view = true.
Hypothesis socket_present : socketRef (refs h) = Some ws.
Hypothesis socket_open : readyState ws = OPEN.

(** X19.  A text is sent trimmed, between two [typing_stop] frames: with
    no file selected and an input that is not blank, [handleSend] transmits
    [typing_stop], the [send_message] frame of the trimmed input and
    [typing_stop] again, adds the trimmed text to the messages as the
    user's own, and leaves the input empty, the status ready and the reply
    reset. *)
Theorem handleSend_sends_trimmed_text :
  forall e : EncryptedData,
    Chat.files u = [] -> JSString.trim (Chat.input u) <> [] ->
    Crypto.encryptMessage aes CRYPTO_KEY (randomBytes12 fresh)
      (TextContent (JSString.trim (Chat.input u))) = Normal e ->
    let r := Chat.handleSend aes CRYPTO_KEY view fresh clock u h in
    Chat.pending r = Chat.Done /\ Chat.toasts r = [] /\
    Chat.ui r = settled [] /\
    UseChat.wire (Chat.hook r)
    = sent ws ++ [typingFrame view false;
                  sendMessageFrame view e (currentReplyTo view);
                  typingFrame view false] /\
    (exists m,
        messages (state (Chat.hook r)) = messages (state h) ++ [m] /\
        body m = text (JSString.trim (Chat.input u)) /\
        isOwnMessage m = true /\ replyToId m = currentReplyTo view) /\
    currentReplyTo (state (Chat.hook r))
    = match currentReplyTo view with
      | Some _ => None
      | None => currentReplyTo (state h)
      end.
Proof.
  intros e Hfiles Htrim Henc r. subst r.
  unfold Chat.handleSend. rewrite chat_connected, Hfiles. cbn [negb].
  destruct (JSString.trim (Chat.input u)) as [|c t] eqn:Ht; [now elim Htrim|].
  cbn [JSString.truthy orb]. unfold Chat.awaitSendMessage. cbn [Chat.hook].
  rewrite (sendTypingIndicator_open view false h ws socket_present socket_open
             chat_connected).
  set (h1 := {| state := state h;
                refs := UseChat.setSocketRef
                          (Some (transmit ws (typingFrame view false))) (refs h) |}).
  destruct (sendMessage_open aes CRYPTO_KEY view fresh (TextContent (c :: t))
              (currentReplyTo view) h1 (transmit ws (typingFrame view false)) e
              eq_refl socket_open chat_connected I Henc)
    as (Hwire & Hres & (m & Hm & Hown & Hreply & Hbody) & _).
  cbn [contentToEncrypt] in *.
  destruct (UseChat.sendMessage aes CRYPTO_KEY view fresh (TextContent (c :: t))
              (currentReplyTo view) h1) as [h2 result] eqn:Hsend.
  cbn [fst snd] in *. subst result.
  assert (Hne : sent (transmit ws (typingFrame view false))
                ++ [] ++ [sendMessageFrame view e (currentReplyTo view)] <> []).
  { intros Habs. apply app_eq_nil in Habs. destruct Habs as [_ Habs]. discriminate Habs. }
  destruct (wire_socket h2 _ Hne Hwire) as (ws2 & Hs2 & Hsent2).
  destruct (sendMessage_keeps_open aes CRYPTO_KEY view fresh (TextContent (c :: t))
              (currentReplyTo view) h1 (transmit ws (typingFrame view false))
              eq_refl socket_open) as (ws2' & Hs2' & Ho2).
  rewrite Hsend in Hs2'. cbn [fst] in Hs2'. rewrite Hs2 in Hs2'. injection Hs2' as <-.
  unfold Chat.sendMessageSettled, Chat.finally, Chat.clearAfterSending.
  cbn [Chat.ui Chat.hook Chat.toasts Chat.pending Chat.input].
  split; [reflexivity|]. split; [reflexivity|]. split; [reflexivity|].
  assert (Hset : forall o, socketRef (refs (match currentReplyTo view with
                                            | Some _ => UseChat.setReplyTo o h2
                                            | None => h2
                                            end)) = Some ws2).
  { intros o. destruct (currentReplyTo view); exact Hs2. }
  split.
  { rewrite (sendTypingIndicator_open view false _ ws2 (Hset None) Ho2 chat_connected).
    unfold UseChat.wire. cbn [refs UseChat.setSocketRef socketRef transmit sent].
    rewrite Hsent2. cbn [transmit sent]. rewrite <- !app_assoc. reflexivity. }
  split.
  { exists m.
    rewrite (sendTypingIndicator_open view false _ ws2 (Hset None) Ho2 chat_connected).
    cbn [state]. split; [|repeat split; assumption].
    destruct (currentReplyTo view); exact Hm. }
  rewrite (sendTypingIndicator_open view false _ ws2 (Hset None) Ho2 chat_connected).
  cbn [state].
  unfold UseChat.sendMessage in Hsend.
  replace (socketRef (refs h1)) with (Some (transmit ws (typingFrame view false)))
    in Hsend by reflexivity.
  rewrite chat_connected in Hsend. cbn [negb UseChat.prepare] in Hsend.
  rewrite Henc in Hsend.
  destruct (UseChat.getUserId fresh (refs h1)) as [senderId r2].
  injection Hsend as <-.
  destruct (currentReplyTo view); reflexivity.
Qed.

(** X20.  When the message cannot be encrypted, the text that was typed
    is kept: [handleSend] shows the error toast, adds no message and sends
    no [send_message] frame, only the two [typing_stop] frames, and leaves
    the input as it was with the status ready again. *)
Theorem handleSend_keeps_input_on_failure :
  forall err : string,
    Chat.files u = [] -> JSString.trim (Chat.input u) <> [] ->
    Crypto.encryptMessage aes CRYPTO_KEY (randomBytes12 fresh)
      (TextContent (JSString.trim (Chat.input u))) = Throw err ->
    let r := Chat.handleSend aes CRYPTO_KEY view fresh clock u h in
    Chat.pending r = Chat.Done /\
    Chat.toasts r = ["Error sending message"%string] /\
    Chat.ui r = settled (Chat.input u) /\
    UseChat.wire (Chat.hook r)
    = sent ws ++ [typingFrame view false; typingFrame view false] /\
    state (Chat.hook r) = state h.
Proof.
  intros err Hfiles Htrim Henc r. subst r.
  unfold Chat.handleSend. rewrite chat_connected, Hfiles. cbn [negb].
  destruct (JSString.trim (Chat.input u)) as [|c t] eqn:Ht; [now elim Htrim|].
  cbn [JSString.truthy orb]. unfold Chat.awaitSendMessage. cbn [Chat.hook].
  rewrite (sendTypingIndicator_open view false h ws socket_present socket_open
             chat_connected).
  unfold UseChat.sendMessage. cbn [refs UseChat.setSocketRef socketRef].
  rewrite chat_connected. cbn [negb UseChat.prepare]. rewrite Henc.
  unfold Chat.sendMessageSettled, Chat.finally, Chat.catch.
  cbn [Chat.ui Chat.hook Chat.toasts Chat.pending Chat.input].
  cbn [state].
  rewrite (sendTypingIndicator_open view false
             {| state := state h;
                refs := UseChat.setSocketRef
                          (Some (transmit ws (typingFrame view false))) (refs h) |}
             (transmit ws (typingFrame view false)) eq_refl socket_open chat_connected).
  split; [reflexivity|]. split; [reflexivity|]. split; [reflexivity|].
  split; [|reflexivity].
  unfold UseChat.wire. cbn [refs UseChat.setSocketRef socketRef transmit sent].
  rewrite <- app_assoc. reflexivity.
Qed.

End HandleSend.

Section HandleSendFile.

Variable aes : AesGcm.
Variable CRYPTO_KEY : option jsstring.
Variable view : ChatState.
Variable fresh : Fresh.
Variable clock : Z.
Variable u : Chat.ChatUI.
Variable h : Hook.
Variable ws : WebSocket.

Hypothesis chat_connected : connected view = true.
Hypothesis socket_present : socketRef (refs h) = Some ws.
Hypothesis socket_open : readyState ws = OPEN.


End HandleSendFile.

Lemma handleSend_sends_trimmed_text_witness :
  exists m,
    messages
      (state
         (Chat.hook
            (Chat.handleSend Sample.toyAes (Some Sample.key32) (Sample.groupState [])
               Sample.fresh 1700000000002
               {| Chat.input := lit "  hi "; Chat.isLoading := false; Chat.files := [];
                  Chat.status := Chat.ready; Chat.fileSending := false;
                  Chat.fileId := None |}
               (Sample.groupHook OPEN []))))
    = [m] /\ body m = text (lit "hi").
Proof.
  destruct (handleSend_sends_trimmed_text Sample.toyAes (Some Sample.key32)
              (Sample.groupState []) Sample.fresh 1700000000002
              {| Chat.input := lit "  hi "; Chat.isLoading := false; Chat.files := [];
                 Chat.status := Chat.ready; Chat.fileSending := false;
                 Chat.fileId := None |}
              (Sample.groupHook OPEN [])
              {| readyState := OPEN; sent := []; onopenProfile := None |}
              eq_refl eq_refl eq_refl
              {| encrypted := Encoding.base64_encode
                                (Sample.complement (lit "hi") ++ Sample.zeroTag);
                 nonce := Encoding.base64_encode (randomBytes12 Sample.fresh) |}
              eq_refl)
    as (_ & _ & _ & _ & (m & Hm & Hbody & _) & _).
  - discriminate.
  - reflexivity.
  - exists m. split; [exact Hm | exact Hbody].
Defined.

Lemma handleSend_keeps_input_on_failure_witness :
  Chat.input
    (Chat.ui
       (Chat.handleSend Sample.toyAes None (Sample.groupState []) Sample.fresh
          1700000000002
          {| Chat.input := lit "  hi "; Chat.isLoading := false; Chat.files := [];
             Chat.status := Chat.ready; Chat.fileSending := false;
             Chat.fileId := None |}
          (Sample.groupHook OPEN [])))
  = lit "  hi ".
Proof.
  destruct (handleSend_keeps_input_on_failure Sample.toyAes None
              (Sample.groupState []) Sample.fresh 1700000000002
              {| Chat.input := lit "  hi "; Chat.isLoading := false; Chat.files := [];
                 Chat.status := Chat.ready; Chat.fileSending := false;
                 Chat.fileId := None |}
              (Sample.groupHook OPEN [])
              {| readyState := OPEN; sent := []; onopenProfile := None |}
              eq_refl eq_refl eq_refl
              "Encryption failed: Encryption key not found in environment variables"
              eq_refl)
    as (_ & _ & Hui & _).
  - discriminate.
  - reflexivity.
  - rewrite Hui. reflexivity.
Defined.


(* ===================================================================== *)
(** * Further properties: the partner, the video chat and the screens   *)
(* ===================================================================== *)

(** X22.  Outside a group the partner of the chat is read off the first
    stored message whose sender is not the literal [user].  Every
    [chat_started] event that carries data puts a notification of the
    sender [system] first; a [chat_started] frame without data leaves the
    stored messages as they are, and messages received or sent are
    appended after the first one; so as long as the socket carries no
    [partnerId], the partner id and the partner name of a chat with a
    stranger that such a notification opens are [system]. *)
Theorem stranger_partner_is_the_first_sender :
  forall (aes : AesGcm) (CRYPTO_KEY : option jsstring)
         (unicodeTextRegex : jsstring -> bool) (view : ChatState) (fresh : Fresh),
    (forall (dataGroupCode : option jsstring) (s : ChatState),
        opensWithNotification
          (UseChat.handleServerEvent aes CRYPTO_KEY unicodeTextRegex view fresh
             (chat_started dataGroupCode) s)) /\
    (forall s : ChatState,
        messages
          (UseChat.handleServerEvent aes CRYPTO_KEY unicodeTextRegex view fresh
             chat_started_without_data s)
        = messages s /\
        (opensWithNotification s ->
         opensWithNotification
           (UseChat.handleServerEvent aes CRYPTO_KEY unicodeTextRegex view fresh
              chat_started_without_data s))) /\
    (forall (data : ReceiveMessageData) (s : ChatState),
        opensWithNotification s ->
        opensWithNotification
          (UseChat.handleServerEvent aes CRYPTO_KEY unicodeTextRegex view fresh
             (receive_message data) s)) /\
    (forall (content : MessageContent) (replyTo : option jsstring) (h : Hook),
        opensWithNotification (state h) ->
        opensWithNotification
          (state (fst (UseChat.sendMessage aes CRYPTO_KEY view fresh content replyTo h)))) /\
    (forall (s : ChatState) (socketPartnerId socketPartnerUsername storedPartnerName
                              : option jsstring),
        UseChat.present (groupCode s) = false ->
        UseChat.present socketPartnerId = false ->
        (forall (m : Message) (rest : list Message),
            messages s = m :: rest -> sender m <> lit "user" -> sender m <> [] ->
            Chat.getPartnerId s socketPartnerId = Some (sender m) /\
            Chat.getPartnerUsername s socketPartnerUsername storedPartnerName
            = sender m) /\
        (opensWithNotification s ->
         Chat.getPartnerId s socketPartnerId = Some (lit "system") /\
         Chat.getPartnerUsername s socketPartnerUsername storedPartnerName
         = lit "system")).
Proof.
  intros aes CRYPTO_KEY unicodeTextRegex view fresh.
  assert (Happ : forall (l : list Message) (m : Message),
             (exists n rest, l = n :: rest /\ sender n = lit "system") ->
             exists n rest, l ++ [m] = n :: rest /\ sender n = lit "system").
  { intros l m (n & rest & -> & Hn). exists n, (rest ++ [m]). split; [reflexivity | exact Hn]. }
  assert (Hfirst : forall (s : ChatState) (p1 p2 p3 : option jsstring),
             UseChat.present (groupCode s) = false -> UseChat.present p1 = false ->
             forall m rest,
               messages s = m :: rest -> sender m <> lit "user" -> sender m <> [] ->
               Chat.getPartnerId s p1 = Some (sender m) /\
               Chat.getPartnerUsername s p2 p3 = sender m).
  { intros s p1 p2 p3 Hg Hp m rest Hm Huser Hne.
    unfold Chat.getPartnerId, Chat.getPartnerUsername. rewrite Hg, Hp, Hm.
    cbn [find]. apply JSString_eqb_neq in Huser. rewrite Huser. cbn [negb].
    destruct (sender m); [now elim Hne|]. split; reflexivity. }
  split; [|split; [|split; [|split]]].
  - intros dataGroupCode s.
    cbn [UseChat.handleServerEvent UseChat.handlePlainEvent].
    unfold UseChat.handleChatStarted.
    destruct (UseChat.present dataGroupCode); eexists; eexists; split; reflexivity.
  - intros s. split; [reflexivity|]. intros Hs. exact Hs.
  - intros data s Hs. cbn [UseChat.handleServerEvent].
    unfold UseChat.handleReceiveMessage.
    destruct (UseChat.receivedMessage aes CRYPTO_KEY unicodeTextRegex view fresh data);
      cbn [bind try_catch]; apply Happ; exact Hs.
  - intros content replyTo h Hs. unfold UseChat.sendMessage.
    destruct (socketRef (refs h)); [|exact Hs].
    destruct (connected view); cbn [negb fst]; [|exact Hs].
    destruct (UseChat.prepare view fresh content (refs h)) as [[[messageToSend fileId] r1]|e];
      [|exact Hs].
    destruct (Crypto.encryptMessage aes CRYPTO_KEY (randomBytes12 fresh) messageToSend);
      [|exact Hs].
    destruct (UseChat.getUserId fresh r1) as [senderId r2]. cbn [fst state].
    destruct replyTo; cbn [UseChat.setMessageCounter UseChat.setMessages
                           UseChat.setCurrentReplyTo messages];
      apply Happ; exact Hs.
  - intros s p1 p2 p3 Hg Hp. split.
    + intros m rest. apply Hfirst; assumption.
    + intros (n & rest & Hm & Hn).
      rewrite <- Hn. apply (Hfirst s p1 p2 p3 Hg Hp n rest Hm); rewrite Hn; discriminate.
Qed.

(** X23.  A click on the video button opens the video chat only in a
    connected chat whose partner has not left, with a partner id, in a
    browser that supports WebRTC and over an open socket; in every other
    case the provider stays as it was.  In a group the partner of the video
    chat is the group itself: the id is the group code and the name is
    [Group] followed by the code.  [endVideoChat] closes it again. *)
Theorem handleStartVideoChat_needs_an_open_chat :
  forall (view : ChatState) (socket : option WebSocket)
         (socketPartnerId socketPartnerUsername storedPartnerName : option jsstring)
         (v : VideoChatProvider.VideoChat),
    let v' := fst (ChatInput.handleStartVideoChat view socket socketPartnerId
                     socketPartnerUsername storedPartnerName v) in
    (canStartVideoChat view socket socketPartnerId v = false -> v' = v) /\
    (canStartVideoChat view socket socketPartnerId v = true ->
     VideoChatProvider.rendersVideoChat v' = true /\
     exists info,
       VideoChatProvider.partnerInfo v' = Some info /\
       Chat.getPartnerId view socketPartnerId = Some (VideoChatProvider.partnerId info) /\
       VideoChatProvider.username info <> [] /\
       VideoChatProvider.isGroupChat info = UseChat.present (groupCode view) /\
       forall code,
         groupCode view = Some code -> code <> [] ->
         info = {| VideoChatProvider.partnerId := code;
                   VideoChatProvider.username := lit "Group " ++ code;
                   VideoChatProvider.isGroupChat := true;
                   VideoChatProvider.groupCode := Some code |}) /\
    VideoChatProvider.rendersVideoChat (VideoChatProvider.endVideoChat v') = false /\
    VideoChatProvider.partnerInfo (VideoChatProvider.endVideoChat v') = None.
Proof.
  intros view socket p1 p2 p3 v v'. subst v'.
  unfold canStartVideoChat, ChatInput.handleStartVideoChat,
    VideoChatProvider.startVideoChat.
  split; [|split; [|split; reflexivity]].
  - destruct (connected view); cbn [negb andb orb]; [|reflexivity].
    destruct (partnerDisconnected view); cbn [negb andb orb]; [reflexivity|].
    destruct (Chat.getPartnerId view p1) as [[|c partnerId]|];
      cbn [UseChat.present JSString.truthy andb]; try reflexivity.
    destruct (VideoChatProvider.isWebRTCSupported v); cbn [negb andb]; [|reflexivity].
    destruct socket as [ws|]; [|reflexivity].
    destruct (isOPEN (readyState ws)); [discriminate | reflexivity].
  - destruct (connected view); cbn [negb andb orb]; [|discriminate].
    destruct (partnerDisconnected view); cbn [negb andb orb]; [discriminate|].
    destruct (Chat.getPartnerId view p1) as [[|c partnerId]|] eqn:Hid;
      cbn [UseChat.present JSString.truthy andb]; try discriminate.
    destruct (VideoChatProvider.isWebRTCSupported v) eqn:Hsup; cbn [negb andb];
      [|discriminate].
    destruct socket as [ws|]; [|discriminate].
    destruct (isOPEN (readyState ws)); [|discriminate].
    intros _. cbn [negb fst]. split; [reflexivity|].
    eexists. split; [reflexivity|]. cbn [VideoChatProvider.partnerId
      VideoChatProvider.username VideoChatProvider.isGroupChat].
    split; [reflexivity|]. split.
    + destruct (Chat.getPartnerUsername view p2 p3); discriminate.
    + split; [reflexivity|]. intros code Hcode Hne.
      unfold Chat.getPartnerId in Hid. unfold Chat.getPartnerUsername.
      rewrite Hcode in *. destruct code as [|x code]; [now elim Hne|].
      cbn [UseChat.present JSString.truthy UseChat.valueOr] in *.
      injection Hid as -> ->. reflexivity.
Qed.

(** X24.  What the playground shows follows the connection: the shimmer
    while [connect] waits with a socket, the welcome screen when the
    socket could not be created, the chat once [chat_started] has arrived,
    with data or without,
    and the welcome screen again after [no_match_found],
    [group_not_found], [disconnect] or, unless a connection is being made,
    [partner_disconnected].  When the socket closes before the chat has
    started the welcome screen is shown; when it closes on a started chat
    whose handlers were installed while [connected] was still false, the
    chat stays on the screen. *)
Theorem playground_screen_follows_connection :
  forall (aes : AesGcm) (CRYPTO_KEY : option jsstring)
         (unicodeTextRegex : jsstring -> bool) (view : ChatState) (fresh : Fresh),
    (forall preference groupJoinMethod customGroupCode h,
        Playground.ChatInterface
          (state (UseChat.connect fresh preference groupJoinMethod customGroupCode h))
        = if socketCreated fresh
          then Playground.ConnectingShimmer
          else Playground.WelcomeScreen) /\
    (forall dataGroupCode s,
        Playground.ChatInterface
          (UseChat.handleServerEvent aes CRYPTO_KEY unicodeTextRegex view fresh
             (chat_started dataGroupCode) s)
        = Playground.ChatScreen) /\
    (forall s,
        Playground.ChatInterface
          (UseChat.handleServerEvent aes CRYPTO_KEY unicodeTextRegex view fresh
             chat_started_without_data s)
        = Playground.ChatScreen) /\
    (forall ev s,
        ev = no_match_found \/ ev = group_not_found \/
        (ev = partner_disconnected /\ connecting s = false) ->
        Playground.ChatInterface
          (UseChat.handleServerEvent aes CRYPTO_KEY unicodeTextRegex view fresh ev s)
        = Playground.WelcomeScreen) /\
    (forall h,
        connecting (state h) = false ->
        Playground.ChatInterface (state (UseChat.disconnect h))
        = Playground.WelcomeScreen) /\
    (forall h ws,
        socketRef (refs h) = Some ws ->
        Playground.ChatInterface (state (UseChat.onclose view h))
        = if connected (state h) && negb (connected view)
          then Playground.ChatScreen
          else Playground.WelcomeScreen).
Proof.
  intros aes CRYPTO_KEY unicodeTextRegex view fresh.
  split; [|split; [|split; [|split; [|split]]]].
  - intros preference groupJoinMethod customGroupCode h.
    rewrite connect_state. destruct (socketCreated fresh); reflexivity.
  - intros dataGroupCode s.
    cbn [UseChat.handleServerEvent UseChat.handlePlainEvent].
    unfold UseChat.handleChatStarted.
    destruct (UseChat.present dataGroupCode); reflexivity.
  - intros s. reflexivity.
  - intros ev s [-> | [-> | [-> Hc]]]; try reflexivity.
    unfold Playground.ChatInterface.
    cbn [UseChat.handleServerEvent UseChat.handlePlainEvent
         UseChat.handlePartnerDisconnected UseChat.setConnected
         UseChat.setPartnerDisconnected UseChat.setPartnerTyping connecting connected].
    rewrite Hc. reflexivity.
  - intros h Hc. rewrite disconnect_state. unfold Playground.ChatInterface.
    cbn. rewrite Hc. reflexivity.
  - intros h ws Hsock. unfold UseChat.onclose. rewrite Hsock. cbn [state].
    unfold Playground.ChatInterface.
    destruct (connected view); cbn; [rewrite andb_false_r; reflexivity|].
    rewrite andb_true_r. destruct (connected (state h)); reflexivity.
Qed.
